(** * openalexcli: the request engine, parameter construction and
      identifier normalizers of [openalexcli/api/client.py]

    The development embeds [OpenAlexAPI._normalize_work_id],
    [_normalize_author_id], [_normalize_institution_id],
    [_normalize_source_id], [_build_params], [search_works] and [_request]
    as Rocq functions and proves properties of them.  It also embeds
    [APIError.to_dict], the [get_*], [search_*] and [get_*_works] methods,
    [get_citations] and [get_references], and, of
    [openalexcli/formatters/bibtex.py], [_escape_latex] and
    [_reconstruct_abstract].

    Python values are modelled as follows.
    - [str] is [string], read as ASCII text: [str.lower], [len], indexing,
      the whitespace stripped by [int()] and its digits are those of Python
      on a [str] whose characters are all below 128 ([PyStr.isascii]).
    - The [dict] of outgoing parameters is a [gmap string pyval]; the
      [extra_filters] dict, whose iteration order decides the order of the
      filter clauses, is an insertion-ordered association list.
    - [int] is [Z]; [float] is a binary64 value, kept as a dyadic rational
      and rounded after each operation.
    - A computation that performs exchanges, draws random numbers, sleeps
      or reports status is a function from the world before to a result and
      the world after; an exception is a value of [pyexc] in that result.
    - The HTTP transport, the random generator, the clock and the terminal
      are an environment [env] that answers the n-th exchange and the n-th
      draw.  The clock may fail: [datetime.fromtimestamp] raises for a time
      the platform cannot turn into a local date.  [time.sleep] raises for
      a length whose nanoseconds do not fit 64 bits.  The lazily created
      [httpx.Client] is not modelled. *)

From Stdlib Require Import ZArith Lia Bool List Ascii String DecimalString.
From Stdlib Require Import Floats.SpecFloat.
From stdpp Require Import gmap strings list fin_maps.

Local Open Scope string_scope.
Local Open Scope Z_scope.

(** ** Python string primitives *)

Module PyStr.

(** [s.startswith(p)] *)
Fixpoint startswith (s p : string) {struct p} : bool :=
  match p with
  | EmptyString => true
  | String a p' =>
      match s with
      | EmptyString => false
      | String b s' => if Ascii.eqb a b then startswith s' p' else false
      end
  end.

(** [p in s] *)
Fixpoint contains (s p : string) : bool :=
  if startswith s p then true
  else match s with
       | EmptyString => false
       | String _ s' => contains s' p
       end.

(** [len(s)] *)
Definition len (s : string) : Z := Z.of_nat (String.length s).

(** The scan of [s.replace(old, new)] for a non-empty [old]: occurrences
    are found left to right and do not overlap.  [skip] counts the
    characters of a matched occurrence that are still to be dropped. *)
Fixpoint replace_scan (old new s : string) (skip : nat) : string :=
  match s with
  | EmptyString => EmptyString
  | String c s' =>
      match skip with
      | S k => replace_scan old new s' k
      | O =>
          if startswith s old
          then new +:+ replace_scan old new s' (Nat.pred (String.length old))
          else String c (replace_scan old new s' O)
      end
  end.

(** With an empty [old], Python puts [new] before every character and at
    the end. *)
Fixpoint replace_empty (new s : string) : string :=
  match s with
  | EmptyString => new
  | String c s' => new +:+ String c (replace_empty new s')
  end.

(** [s.replace(old, new)] *)
Definition replace (s old new : string) : string :=
  match old with
  | EmptyString => replace_empty new s
  | String _ _ => replace_scan old new s O
  end.

Definition lower_char (c : ascii) : ascii :=
  let n := N_of_ascii c in
  if ((65 <=? n) && (n <=? 90))%N then ascii_of_N (n + 32) else c.

(** [s.lower()] *)
Fixpoint lower (s : string) : string :=
  match s with
  | EmptyString => EmptyString
  | String c s' => String (lower_char c) (lower s')
  end.

(** [s.split(sep)[-1]] for a one-character [sep]: what follows the last
    separator, or the whole string when there is none.  [acc] is the
    segment read since the last separator. *)
Fixpoint split_last_from (sep : ascii) (s : string) (acc : string) : string :=
  match s with
  | EmptyString => acc
  | String c s' =>
      if Ascii.eqb c sep then split_last_from sep s' EmptyString
      else split_last_from sep s' (acc +:+ String c EmptyString)
  end.

Definition split_last (sep : ascii) (s : string) : string :=
  split_last_from sep s EmptyString.

(** [s[i]] for [0 <= i]; [None] stands for [IndexError]. *)
Definition index (s : string) (i : nat) : option ascii := String.get i s.

(** Truthiness of a [str]: only the empty string is falsy. *)
Definition truthy (s : string) : bool :=
  match s with EmptyString => false | String _ _ => true end.

(** [s.isascii()].  The string operations above are those of Python on an
    ASCII [str]; on other text [lower], [len] and [index] are not. *)
Fixpoint isascii (s : string) : bool :=
  match s with
  | EmptyString => true
  | String c s' => (N_of_ascii c <? 128)%N && isascii s'
  end.

End PyStr.

(** ** Identifier normalizers *)

(** The prefix of a resource URL, which the normalizers strip. *)
Definition OPENALEX_URL : string := "https://openalex.org/".

(** [OpenAlexAPI._normalize_work_id] *)
Definition _normalize_work_id (work_id : string) : string :=
  if PyStr.startswith work_id "W" || PyStr.startswith work_id "https://openalex.org/"
  then PyStr.replace work_id "https://openalex.org/" ""
  else if PyStr.startswith work_id "10." || PyStr.startswith work_id "doi:"
  then
    let doi := PyStr.replace (PyStr.replace work_id "doi:" "") "https://doi.org/" "" in
    "doi:" +:+ doi
  else if PyStr.startswith (PyStr.lower work_id) "pmid:"
  then PyStr.lower work_id
  else if PyStr.startswith (PyStr.lower work_id) "mag:"
  then PyStr.lower work_id
  else if PyStr.contains work_id "openalex.org"
  then PyStr.split_last "/" work_id
  else work_id.

(** [OpenAlexAPI._normalize_author_id] *)
Definition _normalize_author_id (author_id : string) : string :=
  if PyStr.startswith author_id "A" || PyStr.startswith author_id "https://openalex.org/"
  then PyStr.replace author_id "https://openalex.org/" ""
  else if PyStr.contains author_id "orcid.org" || PyStr.startswith author_id "0000-"
  then
    let orcid := PyStr.replace (PyStr.replace author_id "https://orcid.org/" "") "orcid:" "" in
    "orcid:" +:+ orcid
  else author_id.

(** [OpenAlexAPI._normalize_institution_id] *)
Definition _normalize_institution_id (institution_id : string) : string :=
  if PyStr.startswith institution_id "I"
     || PyStr.startswith institution_id "https://openalex.org/"
  then PyStr.replace institution_id "https://openalex.org/" ""
  else if PyStr.contains institution_id "ror.org"
  then "ror:" +:+ PyStr.split_last "/" institution_id
  else if PyStr.startswith institution_id "ror:"
  then institution_id
  else institution_id.

(** [OpenAlexAPI._normalize_source_id].  The test [source_id[4] == "-"] is
    only reached when [len(source_id) == 9], so the index is in range. *)
Definition _normalize_source_id (source_id : string) : string :=
  if PyStr.startswith source_id "S" || PyStr.startswith source_id "https://openalex.org/"
  then PyStr.replace source_id "https://openalex.org/" ""
  else if (PyStr.len source_id =? 9)
          && match PyStr.index source_id 4 with
             | Some c => Ascii.eqb c "-"
             | None => false
             end
  then "issn:" +:+ source_id
  else if PyStr.startswith (PyStr.lower source_id) "issn:"
  then PyStr.lower source_id
  else source_id.

(** ** Python values and dictionaries *)

(** The values that reach the parameter mapping and the filter clauses. *)
Inductive pyval : Type :=
  | VNone
  | VBool (b : bool)
  | VInt (n : Z)
  | VStr (s : string).

(** [str(n)] for an [int]. *)
Definition str_of_int (n : Z) : string := NilZero.string_of_int (Z.to_int n).

(** [str(v)], as an f-string renders [{v}]. *)
Definition py_str (v : pyval) : string :=
  match v with
  | VNone => "None"
  | VBool true => "True"
  | VBool false => "False"
  | VInt n => str_of_int n
  | VStr s => s
  end.

(** [sep.join(l)] *)
Fixpoint py_join (sep : string) (l : list string) : string :=
  match l with
  | [] => ""
  | [x] => x
  | x :: rest => x +:+ sep +:+ py_join sep rest
  end.

(** Truthiness of [str | None]. *)
Definition truthy_str (o : option string) : bool :=
  match o with Some s => PyStr.truthy s | None => false end.

(** [a or b] on strings and on lists. *)
Definition str_or (a : option string) (b : string) : string :=
  match a with
  | Some s => if PyStr.truthy s then s else b
  | None => b
  end.

Definition list_or {A} (a : option (list A)) (b : list A) : list A :=
  match a with
  | Some (x :: l) => x :: l
  | _ => b
  end.

(** An insertion-ordered [dict[str, Any]]: [d[k] = v] overwrites in place
    when [k] is already a key and appends otherwise; [d.items()] is the
    list itself. *)
Module Dict.

Definition t : Type := list (string * pyval).

Definition empty : t := [].

Fixpoint setitem (d : t) (k : string) (v : pyval) : t :=
  match d with
  | [] => [(k, v)]
  | (k', v') :: d' =>
      if String.eqb k' k then (k, v) :: d' else (k', v') :: setitem d' k v
  end.

Definition items (d : t) : list (string * pyval) := d.

End Dict.

(** ** The client object *)

Record OpenAlexAPI : Type := {
  email : option string;
  max_retries : Z;
  max_retry_wait : Z;
  (* whether a [status_callback] was given; its calls are recorded as events *)
  status_callback : bool
}.

(** [OpenAlexAPI()] with the defaults of [__init__]. *)
Definition default_api : OpenAlexAPI :=
  {| email := None; max_retries := 3; max_retry_wait := 60;
     status_callback := false |}.

Definition DEFAULT_WORK_FIELDS : list string :=
  [ "id"; "doi"; "title"; "publication_year"; "publication_date"; "type";
    "cited_by_count"; "open_access"; "authorships"; "primary_location";
    "abstract_inverted_index"; "topics"; "biblio" ].

(** ** Parameter construction *)

(** The sort values the API accepts together with [group_by]. *)
Definition GROUPED_SORTS : list string :=
  [ "key"; "count"; "count:desc"; "count:asc"; "key:desc"; "key:asc" ].

(** [sort in ("key", "count", ...)] for [sort : str | None]. *)
Definition sort_in_grouped (sort : option string) : bool :=
  match sort with
  | Some s => existsb (String.eqb s) GROUPED_SORTS
  | None => false
  end.

(** The body of the loop over [extra_filters.items()]. *)
Definition append_clause (filters : list string) (kv : string * pyval) : list string :=
  match snd kv with
  | VNone => filters
  | value => (filters ++ [fst kv +:+ ":" +:+ py_str value])%list
  end.

(** The list [filters] of [_build_params] once both [if] blocks have run. *)
Definition build_filters (filter_str : option string)
    (extra_filters : option Dict.t) : list string :=
  let filters : list string := [] in
  let filters :=
    match filter_str with
    | Some s => if PyStr.truthy s then (filters ++ [s])%list else filters
    | None => filters
    end in
  match extra_filters with
  | Some (kv :: d) => fold_left append_clause (Dict.items (kv :: d)) filters
  | _ => filters
  end.

(** [OpenAlexAPI._build_params] *)
Definition _build_params (self : OpenAlexAPI)
    (filter_str search sort : option string) (page per_page : option Z)
    (select : option (list string)) (group_by : option string)
    (extra_filters : option Dict.t) : gmap string pyval :=
  let params : gmap string pyval := ∅ in
  let filters := build_filters filter_str extra_filters in
  let params :=
    match filters with
    | [] => params
    | _ :: _ => <["filter" := VStr (py_join "," filters)]> params
    end in
  let params :=
    match search with
    | Some s => if PyStr.truthy s then <["search" := VStr s]> params else params
    | None => params
    end in
  let params :=
    match group_by with
    | Some (String c g) =>
        let params := <["group_by" := VStr (String c g)]> params in
        if sort_in_grouped sort
        then <["sort" := match sort with Some s => VStr s | None => VNone end]> params
        else <["sort" := VStr "count:desc"]> params
    | _ =>
        let params :=
          match sort with
          | Some s => if PyStr.truthy s then <["sort" := VStr s]> params else params
          | None => params
          end in
        match select with
        | Some (f :: fs) => <["select" := VStr (py_join "," (f :: fs))]> params
        | _ => params
        end
    end in
  let params :=
    match page with
    | Some n => if n =? 0 then params else <["page" := VInt n]> params
    | None => params
    end in
  let params :=
    match per_page with
    | Some n => if n =? 0 then params else <["per_page" := VInt n]> params
    | None => params
    end in
  match email self with
  | Some e => if PyStr.truthy e then <["mailto" := VStr e]> params else params
  | None => params
  end.

(** The [extra_filters] dict that [search_works] builds. *)
Definition search_works_filters (from_date to_date : option string)
    (min_citations : option Z) (open_access : option bool)
    (work_type : option string) : Dict.t :=
  let extra_filters := Dict.empty in
  let extra_filters :=
    match from_date with
    | Some (String c s) =>
        Dict.setitem extra_filters "from_publication_date" (VStr (String c s))
    | _ => extra_filters
    end in
  let extra_filters :=
    match to_date with
    | Some (String c s) =>
        Dict.setitem extra_filters "to_publication_date" (VStr (String c s))
    | _ => extra_filters
    end in
  let extra_filters :=
    match min_citations with
    | Some n => Dict.setitem extra_filters "cited_by_count" (VStr (">" +:+ str_of_int n))
    | None => extra_filters
    end in
  let extra_filters :=
    match open_access with
    | Some true => Dict.setitem extra_filters "is_oa" (VStr "true")
    | _ => extra_filters
    end in
  match work_type with
  | Some (String c s) => Dict.setitem extra_filters "type" (VStr (String c s))
  | _ => extra_filters
  end.

(** The parameters [search_works] hands to [_request("GET", "/works", ...)]. *)
Definition search_works_params (self : OpenAlexAPI)
    (query filter_str from_date to_date : option string)
    (min_citations : option Z) (open_access : option bool)
    (work_type sort : option string) (page per_page : Z)
    (select : option (list string)) (group_by : option string)
    : gmap string pyval :=
  let extra_filters :=
    search_works_filters from_date to_date min_citations open_access work_type in
  _build_params self filter_str query
    (Some (str_or sort "cited_by_count:desc"))
    (Some page) (Some per_page)
    (Some (list_or select DEFAULT_WORK_FIELDS))
    group_by (Some extra_filters).

(** ** Python floats

    A [float] is an IEEE-754 binary64 value.  A finite one is kept as a pair
    [(m, e)] standing for [m * 2^e]; the operations compute the exact result
    and round it to 53 bits, ties to even, with the subnormal range and
    overflow to infinity.  The sign of zero is not kept: nothing in the
    client observes it. *)

Module PyFloat.

Inductive t : Type :=
  | Fin (m e : Z)
  | Inf (neg : bool)
  | NaN.

Definition PREC : Z := 53.
Definition EMAX : Z := 1024.
Definition EMIN : Z := -1074.

(** Number of binary digits of a non-negative integer. *)
Definition bits (a : Z) : Z := if a =? 0 then 0 else Z.log2 a + 1.

(** [a / 2^s] rounded to the nearest integer, ties to even ([0 <= a], [0 < s]). *)
Definition round_shift (a s : Z) : Z :=
  let q := a / 2 ^ s in
  let r := a mod 2 ^ s in
  match 2 * r ?= 2 ^ s with
  | Lt => q
  | Gt => q + 1
  | Eq => if Z.even q then q else q + 1
  end.

(** The binary64 value nearest to [m * 2^e]. *)
Definition round (m e : Z) : t :=
  let a := Z.abs m in
  let e' := Z.max (e + bits a - PREC) EMIN in
  let '(a', e'') := if e' <=? e then (a, e) else (round_shift a (e' - e), e') in
  if a' =? 0 then Fin 0 0
  else if bits a' + e'' >? EMAX then Inf (m <? 0)
  else Fin (Z.sgn m * a') e''.

Definition is_zero (m : Z) : bool := m =? 0.

(** [x * y] *)
Definition mul (x y : t) : t :=
  match x, y with
  | NaN, _ | _, NaN => NaN
  | Inf sx, Inf sy => Inf (xorb sx sy)
  | Inf sx, Fin my _ => if is_zero my then NaN else Inf (xorb sx (my <? 0))
  | Fin mx _, Inf sy => if is_zero mx then NaN else Inf (xorb (mx <? 0) sy)
  | Fin mx ex, Fin my ey => round (mx * my) (ex + ey)
  end.

(** [x + y] *)
Definition add (x y : t) : t :=
  match x, y with
  | NaN, _ | _, NaN => NaN
  | Inf sx, Inf sy => if Bool.eqb sx sy then x else NaN
  | Inf _, _ => x
  | _, Inf _ => y
  | Fin mx ex, Fin my ey =>
      let ez := Z.min ex ey in
      round (mx * 2 ^ (ex - ez) + my * 2 ^ (ey - ez)) ez
  end.

(** The literals [0.75] and [0.5]. *)
Definition c0_75 : t := Fin 3 (-2).
Definition c0_5 : t := Fin 1 (-1).

(** The conversion of an [int] operand of a float operation; [None] is
    the [OverflowError] ("int too large to convert to float"). *)
Definition of_int (n : Z) : option t :=
  match round n 0 with
  | Fin m e => Some (Fin m e)
  | _ => None
  end.

(** [random.random()]: [k / 2^53] for a 53-bit integer [k]. *)
Definition of_draw (k : Z) : t := Fin (k mod 2 ^ 53) (-53).

Inductive int_result : Type :=
  | IntOk (n : Z)
  | IntOverflowError
  | IntValueError.

(** [int(x)]: truncation towards zero; infinities and NaN raise. *)
Definition to_int (x : t) : int_result :=
  match x with
  | Fin m e => IntOk (if 0 <=? e then m * 2 ^ e else Z.quot m (2 ^ (- e)))
  | Inf _ => IntOverflowError
  | NaN => IntValueError
  end.

(** [lo <= x <= hi] for rationals [lo = ln / ld] and [hi = hn / hd] with
    positive denominators, as a proposition on the finite value [m * 2^e]. *)
Definition between (ln ld : Z) (x : t) (hn hd : Z) : Prop :=
  match x with
  | Fin m e =>
      if 0 <=? e
      then ln <= m * 2 ^ e * ld /\ m * 2 ^ e * hd <= hn
      else ln * 2 ^ (- e) <= m * ld /\ m * hd <= hn * 2 ^ (- e)
  | _ => False
  end.

End PyFloat.

(** ** Parsing [int(s)] *)

(** The whitespace [int()] skips around the literal of an ASCII [str]:
    tab, line feed, vertical tab, form feed, carriage return and space. *)
Definition is_space (c : ascii) : bool :=
  let n := N_of_ascii c in
  (((9 <=? n) && (n <=? 13)) || (n =? 32))%N.

Definition is_digit (c : ascii) : bool :=
  let n := N_of_ascii c in ((48 <=? n) && (n <=? 57))%N.

Definition digit_value (c : ascii) : Z := Z.of_N (N_of_ascii c) - 48.

Fixpoint lstrip (s : string) : string :=
  match s with
  | String c s' => if is_space c then lstrip s' else s
  | EmptyString => EmptyString
  end.

Fixpoint rstrip (s : string) : string :=
  match s with
  | EmptyString => EmptyString
  | String c s' =>
      match rstrip s' with
      | EmptyString => if is_space c then EmptyString else String c EmptyString
      | r => String c r
      end
  end.

(** Decimal digits, where single underscores may separate digits.
    [after_digit] tells whether the previous character was a digit. *)
Fixpoint parse_digits (s : string) (acc : Z) (after_digit : bool) : option Z :=
  match s with
  | EmptyString => if after_digit then Some acc else None
  | String c s' =>
      if is_digit c then parse_digits s' (10 * acc + digit_value c) true
      else if Ascii.eqb c "_" && after_digit then parse_digits s' acc false
      else None
  end.

(** The default of [sys.get_int_max_str_digits()]: a literal with more
    digits is rejected with a [ValueError]. *)
Definition INT_MAX_STR_DIGITS : Z := 4300.

Fixpoint count_digits (s : string) : Z :=
  match s with
  | EmptyString => 0
  | String c s' => (if is_digit c then 1 else 0) + count_digits s'
  end.

Definition parse_literal (d : string) : option Z :=
  match parse_digits d 0 false with
  | Some n => if INT_MAX_STR_DIGITS <? count_digits d then None else Some n
  | None => None
  end.

(** [int(s)] for an ASCII [str]; [None] is the [ValueError]. *)
Definition py_int (s : string) : option Z :=
  match rstrip (lstrip s) with
  | String "-" d => option_map Z.opp (parse_literal d)
  | String "+" d => parse_literal d
  | d => parse_literal d
  end.

(** ** The request engine *)

(** A decoded JSON document. *)
#[warnings="-register-all"]
Inductive json : Type :=
  | JNull
  | JBool (b : bool)
  | JNum (n : Z)
  | JStr (s : string)
  | JArr (items : list json)
  | JObj (fields : list (string * json)).

(** The exceptions that leave [_request].  [RateLimitError] is the subclass
    of [APIError] whose message, status code and suggestion are fixed by
    its constructor; [cause] is the exception named after [from]. *)
Inductive pyexc : Type :=
  | APIError (message : json) (status_code : option Z)
      (suggestion : option string) (cause : option string)
  | RateLimitError (retry_after : option Z)
  | ValueError
  | OverflowError
  | OSError
  | JSONDecodeError.

Definition exc_status_code (e : pyexc) : option Z :=
  match e with
  | APIError _ sc _ _ => sc
  | RateLimitError _ => Some 429
  | _ => None
  end.

Definition exc_message (e : pyexc) : option json :=
  match e with
  | APIError m _ _ _ => Some m
  | RateLimitError _ => Some (JStr "Rate limit exceeded")
  | _ => None
  end.

Definition exc_suggestion (e : pyexc) : option string :=
  match e with
  | APIError _ _ s _ => s
  | RateLimitError _ =>
      Some "Wait a moment or add your email via --email or OPENALEX_EMAIL env var for higher limits"
  | _ => None
  end.

(** What [self.client.request] gives back: a response, of which the engine
    reads the status code, the [Retry-After] header and the decoded body
    ([None] when [response.json()] raises), or an [httpx.RequestError]. *)
Record response : Type := {
  status_code : Z;
  retry_after_header : option string;
  body : option json
}.

Inductive exchange : Type :=
  | Responded (r : response)
  | RequestError (e : string).

(** What [datetime.fromtimestamp] raises for a time the platform cannot
    turn into a local date: a [ValueError] for a year past 9999, an
    [OverflowError] or an [OSError] for a time out of the range of the
    platform's [localtime]. *)
Inductive clock_error : Type :=
  | YearOutOfRange
  | TimestampOutOfRange
  | LocaltimeFailed.

Definition clock_exception (e : clock_error) : pyexc :=
  match e with
  | YearOutOfRange => ValueError
  | TimestampOutOfRange => OverflowError
  | LocaltimeFailed => OSError
  end.

(** The world outside the engine: the answer to the n-th exchange, the n-th
    draw of [random.random()] (as the integer [k] of [k / 2^53]), whether
    standard error is a terminal, and the clock: [resume_str n wait] is
    [datetime.fromtimestamp(datetime.now().timestamp() + wait)
    .strftime("%H:%M:%S")] when [n] exchanges have been made, the formatted
    time or the error of [fromtimestamp]. *)
Record env : Type := {
  transport : nat -> exchange;
  random_draw : nat -> Z;
  resume_str : nat -> Z -> clock_error + string;
  stderr_isatty : bool
}.

Inductive event : Type :=
  | EvRequest (method path : string) (params : gmap string pyval)
  | EvCallback (message : string)
  | EvStderr (message : string)
  | EvSleep (seconds : Z).

Record world : Type := {
  n_requests : nat;
  n_draws : nat;
  trace : list event
}.

Definition world0 : world := {| n_requests := 0; n_draws := 0; trace := [] |}.

Inductive result (A : Type) : Type :=
  | Ok (a : A)
  | Raise (e : pyexc).
Arguments Ok {A} a.
Arguments Raise {A} e.

(** Computations that read and extend the world and may raise. *)
Definition M (A : Type) : Type := world -> result A * world.

Definition ret {A} (a : A) : M A := fun w => (Ok a, w).
Definition raise {A} (e : pyexc) : M A := fun w => (Raise e, w).
Definition bind {A B} (c : M A) (k : A -> M B) : M B :=
  fun w => match c w with
           | (Ok a, w') => k a w'
           | (Raise e, w') => (Raise e, w')
           end.

Notation "'do' x <- c ;; k" := (bind c (fun x => k))
  (at level 10, x name, c at level 99, k at level 200).
Notation "'run' c ;; k" := (bind c (fun _ => k))
  (at level 10, c at level 99, k at level 200).

Definition emit (ev : event) : M unit :=
  fun w => (Ok tt, {| n_requests := n_requests w; n_draws := n_draws w;
                      trace := (trace w ++ [ev])%list |}).

(** [self.client.request(method, path, params=params)] *)
Definition client_request (E : env) (method path : string)
    (params : gmap string pyval) : M exchange :=
  fun w => (Ok (transport E (n_requests w)),
            {| n_requests := S (n_requests w); n_draws := n_draws w;
               trace := (trace w ++ [EvRequest method path params])%list |}).

(** [random.random()] *)
Definition random_random (E : env) : M PyFloat.t :=
  fun w => (Ok (PyFloat.of_draw (random_draw E (n_draws w))),
            {| n_requests := n_requests w; n_draws := S (n_draws w);
               trace := trace w |}).

(** The resume time of a notice, read from the clock. *)
Definition resume_time (E : env) (wait_time : Z) : M string :=
  fun w => match resume_str E (n_requests w) wait_time with
           | inr s => (Ok s, w)
           | inl e => (Raise (clock_exception e), w)
           end.

(** The largest number of seconds whose nanoseconds fit the signed 64-bit
    time of [time.sleep]. *)
Definition SLEEP_MAX : Z := 9223372036.

(** [time.sleep(seconds)] for an [int]: a length whose nanoseconds do not
    fit 64 bits is an [OverflowError], a negative length a [ValueError]. *)
Definition time_sleep (seconds : Z) : M unit :=
  if (seconds <? - SLEEP_MAX) || (SLEEP_MAX <? seconds) then raise OverflowError
  else if seconds <? 0 then raise ValueError
  else emit (EvSleep seconds).

(** [OpenAlexAPI._report_status] *)
Definition _report_status (self : OpenAlexAPI) (E : env) (message : string)
    : M unit :=
  if status_callback self then emit (EvCallback message)
  else if stderr_isatty E then emit (EvStderr message)
  else ret tt.

(** [int(s)] in the monad. *)
Definition int_of_str (s : string) : M Z :=
  match py_int s with
  | Some n => ret n
  | None => raise ValueError
  end.

(** [int(wait_time * (0.75 + random.random() * 0.5))] for the draw [r]. *)
Definition jitter (wait_time : Z) (r : PyFloat.t) : M Z :=
  let factor := PyFloat.add PyFloat.c0_75 (PyFloat.mul r PyFloat.c0_5) in
  match PyFloat.of_int wait_time with
  | None => raise OverflowError
  | Some w =>
      match PyFloat.to_int (PyFloat.mul w factor) with
      | PyFloat.IntOk n => ret n
      | PyFloat.IntOverflowError => raise OverflowError
      | PyFloat.IntValueError => raise ValueError
      end
  end.

(** [min(2**attempt, self.max_retry_wait)], the exponential backoff used
    after a 429 without [Retry-After] and after a transport fault. *)
Definition backoff (self : OpenAlexAPI) (attempt : Z) : Z :=
  Z.min (2 ^ attempt) (max_retry_wait self).

(** [error_data.get("message", "Bad request")] inside [try ... except
    Exception]: anything but a JSON object has no [get].  The keys of a
    decoded object are distinct. *)
Fixpoint obj_get (fields : list (string * json)) (k : string) : option json :=
  match fields with
  | [] => None
  | (k', v) :: rest => if String.eqb k' k then Some v else obj_get rest k
  end.

Definition bad_request_message (b : option json) : json :=
  match b with
  | Some (JObj fields) =>
      match obj_get fields "message" with
      | Some m => m
      | None => JStr "Bad request"
      end
  | _ => JStr "Bad request"
  end.

Definition NOT_FOUND_SUGGESTION : string :=
  "Check the ID format. OpenAlex IDs start with W (works), A (authors), I (institutions), S (sources), etc.".

(** One iteration of the loop of [_request].  [Some j] is [return j] and
    [None] is [continue]; the string is the new value of [last_error]. *)
Definition attempt_body (self : OpenAlexAPI) (E : env) (method path : string)
    (params : gmap string pyval) (attempt : Z) (last_error : option string)
    : M (option json * option string) :=
  do ex <- client_request E method path params ;;
  match ex with
  | Responded resp =>
      if status_code resp =? 200 then
        match body resp with
        | Some j => ret (Some j, last_error)
        | None => raise JSONDecodeError
        end
      else if status_code resp =? 429 then
        let retry_after := retry_after_header resp in
        do wait_time <-
          (if truthy_str retry_after
           then int_of_str (default "" retry_after)
           else ret (backoff self attempt)) ;;
        do r <- random_random E ;;
        do wait_time <- jitter wait_time r ;;
        if attempt <? max_retries self then
          do resume_str <- resume_time E wait_time ;;
          run _report_status self E
            ("Rate limited. Retry " +:+ str_of_int (attempt + 1) +:+ "/"
             +:+ str_of_int (max_retries self) +:+ " in " +:+ str_of_int wait_time
             +:+ "s (at " +:+ resume_str +:+ ")...") ;;
          run time_sleep wait_time ;;
          ret (None, last_error)
        else
          do ra <- (if truthy_str retry_after
                 then do n <- int_of_str (default "" retry_after) ;; ret (Some n)
                 else ret None) ;;
          raise (RateLimitError ra)
      else if status_code resp =? 404 then
        raise (APIError (JStr "Entity not found") (Some 404)
                 (Some NOT_FOUND_SUGGESTION) None)
      else if status_code resp =? 400 then
        raise (APIError (bad_request_message (body resp)) (Some 400)
                 (Some "Check the query parameters and filter syntax") None)
      else
        raise (APIError
                 (JStr ("API request failed: " +:+ str_of_int (status_code resp)))
                 (Some (status_code resp)) None None)
  | RequestError e =>
      let last_error := Some e in
      if attempt <? max_retries self then
        let wait_time := backoff self attempt in
        run _report_status self E
          ("Connection error. Retry " +:+ str_of_int (attempt + 1) +:+ "/"
           +:+ str_of_int (max_retries self) +:+ " in " +:+ str_of_int wait_time
           +:+ "s...") ;;
        run time_sleep wait_time ;;
        ret (None, last_error)
      else
        raise (APIError (JStr ("Connection error: " +:+ e)) None
                 (Some "Check your network connection") (Some e))
  end.

(** [range(n)] *)
Definition py_range (n : Z) : list Z := map Z.of_nat (seq 0 (Z.to_nat n)).

(** The [for attempt in ...] loop and the [raise] that follows it. *)
Fixpoint retry_loop (self : OpenAlexAPI) (E : env) (method path : string)
    (params : gmap string pyval) (attempts : list Z) (last_error : option string)
    : M json :=
  match attempts with
  | [] =>
      raise (APIError
               (JStr ("Request failed after " +:+ str_of_int (max_retries self)
                      +:+ " retries"))
               None None last_error)
  | attempt :: rest =>
      do step <- attempt_body self E method path params attempt last_error ;;
      match step with
      | (Some j, _) => ret j
      | (None, last_error') => retry_loop self E method path params rest last_error'
      end
  end.

(** [OpenAlexAPI._request] *)
Definition _request (self : OpenAlexAPI) (E : env) (method path : string)
    (params : gmap string pyval) : M json :=
  retry_loop self E method path params (py_range (max_retries self + 1)) None.

(** [OpenAlexAPI.search_works] *)
Definition search_works (self : OpenAlexAPI) (E : env)
    (query filter_str from_date to_date : option string)
    (min_citations : option Z) (open_access : option bool)
    (work_type sort : option string) (page per_page : Z)
    (select : option (list string)) (group_by : option string) : M json :=
  _request self E "GET" "/works"
    (search_works_params self query filter_str from_date to_date min_citations
       open_access work_type sort page per_page select group_by).

(** ** Errors as JSON *)

(** [APIError.to_dict], which [RateLimitError] inherits; the other
    exceptions have no such method ([None]).  The keys are set in the
    order [error], [status_code], [suggestion], [documentation], the
    second and third only when the attribute is truthy. *)
Definition to_dict (e : pyexc) : option (list (string * json)) :=
  match exc_message e with
  | Some message =>
      let result := [("error", message)] in
      let result :=
        match exc_status_code e with
        | Some sc =>
            if sc =? 0 then result else (result ++ [("status_code", JNum sc)])%list
        | None => result
        end in
      let result :=
        match exc_suggestion e with
        | Some (String c s) => (result ++ [("suggestion", JStr (String c s))])%list
        | _ => result
        end in
      Some (result ++ [("documentation", JStr "https://docs.openalex.org/")])%list
  | None => None
  end.

(** ** The entity endpoints *)

Definition DEFAULT_AUTHOR_FIELDS : list string :=
  [ "id"; "orcid"; "display_name"; "works_count"; "cited_by_count";
    "summary_stats"; "affiliations"; "last_known_institutions"; "topics" ].

Definition DEFAULT_INSTITUTION_FIELDS : list string :=
  [ "id"; "ror"; "display_name"; "country_code"; "type"; "works_count";
    "cited_by_count"; "summary_stats" ].

Definition DEFAULT_SOURCE_FIELDS : list string :=
  [ "id"; "issn_l"; "display_name"; "type"; "works_count"; "cited_by_count";
    "is_oa"; "summary_stats" ].

(** The parameters of the [get_*] methods: [{"select": ",".join(fields)}],
    and [mailto] when the client has a contact address. *)
Definition get_params (self : OpenAlexAPI) (fields : list string)
    : gmap string pyval :=
  let params : gmap string pyval := <["select" := VStr (py_join "," fields)]> ∅ in
  match email self with
  | Some e => if PyStr.truthy e then <["mailto" := VStr e]> params else params
  | None => params
  end.

(** [OpenAlexAPI.get_work] *)
Definition get_work (self : OpenAlexAPI) (E : env) (work_id : string)
    (select : option (list string)) : M json :=
  let normalized_id := _normalize_work_id work_id in
  let fields := list_or select DEFAULT_WORK_FIELDS in
  _request self E "GET" ("/works/" +:+ normalized_id) (get_params self fields).

(** [OpenAlexAPI.get_author] *)
Definition get_author (self : OpenAlexAPI) (E : env) (author_id : string)
    (select : option (list string)) : M json :=
  let normalized_id := _normalize_author_id author_id in
  let fields := list_or select DEFAULT_AUTHOR_FIELDS in
  _request self E "GET" ("/authors/" +:+ normalized_id) (get_params self fields).

(** [OpenAlexAPI.get_institution] *)
Definition get_institution (self : OpenAlexAPI) (E : env) (institution_id : string)
    (select : option (list string)) : M json :=
  let normalized_id := _normalize_institution_id institution_id in
  let fields := list_or select DEFAULT_INSTITUTION_FIELDS in
  _request self E "GET" ("/institutions/" +:+ normalized_id) (get_params self fields).

(** [OpenAlexAPI.get_source] *)
Definition get_source (self : OpenAlexAPI) (E : env) (source_id : string)
    (select : option (list string)) : M json :=
  let normalized_id := _normalize_source_id source_id in
  let fields := list_or select DEFAULT_SOURCE_FIELDS in
  _request self E "GET" ("/sources/" +:+ normalized_id) (get_params self fields).

(** The parameters of [search_authors], [search_institutions] and
    [search_sources], which differ in the default fields only. *)
Definition search_params (self : OpenAlexAPI) (default_fields : list string)
    (query : string) (filter_str sort : option string) (page per_page : Z)
    (select : option (list string)) (group_by : option string)
    : gmap string pyval :=
  _build_params self filter_str (Some query)
    (Some (str_or sort "cited_by_count:desc"))
    (Some page) (Some per_page)
    (Some (list_or select default_fields))
    group_by None.

(** [OpenAlexAPI.search_authors] *)
Definition search_authors (self : OpenAlexAPI) (E : env) (query : string)
    (filter_str sort : option string) (page per_page : Z)
    (select : option (list string)) (group_by : option string) : M json :=
  _request self E "GET" "/authors"
    (search_params self DEFAULT_AUTHOR_FIELDS query filter_str sort page per_page
       select group_by).

(** [OpenAlexAPI.search_institutions] *)
Definition search_institutions (self : OpenAlexAPI) (E : env) (query : string)
    (filter_str sort : option string) (page per_page : Z)
    (select : option (list string)) (group_by : option string) : M json :=
  _request self E "GET" "/institutions"
    (search_params self DEFAULT_INSTITUTION_FIELDS query filter_str sort page
       per_page select group_by).

(** [OpenAlexAPI.search_sources] *)
Definition search_sources (self : OpenAlexAPI) (E : env) (query : string)
    (filter_str sort : option string) (page per_page : Z)
    (select : option (list string)) (group_by : option string) : M json :=
  _request self E "GET" "/sources"
    (search_params self DEFAULT_SOURCE_FIELDS query filter_str sort page per_page
       select group_by).

(** The methods that first resolve an identifier read [doc["id"]] from the
    decoded document and call [.replace] on it; on a document of another
    shape this raises an exception that is not an [APIError]. *)
Inductive endpoint_exc : Type :=
  | Engine (e : pyexc)
  | KeyError (key : string)
  | TypeError
  | AttributeError.

Inductive outcome (A : Type) : Type :=
  | Returns (a : A)
  | Raises (e : endpoint_exc).
Arguments Returns {A} a.
Arguments Raises {A} e.

Definition EM (A : Type) : Type := world -> outcome A * world.

Definition eret {A} (a : A) : EM A := fun w => (Returns a, w).
Definition eraise {A} (e : endpoint_exc) : EM A := fun w => (Raises e, w).
Definition ebind {A B} (c : EM A) (k : A -> EM B) : EM B :=
  fun w => match c w with
           | (Returns a, w') => k a w'
           | (Raises e, w') => (Raises e, w')
           end.

(** A call of a method whose exceptions are those of [_request]. *)
Definition lift {A} (c : M A) : EM A :=
  fun w => match c w with
           | (Ok a, w') => (Returns a, w')
           | (Raise e, w') => (Raises (Engine e), w')
           end.

(** [doc["id"].replace("https://openalex.org/", "")]: subscripting by a
    string works on a [dict] only ([KeyError] when the key is missing,
    [TypeError] on any other value), and only a [str] has [replace]. *)
Definition entity_id (doc : json) : EM string :=
  match doc with
  | JObj fields =>
      match obj_get fields "id" with
      | Some (JStr s) => eret (PyStr.replace s "https://openalex.org/" "")
      | Some _ => eraise AttributeError
      | None => eraise (KeyError "id")
      end
  | _ => eraise TypeError
  end.

(** [OpenAlexAPI.get_citations] *)
Definition get_citations (self : OpenAlexAPI) (E : env) (work_id : string)
    (page per_page : Z) (select : option (list string)) : EM json :=
  let normalized_id := _normalize_work_id work_id in
  ebind
    (if negb (PyStr.startswith normalized_id "W")
     then ebind (lift (get_work self E normalized_id (Some ["id"]))) entity_id
     else eret normalized_id)
    (fun normalized_id =>
       let params :=
         _build_params self (Some ("cites:" +:+ normalized_id)) None
           (Some "cited_by_count:desc") (Some page) (Some per_page)
           (Some (list_or select DEFAULT_WORK_FIELDS)) None None in
       lift (_request self E "GET" "/works" params)).

(** [OpenAlexAPI.get_references] *)
Definition get_references (self : OpenAlexAPI) (E : env) (work_id : string)
    (page per_page : Z) (select : option (list string)) : EM json :=
  let normalized_id := _normalize_work_id work_id in
  ebind
    (if negb (PyStr.startswith normalized_id "W")
     then ebind (lift (get_work self E normalized_id (Some ["id"]))) entity_id
     else eret normalized_id)
    (fun normalized_id =>
       let params :=
         _build_params self (Some ("cited_by:" +:+ normalized_id)) None
           (Some "cited_by_count:desc") (Some page) (Some per_page)
           (Some (list_or select DEFAULT_WORK_FIELDS)) None None in
       lift (_request self E "GET" "/works" params)).

(** The [extra_filters] dict of [get_author_works], [get_institution_works]
    and [get_source_works]: the literal with the entity clause under [key],
    then the two date bounds when they are truthy. *)
Definition entity_works_filters (key normalized_id : string)
    (from_date to_date : option string) : Dict.t :=
  let extra_filters := Dict.setitem Dict.empty key (VStr normalized_id) in
  let extra_filters :=
    match from_date with
    | Some (String c s) =>
        Dict.setitem extra_filters "from_publication_date" (VStr (String c s))
    | _ => extra_filters
    end in
  match to_date with
  | Some (String c s) =>
      Dict.setitem extra_filters "to_publication_date" (VStr (String c s))
  | _ => extra_filters
  end.

(** The parameters the three [get_*_works] methods hand to
    [_request("GET", "/works", ...)]. *)
Definition entity_works_params (self : OpenAlexAPI) (key normalized_id : string)
    (filter_str from_date to_date sort : option string) (page per_page : Z)
    (select : option (list string)) (group_by : option string)
    : gmap string pyval :=
  _build_params self filter_str None
    (Some (str_or sort "publication_date:desc"))
    (Some page) (Some per_page)
    (Some (list_or select DEFAULT_WORK_FIELDS))
    group_by (Some (entity_works_filters key normalized_id from_date to_date)).

(** [OpenAlexAPI.get_author_works] *)
Definition get_author_works (self : OpenAlexAPI) (E : env) (author_id : string)
    (filter_str from_date to_date sort : option string) (page per_page : Z)
    (select : option (list string)) (group_by : option string) : EM json :=
  let normalized_id := _normalize_author_id author_id in
  ebind
    (if negb (PyStr.startswith normalized_id "A")
     then ebind (lift (get_author self E normalized_id (Some ["id"]))) entity_id
     else eret normalized_id)
    (fun normalized_id =>
       lift (_request self E "GET" "/works"
               (entity_works_params self "authorships.author.id" normalized_id
                  filter_str from_date to_date sort page per_page select group_by))).

(** [OpenAlexAPI.get_institution_works] *)
Definition get_institution_works (self : OpenAlexAPI) (E : env)
    (institution_id : string)
    (filter_str from_date to_date sort : option string) (page per_page : Z)
    (select : option (list string)) (group_by : option string) : EM json :=
  let normalized_id := _normalize_institution_id institution_id in
  ebind
    (if negb (PyStr.startswith normalized_id "I")
     then ebind (lift (get_institution self E normalized_id (Some ["id"]))) entity_id
     else eret normalized_id)
    (fun normalized_id =>
       lift (_request self E "GET" "/works"
               (entity_works_params self "authorships.institutions.id" normalized_id
                  filter_str from_date to_date sort page per_page select group_by))).

(** [OpenAlexAPI.get_source_works] *)
Definition get_source_works (self : OpenAlexAPI) (E : env) (source_id : string)
    (filter_str from_date to_date sort : option string) (page per_page : Z)
    (select : option (list string)) (group_by : option string) : EM json :=
  let normalized_id := _normalize_source_id source_id in
  ebind
    (if negb (PyStr.startswith normalized_id "S")
     then ebind (lift (get_source self E normalized_id (Some ["id"]))) entity_id
     else eret normalized_id)
    (fun normalized_id =>
       lift (_request self E "GET" "/works"
               (entity_works_params self "primary_location.source.id" normalized_id
                  filter_str from_date to_date sort page per_page select group_by))).

(** ** BibTeX escaping *)

(** The table [replacements] of [_escape_latex], in its order. *)
Definition LATEX_REPLACEMENTS : list (string * string) :=
  [ ("\", "\textbackslash{}"); ("&", "\&"); ("%", "\%"); ("$", "\$");
    ("#", "\#"); ("_", "\_"); ("{", "\{"); ("}", "\}");
    ("~", "\textasciitilde{}"); ("^", "\textasciicircum{}") ].

(** [_escape_latex]: the replacements are applied one after the other, each
    to the result of the one before. *)
Definition _escape_latex (text : string) : string :=
  if negb (PyStr.truthy text) then ""
  else fold_left (fun text (r : string * string) => PyStr.replace text (fst r) (snd r))
         LATEX_REPLACEMENTS text.

(** The characters the table replaces. *)
Definition LATEX_SPECIALS : list ascii :=
  [ "\"; "&"; "%"; "$"; "#"; "_"; "{"; "}"; "~"; "^" ]%char.

(** ** Reconstruction of an abstract *)

(** [_reconstruct_abstract] reads the text of the words only through
    [join], [len], slicing and concatenation, so a [str] is here a list of
    characters of any kind, with the space and the full stop among them. *)
Module Abstract.
Section Reconstruct.
Context {char : Type} (space dot : char).

(** [sep.join(words)] *)
Fixpoint join (sep : list char) (words : list (list char)) : list char :=
  match words with
  | [] => []
  | [x] => x
  | x :: rest => x ++ sep ++ join sep rest
  end.

(** [words[pos] = word]: a negative index counts from the end, and an
    index outside [-len, len) is an [IndexError] ([None]). *)
Definition setitem (words : list (list char)) (pos : Z) (word : list char)
    : option (list (list char)) :=
  let n := Z.of_nat (length words) in
  if (0 <=? pos) && (pos <? n) then Some (<[Z.to_nat pos := word]> words)
  else if (- n <=? pos) && (pos <? 0) then Some (<[Z.to_nat (n + pos) := word]> words)
  else None.

(** The first loop: the largest position, or 0. *)
Definition max_position (inverted_index : list (list char * list Z)) : Z :=
  fold_left (fun max_pos (entry : list char * list Z) =>
               match snd entry with
               | [] => max_pos
               | p :: ps => Z.max max_pos (fold_left Z.max ps p)
               end)
    inverted_index 0.

(** The second loop, over the items and their positions. *)
Definition place_words (inverted_index : list (list char * list Z))
    (words : list (list char)) : option (list (list char)) :=
  fold_left (fun acc (entry : list char * list Z) =>
               fold_left (fun acc pos =>
                            match acc with
                            | Some words => setitem words pos (fst entry)
                            | None => None
                            end)
                 (snd entry) acc)
    inverted_index (Some words).

(** [_reconstruct_abstract]; [None] is the [IndexError]. *)
Definition _reconstruct_abstract
    (inverted_index : option (list (list char * list Z))) : option (list char) :=
  match inverted_index with
  | None | Some [] => Some []
  | Some index =>
      let max_pos := max_position index in
      let words := repeat [] (Z.to_nat (max_pos + 1)) in
      match place_words index words with
      | None => None
      | Some words =>
          let abstract := join [space] words in
          Some (if 1000 <? Z.of_nat (length abstract)
                then take 997 abstract ++ [dot; dot; dot]
                else abstract)%list
      end
  end.

(** The assignments of the second loop in the order they are made. *)
Definition assignments (inverted_index : list (list char * list Z))
    : list (Z * list char) :=
  flat_map (fun entry : list char * list Z =>
              map (fun pos => (pos, fst entry)) (snd entry))
    inverted_index.

(** One assignment of the second loop, on the list so far. *)
Definition assign (acc : option (list (list char))) (a : Z * list char)
    : option (list (list char)) :=
  match acc with
  | Some words => setitem words (fst a) (snd a)
  | None => None
  end.

End Reconstruct.
End Abstract.

(** ** Notions used to state the properties *)

(** The product [wait_time * factor] before [int()] truncates it. *)
Definition jitter_product (wait_time : Z) (r : PyFloat.t) : option PyFloat.t :=
  option_map
    (fun w => PyFloat.mul w (PyFloat.add PyFloat.c0_75 (PyFloat.mul r PyFloat.c0_5)))
    (PyFloat.of_int wait_time).


Definition is_sleep (ev : event) : bool :=
  match ev with EvSleep _ => true | _ => false end.
Definition is_request (ev : event) : bool :=
  match ev with EvRequest _ _ _ => true | _ => false end.
Definition count_events (p : event -> bool) (t : list event) : nat :=
  length (List.filter p t).

Definition retry_after_value (h : option string) : option Z :=
  if truthy_str h then py_int (default "" h) else None.

(** A [Retry-After] header the engine can wait for: none, an empty one,
    or an integer literal from 0 to 2^32. *)
Definition usable_header (h : option string) : Prop :=
  truthy_str h = false \/
  exists n, py_int (default "" h) = Some n /\ 0 <= n <= 2 ^ 32.

(** The clock can format the resume time of every wait of at most
    1.25 * 2^32 seconds (some 170 years), whenever it is asked. *)
Definition clock_formats (E : env) : Prop :=
  forall n wait_time, 0 <= wait_time <= 5 * 2 ^ 30 ->
    exists s, resume_str E n wait_time = inr s.

Definition rate_limited (ex : exchange) : Prop :=
  match ex with
  | Responded r => status_code r = 429 /\ usable_header (retry_after_header r)
  | RequestError _ => False
  end.

Definition header_of (ex : exchange) : option string :=
  match ex with
  | Responded r => retry_after_header r
  | RequestError _ => None
  end.

(** An identifier is in native form for the entity letter [letter] when it
    starts with that letter or with the resource-URL prefix. *)
Definition native_form (letter x : string) : bool :=
  PyStr.startswith x letter || PyStr.startswith x OPENALEX_URL.

(** The four normalizers with the letter of their entity kind. *)
Definition normalizers : list (string * (string -> string)) :=
  [ ("W", _normalize_work_id); ("A", _normalize_author_id);
    ("I", _normalize_institution_id); ("S", _normalize_source_id) ].

(** Four decimal digits followed by a hyphen, the start of an ORCID iD. *)
Definition four_digits_hyphen (x : string) : bool :=
  match x with
  | String a (String b (String c (String d (String e _)))) =>
      is_digit a && is_digit b && is_digit c && is_digit d && Ascii.eqb e "-"
  | _ => false
  end.

(** The clause list the specification describes: the explicit filter
    string, when there is one, followed by one [key:value] clause for each
    entry of the extra filters whose value is not null. *)
Definition spec_clauses (filter_str : option string)
    (extra_filters : option Dict.t) : list string :=
  (match filter_str with
   | Some (String c s) => [String c s]
   | _ => []
   end
   ++ flat_map (fun kv => match snd kv with
                          | VNone => []
                          | v => [fst kv +:+ ":" +:+ py_str v]
                          end)
        (default [] extra_filters))%list.

(** The [filter] parameter the specification describes. *)
Definition spec_filter (filter_str : option string)
    (extra_filters : option Dict.t) : option pyval :=
  match spec_clauses filter_str extra_filters with
  | [] => None
  | clauses => Some (VStr (py_join "," clauses))
  end.

(** [_request] ends in a [RateLimitError] after exactly [k] exchanges. *)
Definition rate_limit_raised_after (self : OpenAlexAPI) (E : env) (k : nat) : Prop :=
  exists ra w,
    _request self E "GET" "/works" ∅ world0 = (Raise (RateLimitError ra), w)
    /\ n_requests w = k.

(** A server that answers every exchange with 429 and the given header. *)
Definition always_429 (h : option string) (draw : Z) : env :=
  {| transport := fun _ =>
       Responded {| status_code := 429; retry_after_header := h; body := None |};
     random_draw := fun _ => draw;
     resume_str := fun _ _ => inr "00:00:00";
     stderr_isatty := false |}.

(** The binary64 operations of the Standard Library's [SpecFloat], read
    as values of [PyFloat.t], against which [PyFloat.round] is checked. *)
Definition float_of_spec (x : spec_float) : PyFloat.t :=
  match x with
  | S754_zero _ => PyFloat.Fin 0 0
  | S754_infinity s => PyFloat.Inf s
  | S754_nan => PyFloat.NaN
  | S754_finite s m e => PyFloat.Fin (if s then Z.neg m else Z.pos m) e
  end.

(** Equality of the numbers two floats stand for. *)
Definition same_float (x y : PyFloat.t) : bool :=
  match x, y with
  | PyFloat.Fin m1 e1, PyFloat.Fin m2 e2 =>
      let e := Z.min e1 e2 in
      m1 * 2 ^ (e1 - e) =? m2 * 2 ^ (e2 - e)
  | PyFloat.Inf a, PyFloat.Inf b => Bool.eqb a b
  | PyFloat.NaN, PyFloat.NaN => true
  | _, _ => false
  end.

Definition round_agrees (me : Z * Z) : bool :=
  same_float (PyFloat.round (fst me) (snd me))
    (float_of_spec (binary_normalize 53 1024 (fst me) (snd me) false)).

(** What one iteration may hand back to the loop: it continues only
    before the last attempt, and it never raises the error that follows
    the loop. *)
Definition step_shape (self : OpenAlexAPI) (attempt : Z)
    (res : result (option json * option string)) : Prop :=
  match res with
  | Raise (APIError _ None None _) => False
  | Ok (None, _) => attempt < max_retries self
  | _ => True
  end.

(** An exchange after which the engine tries again. *)
Definition retryable (ex : exchange) : Prop :=
  match ex with
  | Responded r => rate_limited ex
  | RequestError _ => True
  end.

(** A server whose first [k] exchanges are answered by [first] and all
    later ones by [then_]. *)
Definition scripted (k : nat) (first then_ : exchange) (draw : Z) : env :=
  {| transport := fun n => if (n <? k)%nat then first else then_;
     random_draw := fun _ => draw;
     resume_str := fun _ _ => inr "00:00:00";
     stderr_isatty := false |}.

Definition respond (status : Z) (h : option string) (b : option json) : exchange :=
  Responded {| status_code := status; retry_after_header := h; body := b |}.

(** The four [get_*] methods with the letter of their entity kind, the
    path prefix of their endpoint and the fields they ask for by default. *)
Definition entity_getters
    : list (string * string * list string
            * (OpenAlexAPI -> env -> string -> option (list string) -> M json)) :=
  [ ("W", "/works/",
     [ "id"; "doi"; "title"; "publication_year"; "publication_date"; "type";
       "cited_by_count"; "open_access"; "authorships"; "primary_location";
       "abstract_inverted_index"; "topics"; "biblio" ],
     get_work);
    ("A", "/authors/",
     [ "id"; "orcid"; "display_name"; "works_count"; "cited_by_count";
       "summary_stats"; "affiliations"; "last_known_institutions"; "topics" ],
     get_author);
    ("I", "/institutions/",
     [ "id"; "ror"; "display_name"; "country_code"; "type"; "works_count";
       "cited_by_count"; "summary_stats" ],
     get_institution);
    ("S", "/sources/",
     [ "id"; "issn_l"; "display_name"; "type"; "works_count"; "cited_by_count";
       "is_oa"; "summary_stats" ],
     get_source) ].

(** The world after one exchange. *)
Definition after_request (w : world) (method path : string)
    (params : gmap string pyval) : world :=
  {| n_requests := S (n_requests w); n_draws := n_draws w;
     trace := (trace w ++ [EvRequest method path params])%list |}.

(** The sort that reaches the API for the sort an endpoint chose. *)
Definition sent_sort (group_by : option string) (chosen : string) : string :=
  if truthy_str group_by
  then if sort_in_grouped (Some chosen) then chosen else "count:desc"
  else chosen.

(** The three methods that list the works of an entity, with the letter
    of the entity kind, the filter key of the entity clause, the path
    prefix of the lookup and the normalizer. *)
Definition entity_works_endpoints
    : list (string * string * string * (string -> string)
            * (OpenAlexAPI -> env -> string -> option string -> option string ->
               option string -> option string -> Z -> Z ->
               option (list string) -> option string -> EM json)) :=
  [ ("A", "authorships.author.id", "/authors/", _normalize_author_id,
     get_author_works);
    ("I", "authorships.institutions.id", "/institutions/",
     _normalize_institution_id, get_institution_works);
    ("S", "primary_location.source.id", "/sources/", _normalize_source_id,
     get_source_works) ].

(** The query of [get_citations] ([cites:]) and [get_references]
    ([cited_by:]) once the work identifier is known. *)
Definition citing_params (self : OpenAlexAPI) (clause normalized_id : string)
    (page per_page : Z) (sel : option (list string)) : gmap string pyval :=
  _build_params self (Some (clause +:+ normalized_id)) None
    (Some "cited_by_count:desc") (Some page) (Some per_page)
    (Some (list_or sel DEFAULT_WORK_FIELDS)) None None.

(** The clauses of a truthy optional string. *)
Definition clause_of (key : string) (value : option string) : list string :=
  match value with
  | Some (String c s) => [key +:+ String c s]
  | _ => []
  end.

Definition is_notice (ev : event) : bool :=
  match ev with EvCallback _ | EvStderr _ => true | _ => false end.

(** A status notice goes to the callback when the client has one, and to
    standard error only when it has none and standard error is a terminal. *)
Definition notice_ok (self : OpenAlexAPI) (E : env) (ev : event) : Prop :=
  match ev with
  | EvCallback _ => status_callback self = true
  | EvStderr _ => status_callback self = false /\ stderr_isatty E = true
  | _ => True
  end.

(** * Properties *)

(** ** Rounding of binary64 values *)

Section FloatRounding.
Import PyFloat.

Lemma round_shift_bounds (a s L H : Z) :
  0 <= a -> 0 < s -> L * 2 ^ s <= a <= H * 2 ^ s ->
  L <= round_shift a s <= H.
Proof.
  intros Ha Hs [HL HH]. unfold round_shift.
  assert (HP : 0 < 2 ^ s) by (apply Z.pow_pos_nonneg; lia).
  pose proof (Z.div_mod a (2 ^ s) ltac:(lia)) as Hdm.
  pose proof (Z.mod_pos_bound a (2 ^ s) HP) as Hr.
  set (q := a / 2 ^ s) in *. set (r := a mod 2 ^ s) in *.
  set (P := 2 ^ s) in *.
  assert (HLq : L <= q) by nia.
  assert (HqH : q <= H) by nia.
  destruct (Z.compare_spec (2 * r) P) as [He|Hlt|Hgt].
  - destruct (Z.even q); [lia|]. split; [lia|]. nia.
  - lia.
  - split; [lia|]. nia.
Qed.

Lemma bits_le (a n : Z) : 0 <= n -> 0 <= a < 2 ^ n -> bits a <= n.
Proof.
  intros Hn [H0 Hlt]. unfold bits. destruct (Z.eqb_spec a 0); [lia|].
  assert (Z.log2 a < n) by (apply Z.log2_lt_pow2; lia). lia.
Qed.

Lemma bits_spec (a : Z) : 0 < a -> 2 ^ (bits a - 1) <= a < 2 ^ bits a.
Proof.
  intros Ha. unfold bits. destruct (Z.eqb_spec a 0); [lia|].
  replace (Z.log2 a + 1 - 1) with (Z.log2 a) by lia.
  replace (Z.log2 a + 1) with (Z.succ (Z.log2 a)) by lia.
  apply Z.log2_spec; lia.
Qed.

Lemma bits_pos (a : Z) : 0 < a -> 0 < bits a.
Proof.
  intros Ha. unfold bits. destruct (Z.eqb_spec a 0); [lia|].
  pose proof (Z.log2_nonneg a). lia.
Qed.

(** A value [P * 2^ef] between [0.75 * base] and [1.25 * base] rounds to a
    float between the same bounds. *)
Lemma round_scaled (base P ef : Z) :
  0 < base -> 5 * base < 2 ^ 53 -> -1000 <= ef <= -2 ->
  3 * base * 2 ^ (-2 - ef) <= P <= 5 * base * 2 ^ (-2 - ef) ->
  exists A e, round P ef = Fin A e /\ ef <= e <= -2 /\
    3 * base * 2 ^ (-2 - e) <= A <= 5 * base * 2 ^ (-2 - e).
Proof.
  intros Hb Hb5 Hef [HL HH].
  assert (HT : 0 < 2 ^ (-2 - ef)) by (apply Z.pow_pos_nonneg; lia).
  assert (HP : 0 < P) by nia.
  pose proof (bits_spec P HP) as [Hlo Hhi].
  pose proof (bits_pos P HP) as Hbp.
  (* bits P <= 51 - ef *)
  assert (Hbits : bits P <= 51 - ef).
  { apply bits_le; [lia|]. split; [lia|].
    replace (51 - ef) with (53 + (-2 - ef)) by lia.
    rewrite Z.pow_add_r by lia. nia. }
  unfold round. rewrite (Z.abs_eq P) by lia.
  unfold PREC, EMIN, EMAX.
  rewrite Z.max_l by lia.
  destruct (Z.leb_spec (ef + bits P - 53) ef) as [Hex|Hrnd].
  - (* exact *)
    destruct (Z.eqb_spec P 0); [lia|].
    destruct (Z.gtb_spec (bits P + ef) 1024); [lia|].
    exists P, ef. rewrite Z.sgn_pos by lia. rewrite Z.mul_1_l.
    split; [reflexivity|]. split; lia.
  - set (e := ef + bits P - 53) in *.
    set (s := e - ef).
    assert (Hs : 0 < s) by (unfold s; lia).
    assert (Hpow : 2 ^ (-2 - ef) = 2 ^ (-2 - e) * 2 ^ s).
    { rewrite <- Z.pow_add_r by (unfold s; lia). f_equal. unfold s. lia. }
    assert (HT' : 0 < 2 ^ (-2 - e)) by (apply Z.pow_pos_nonneg; lia).
    assert (Hrs : 3 * base * 2 ^ (-2 - e) <= round_shift P s <= 5 * base * 2 ^ (-2 - e)).
    { apply round_shift_bounds; [lia|lia|]. rewrite Hpow in HL, HH. lia. }
    fold s.
    destruct (Z.eqb_spec (round_shift P s) 0); [nia|].
    assert (Hb' : bits (round_shift P s) <= 51 - e).
    { apply bits_le; [lia|]. split; [nia|].
      replace (51 - e) with (53 + (-2 - e)) by lia.
      rewrite Z.pow_add_r by lia. nia. }
    destruct (Z.gtb_spec (bits (round_shift P s) + e) 1024); [lia|].
    exists (round_shift P s), e. rewrite Z.sgn_pos by lia. rewrite Z.mul_1_l.
    split; [reflexivity|]. split; [lia|]. exact Hrs.
Qed.

Lemma to_int_scaled (base A e : Z) :
  0 <= base -> e <= -2 ->
  3 * base * 2 ^ (-2 - e) <= A <= 5 * base * 2 ^ (-2 - e) ->
  exists w, to_int (Fin A e) = IntOk w /\ 3 * base - 4 < 4 * w <= 5 * base.
Proof.
  intros Hb He [HL HH]. unfold to_int.
  destruct (Z.leb_spec 0 e); [lia|].
  assert (HT : 0 < 2 ^ (-2 - e)) by (apply Z.pow_pos_nonneg; lia).
  assert (Hpow : 2 ^ (- e) = 4 * 2 ^ (-2 - e)).
  { replace (- e) with (2 + (-2 - e)) by lia. rewrite Z.pow_add_r by lia. reflexivity. }
  assert (HA : 0 <= A) by nia.
  rewrite Z.quot_div_nonneg by lia.
  eexists. split; [reflexivity|].
  rewrite Hpow. set (T := 2 ^ (-2 - e)) in *.
  pose proof (Z.div_mod A (4 * T) ltac:(lia)) as Hdm.
  pose proof (Z.mod_pos_bound A (4 * T) ltac:(lia)) as Hr.
  nia.
Qed.

End FloatRounding.

(** ** The jittered wait time *)

Section Jitter.
Import PyFloat.

Lemma round_shift_zero (s : Z) : round_shift 0 s = 0.
Proof.
  unfold round_shift. rewrite Zdiv_0_l, Zmod_0_l.
  destruct (Z.compare_spec (2 * 0) (2 ^ s)) as [_|_|H]; try reflexivity.
  pose proof (Z.pow_nonneg 2 s). lia.
Qed.

Lemma round_zero (e : Z) : round 0 e = Fin 0 0.
Proof.
  unfold round. change (Z.abs 0) with 0.
  destruct (Z.leb_spec (Z.max (e + bits 0 - PREC) EMIN) e).
  - reflexivity.
  - rewrite round_shift_zero. reflexivity.
Qed.

Lemma round_small (m e : Z) :
  0 < m < 2 ^ 53 -> -1074 <= e <= 0 -> round m e = Fin m e.
Proof.
  intros [Hm Hlt] He. unfold round, PREC, EMIN, EMAX.
  rewrite (Z.abs_eq m) by lia.
  assert (Hb : bits m <= 53) by (apply bits_le; lia).
  pose proof (bits_pos m Hm).
  destruct (Z.leb_spec (Z.max (e + bits m - 53) (-1074)) e); [|lia].
  destruct (Z.eqb_spec m 0); [lia|].
  destruct (Z.gtb_spec (bits m + e) 1024); [lia|].
  rewrite Z.sgn_pos by lia. f_equal. lia.
Qed.

(** The factor [0.75 + random.random() * 0.5] is a float in [0.75, 1.25]. *)
Lemma jitter_factor (k : Z) :
  exists F e, add c0_75 (mul (of_draw k) c0_5) = Fin F e /\
    -1000 <= e <= -2 /\ 3 * 2 ^ (-2 - e) <= F <= 5 * 2 ^ (-2 - e).
Proof.
  unfold of_draw, c0_5, c0_75, mul.
  pose proof (Z.mod_pos_bound k (2 ^ 53) ltac:(reflexivity)) as Hk.
  set (k' := k mod 2 ^ 53) in *.
  rewrite Z.mul_1_r. replace (-53 + -1) with (-54) by lia.
  destruct (Z.eq_dec k' 0) as [H0|Hn0].
  - rewrite H0, round_zero. unfold add.
    change (Z.min (-2) 0) with (-2).
    change (3 * 2 ^ (-2 - -2) + 0 * 2 ^ (0 - -2)) with 3.
    destruct (round_scaled 1 3 (-2)) as (A & e & HA & He & Hb);
      [lia | reflexivity | lia | change (2 ^ (-2 - -2)) with 1; lia |].
    exists A, e. split; [exact HA|]. split; lia.
  - rewrite round_small by lia. unfold add.
    change (Z.min (-2) (-54)) with (-54).
    change (2 ^ (-2 - -54)) with (2 ^ 52).
    change (2 ^ (-54 - -54)) with 1. rewrite Z.mul_1_r.
    destruct (round_scaled 1 (3 * 2 ^ 52 + k') (-54)) as (A & e & HA & He & Hb);
      [lia | reflexivity | lia | change (2 ^ (-2 - -54)) with (2 ^ 52); lia |].
    exists A, e. split; [exact HA|]. split; lia.
Qed.

Lemma jitter_ok (base k : Z) (w0 : world) :
  0 <= base -> 5 * base < 2 ^ 53 ->
  exists p w, jitter_product base (of_draw k) = Some p /\
    between (3 * base) 4 p (5 * base) 4 /\
    jitter base (of_draw k) w0 = (Ok w, w0) /\
    3 * base - 4 < 4 * w <= 5 * base /\ 0 <= w.
Proof.
  intros Hb Hb5.
  destruct (jitter_factor k) as (F & e & HF & He & HFb).
  unfold jitter, jitter_product. rewrite HF. unfold of_int.
  destruct (Z.eq_dec base 0) as [H0|Hn0].
  - subst base. rewrite round_zero. simpl option_map. unfold mul.
    rewrite Z.mul_0_l, round_zero. simpl.
    exists (Fin 0 0), 0. repeat split; lia.
  - rewrite round_small by lia. simpl option_map. unfold mul.
    replace (0 + e) with e by lia.
    destruct (round_scaled base (base * F) e) as (A & e' & HA & He' & HAb); try lia.
    { assert (0 < 2 ^ (-2 - e)) by (apply Z.pow_pos_nonneg; lia). nia. }
    rewrite HA.
    destruct (to_int_scaled base A e') as (w & Hw & Hwb); try lia.
    rewrite Hw.
    exists (Fin A e'), w. split; [reflexivity|]. split.
    { unfold between. destruct (Z.leb_spec 0 e'); [lia|].
      assert (Hpow : 2 ^ (- e') = 4 * 2 ^ (-2 - e')).
      { replace (- e') with (2 + (-2 - e')) by lia. rewrite Z.pow_add_r by lia. reflexivity. }
      rewrite Hpow. lia. }
    split; [reflexivity|]. split; [exact Hwb|]. lia.
Qed.
End Jitter.

(** ** The retry loop under rate limiting *)

Lemma bind_ok {A B} (c : M A) (k : A -> M B) w a w' :
  c w = (Ok a, w') -> bind c k w = k a w'.
Proof. intros H. unfold bind. rewrite H. reflexivity. Qed.

Lemma bind_raise {A B} (c : M A) (k : A -> M B) w e w' :
  c w = (Raise e, w') -> bind c k w = (Raise e, w').
Proof. intros H. unfold bind. rewrite H. reflexivity. Qed.

Section RetryLoop.
Variables (self : OpenAlexAPI) (E : env) (method path : string)
  (params : gmap string pyval).
Hypothesis Hwait : 0 <= max_retry_wait self <= 2 ^ 32.
Hypothesis Hclock : clock_formats E.

Lemma count_events_snoc p t ev :
  count_events p (t ++ [ev]) = (count_events p t + (if p ev then 1 else 0))%nat.
Proof.
  unfold count_events. rewrite List.filter_app, List.length_app. simpl.
  destruct (p ev); reflexivity.
Qed.

Lemma backoff_range attempt : 0 <= attempt -> 0 <= backoff self attempt <= 2 ^ 32.
Proof.
  intros Ha. unfold backoff.
  pose proof (Z.pow_pos_nonneg 2 attempt ltac:(lia) Ha). lia.
Qed.

Lemma report_status_effect msg w :
  exists w', _report_status self E msg w = (Ok tt, w') /\
    n_requests w' = n_requests w /\ n_draws w' = n_draws w /\
    count_events is_sleep (trace w') = count_events is_sleep (trace w) /\
    count_events is_request (trace w') = count_events is_request (trace w).
Proof.
  unfold _report_status, emit, ret.
  destruct (status_callback self); [|destruct (stderr_isatty E)];
    eexists; (split; [reflexivity|]); simpl; rewrite ?count_events_snoc; simpl;
    repeat split; lia.
Qed.

Lemma resume_time_ok wait_time w :
  0 <= wait_time <= 5 * 2 ^ 30 ->
  exists s, resume_time E wait_time w = (Ok s, w).
Proof.
  intros Hw. destruct (Hclock (n_requests w) wait_time Hw) as (s & Hs).
  exists s. unfold resume_time. rewrite Hs. reflexivity.
Qed.

Lemma time_sleep_ok seconds w :
  0 <= seconds <= SLEEP_MAX ->
  time_sleep seconds w
  = (Ok tt, {| n_requests := n_requests w; n_draws := n_draws w;
               trace := trace w ++ [EvSleep seconds] |}).
Proof.
  intros Hs. unfold time_sleep.
  destruct (Z.ltb_spec seconds (- SLEEP_MAX)); [unfold SLEEP_MAX in *; lia|].
  destruct (Z.ltb_spec SLEEP_MAX seconds); [lia|].
  destruct (Z.ltb_spec seconds 0); [lia|]. reflexivity.
Qed.

(** The wait time computed for a 429 response. *)
Lemma wait_time_429 (h : option string) attempt w :
  usable_header h -> 0 <= attempt ->
  exists base, 
    (if truthy_str h then int_of_str (default "" h) else ret (backoff self attempt)) w
      = (Ok base, w) /\ 0 <= base <= 2 ^ 32.
Proof.
  intros [Hf|(n & Hn & Hr)] Ha.
  - rewrite Hf. eexists. split; [reflexivity|]. apply backoff_range; lia.
  - destruct (truthy_str h).
    + unfold int_of_str. rewrite Hn. eexists. split; [reflexivity|lia].
    + eexists. split; [reflexivity|]. apply backoff_range; lia.
Qed.

Lemma attempt_429_retry attempt last_error w r :
  transport E (n_requests w) = Responded r ->
  rate_limited (Responded r) ->
  0 <= attempt < max_retries self ->
  exists w', attempt_body self E method path params attempt last_error w
               = (Ok (None, last_error), w') /\
    n_requests w' = S (n_requests w) /\
    count_events is_sleep (trace w') = S (count_events is_sleep (trace w)) /\
    count_events is_request (trace w') = S (count_events is_request (trace w)).
Proof.
  intros Ht [H429 Hh] Ha.
  unfold attempt_body.
  set (w1 := {| n_requests := S (n_requests w); n_draws := n_draws w;
                trace := trace w ++ [EvRequest method path params] |}).
  rewrite (bind_ok _ _ w (Responded r) w1) by (unfold client_request; rewrite Ht; reflexivity).
  rewrite H429. change (429 =? 200) with false. change (429 =? 429) with true.
  cbv iota zeta.
  destruct (wait_time_429 (retry_after_header r) attempt w1 Hh ltac:(lia))
    as (base & Hbase & Hrange).
  rewrite (bind_ok _ _ w1 base w1 Hbase).
  set (w2 := {| n_requests := n_requests w1; n_draws := S (n_draws w1); trace := trace w1 |}).
  rewrite (bind_ok _ _ w1 (PyFloat.of_draw (random_draw E (n_draws w1))) w2) by reflexivity.
  destruct (jitter_ok base (random_draw E (n_draws w1)) w2) as (p & wt & _ & _ & Hj & Hb & Hwt);
    [lia | lia |].
  rewrite (bind_ok _ _ w2 wt w2 Hj).
  destruct (Z.ltb_spec attempt (max_retries self)); [|lia].
  destruct (resume_time_ok wt w2 ltac:(lia)) as (rs & Hrs).
  rewrite (bind_ok _ _ w2 rs w2 Hrs).
  match goal with |- context [_report_status self E ?m] =>
    destruct (report_status_effect m w2) as (w3 & Hrep & Hn3 & _ & Hs3 & Hr3) end.
  rewrite (bind_ok _ _ w2 tt w3 Hrep).
  unfold bind. rewrite (time_sleep_ok wt w3) by (unfold SLEEP_MAX; lia).
  unfold ret. eexists. split; [reflexivity|]. simpl.
  rewrite !count_events_snoc, Hs3, Hr3, Hn3. simpl.
  rewrite !count_events_snoc. simpl. repeat split; lia.
Qed.

Lemma attempt_429_last attempt last_error w r :
  transport E (n_requests w) = Responded r ->
  rate_limited (Responded r) ->
  max_retries self <= attempt -> 0 <= attempt ->
  exists w', attempt_body self E method path params attempt last_error w
               = (Raise (RateLimitError (retry_after_value (retry_after_header r))), w') /\
    n_requests w' = S (n_requests w) /\
    count_events is_sleep (trace w') = count_events is_sleep (trace w) /\
    count_events is_request (trace w') = S (count_events is_request (trace w)).
Proof.
  intros Ht [H429 Hh] Ha Ha0.
  unfold attempt_body.
  set (w1 := {| n_requests := S (n_requests w); n_draws := n_draws w;
                trace := trace w ++ [EvRequest method path params] |}).
  rewrite (bind_ok _ _ w (Responded r) w1) by (unfold client_request; rewrite Ht; reflexivity).
  rewrite H429. change (429 =? 200) with false. change (429 =? 429) with true.
  cbv iota zeta.
  destruct (wait_time_429 (retry_after_header r) attempt w1 Hh ltac:(lia))
    as (base & Hbase & Hrange).
  rewrite (bind_ok _ _ w1 base w1 Hbase).
  set (w2 := {| n_requests := n_requests w1; n_draws := S (n_draws w1); trace := trace w1 |}).
  rewrite (bind_ok _ _ w1 (PyFloat.of_draw (random_draw E (n_draws w1))) w2) by reflexivity.
  destruct (jitter_ok base (random_draw E (n_draws w1)) w2) as (p & wt & _ & _ & Hj & _ & Hwt);
    [lia | lia |].
  rewrite (bind_ok _ _ w2 wt w2 Hj).
  destruct (Z.ltb_spec attempt (max_retries self)); [lia|].
  unfold retry_after_value.
  destruct Hh as [Hf|(n & Hn & Hr)].
  - rewrite Hf. unfold bind, ret, raise. eexists. split; [reflexivity|]. simpl.
    rewrite !count_events_snoc. simpl. repeat split; lia.
  - destruct (truthy_str (retry_after_header r)).
    + unfold bind, int_of_str. rewrite Hn. unfold ret, raise.
      eexists. split; [reflexivity|]. simpl.
      rewrite !count_events_snoc. simpl. repeat split; lia.
    + unfold bind, ret, raise. eexists. split; [reflexivity|]. simpl.
      rewrite !count_events_snoc. simpl. repeat split; lia.
Qed.

Hypothesis Hall : forall n, rate_limited (transport E n).

Lemma retry_loop_all_429 (k : nat) : forall (a : nat) last_error w,
  Z.of_nat a + Z.of_nat k = max_retries self ->
  exists w',
    retry_loop self E method path params
      (map Z.of_nat (seq a (S k))) last_error w
    = (Raise (RateLimitError
               (retry_after_value (header_of (transport E (n_requests w + k)%nat)))), w') /\
    n_requests w' = (n_requests w + S k)%nat /\
    count_events is_sleep (trace w') = (count_events is_sleep (trace w) + k)%nat /\
    count_events is_request (trace w') = (count_events is_request (trace w) + S k)%nat.
Proof.
  induction k as [|k IH]; intros a last_error w Hak.
  - change (map Z.of_nat (seq a 1)) with [Z.of_nat a]. cbn [retry_loop].
    pose proof (Hall (n_requests w)) as Hrl.
    destruct (transport E (n_requests w)) as [r|e] eqn:Ht; [|contradiction].
    destruct (attempt_429_last (Z.of_nat a) last_error w r Ht Hrl ltac:(lia) ltac:(lia))
      as (w' & Hb & Hn & Hs & Hr).
    rewrite (bind_raise _ _ _ _ _ Hb). exists w'.
    replace (n_requests w + 0)%nat with (n_requests w) by lia. rewrite Ht. simpl.
    repeat split; lia.
  - change (seq a (S (S k))) with (a :: seq (S a) (S k)).
    rewrite map_cons. cbn [retry_loop].
    pose proof (Hall (n_requests w)) as Hrl.
    destruct (transport E (n_requests w)) as [r|e] eqn:Ht; [|contradiction].
    destruct (attempt_429_retry (Z.of_nat a) last_error w r Ht Hrl ltac:(lia))
      as (w1 & Hb & Hn & Hs & Hr).
    rewrite (bind_ok _ _ _ _ _ Hb). cbv beta iota.
    destruct (IH (S a) last_error w1 ltac:(lia)) as (w' & Hl & Hn' & Hs' & Hr').
    rewrite Hl. exists w'.
    replace (n_requests w + S k)%nat with (n_requests w1 + k)%nat by lia.
    repeat split; lia.
Qed.

End RetryLoop.

(** ** The request engine: claims *)

Lemma py_range_succ (n : Z) :
  0 <= n -> py_range (n + 1) = map Z.of_nat (seq 0 (S (Z.to_nat n))).
Proof.
  intros Hn. unfold py_range. f_equal. f_equal.
  rewrite Z2Nat.inj_add by lia. simpl. lia.
Qed.

Lemma py_range_spec (n a : Z) : In a (py_range n) <-> 0 <= a < n.
Proof.
  unfold py_range. rewrite in_map_iff. split.
  - intros (i & <- & Hi). apply in_seq in Hi. lia.
  - intros Ha. exists (Z.to_nat a). split; [lia|]. apply in_seq. lia.
Qed.

(** Claim C9.  When the first exchange of [_request] is answered with
    status 404, the call raises the not-found [APIError] at once: status
    code 404, the suggestion that explains the letter prefixes of the
    entity identifiers, and a world in which exactly one exchange was made,
    with no sleep, no status notice and no random draw after it. *)
Theorem not_found_fails_without_retry (self : OpenAlexAPI) (E : env)
    (method path : string) (params : gmap string pyval) (w0 : world) (r : response) :
  0 <= max_retries self ->
  transport E (n_requests w0) = Responded r ->
  status_code r = 404 ->
  _request self E method path params w0
  = (Raise (APIError (JStr "Entity not found") (Some 404)
              (Some "Check the ID format. OpenAlex IDs start with W (works), A (authors), I (institutions), S (sources), etc.")
              None),
     {| n_requests := S (n_requests w0);
        n_draws := n_draws w0;
        trace := trace w0 ++ [EvRequest method path params] |}).
Proof.
  intros Hm Ht Hs. unfold _request. rewrite py_range_succ by exact Hm.
  change (seq 0 (S (Z.to_nat (max_retries self))))
    with (0%nat :: seq 1 (Z.to_nat (max_retries self))).
  rewrite map_cons. cbn [retry_loop].
  apply bind_raise. unfold attempt_body.
  erewrite bind_ok by (unfold client_request; rewrite Ht; reflexivity).
  cbv beta iota. rewrite Hs. reflexivity.
Qed.

Lemma not_found_fails_without_retry_witness :
  let E := {| transport := fun _ => Responded {| status_code := 404;
                                                  retry_after_header := None;
                                                  body := None |};
              random_draw := fun _ => 0;
              resume_str := fun _ _ => inr "00:00:00";
              stderr_isatty := false |} in
  _request default_api E "GET" "/works/W0" ∅ world0
  = (Raise (APIError (JStr "Entity not found") (Some 404)
              (Some "Check the ID format. OpenAlex IDs start with W (works), A (authors), I (institutions), S (sources), etc.")
              None),
     {| n_requests := 1; n_draws := 0;
        trace := [EvRequest "GET" "/works/W0" ∅] |}).
Proof.
  intros E.
  apply (not_found_fails_without_retry default_api E "GET" "/works/W0" ∅ world0
           {| status_code := 404; retry_after_header := None; body := None |}).
  - simpl. lia.
  - reflexivity.
  - reflexivity.
Defined.




(** Claim C4.  The code does not keep the jittered wait within
    [0.75 * base, 1.25 * base]: it truncates the jittered product with
    [int()].  With the default client, a first response 429 without
    [Retry-After] and the random draw 0.0, the base wait is
    [min(2^0, 60) = 1] and the engine sleeps for [int(0.75) = 0] seconds
    before it tries again, which is below [0.75 * base].  With the draw
    0.5 the product is 1.0 and the engine sleeps for 1 second. *)
Theorem first_retry_sleeps_zero_seconds :
  let E := scripted 1 (respond 429 None None)
             (respond 200 None (Some (JObj []))) 0 in
  let E' := scripted 1 (respond 429 None None)
              (respond 200 None (Some (JObj []))) (2 ^ 52) in
  Z.min (2 ^ 0) (max_retry_wait default_api) = 1 /\
  fst (_request default_api E "GET" "/works" ∅ world0) = Ok (JObj []) /\
  List.filter is_sleep (trace (snd (_request default_api E "GET" "/works" ∅ world0)))
  = [EvSleep 0] /\
  ~ (3 * Z.min (2 ^ 0) (max_retry_wait default_api) <= 4 * 0) /\
  List.filter is_sleep (trace (snd (_request default_api E' "GET" "/works" ∅ world0)))
  = [EvSleep 1].
Proof.
  intros E E'. split; [reflexivity|]. split; [vm_compute; reflexivity|].
  split; [vm_compute; reflexivity|]. split; [|vm_compute; reflexivity].
  vm_compute. intros H. apply H. reflexivity.
Qed.

(** The same on the computation of the wait alone: with base 1 and the
    draw 0.0 the product is 0.75, inside the interval, and [int()] of it is
    0, outside. *)
Lemma jittered_wait_below_three_quarters :
  backoff default_api 0 = Z.min (2 ^ 0) (max_retry_wait default_api) /\
  backoff default_api 0 = 1 /\
  jitter_product 1 (PyFloat.of_draw 0) = Some PyFloat.c0_75 /\
  jitter (backoff default_api 0) (PyFloat.of_draw 0) world0 = (Ok 0, world0) /\
  ~ (3 * backoff default_api 0 <= 4 * 0 <= 5 * backoff default_api 0).
Proof.
  repeat split; try (vm_compute; reflexivity).
  vm_compute. intros [H _]. apply H. reflexivity.
Qed.

(** ** The identifier normalizers *)

Section Replace.
Import PyStr.

Lemma startswith_app (p t : string) : startswith (p +:+ t) p = true.
Proof.
  induction p as [|a p IH]; [reflexivity|].
  simpl. rewrite Ascii.eqb_refl. exact IH.
Qed.

Lemma contains_startswith (s p : string) :
  contains s p = false -> startswith s p = false.
Proof.
  destruct s; simpl; destruct (startswith _ p); congruence.
Qed.

Lemma contains_tail (c : ascii) (s p : string) :
  contains (String c s) p = false -> contains s p = false.
Proof.
  simpl. destruct (startswith (String c s) p); congruence.
Qed.

Lemma replace_scan_absent (old new s : string) :
  contains s old = false -> replace_scan old new s O = s.
Proof.
  induction s as [|c s IH]; intros H; [reflexivity|].
  cbn [replace_scan]. rewrite (contains_startswith _ _ H).
  f_equal. apply IH. exact (contains_tail _ _ _ H).
Qed.

Lemma replace_scan_skip (old new u t : string) :
  replace_scan old new (u +:+ t) (String.length u) = replace_scan old new t O.
Proof.
  induction u as [|c u IH]; [reflexivity|].
  simpl. exact IH.
Qed.

(** Removing a prefix that occurs nowhere else. *)
Lemma replace_absent (s old new : string) :
  truthy old = true -> contains s old = false -> replace s old new = s.
Proof.
  destruct old as [|a old]; [discriminate|]. intros _ H.
  unfold replace. apply replace_scan_absent. exact H.
Qed.

Lemma replace_prefix (old t : string) :
  truthy old = true -> contains t old = false ->
  replace (old +:+ t) old "" = t.
Proof.
  destruct old as [|a old]; [discriminate|]. intros _ H.
  unfold replace. change (String a old +:+ t) with (String a (old +:+ t)).
  cbn [replace_scan].
  change (String a (old +:+ t)) with (String a old +:+ t).
  rewrite startswith_app. cbn [String.length Nat.pred].
  rewrite replace_scan_skip. simpl. apply replace_scan_absent. exact H.
Qed.

End Replace.

Lemma normalize_native (letter : string) (f : string -> string) (id : string) :
  In (letter, f) normalizers ->
  PyStr.startswith id letter = true ->
  PyStr.contains id OPENALEX_URL = false ->
  f id = id /\ f (OPENALEX_URL +:+ id) = id.
Proof.
  intros Hin Hl Hc.
  assert (Hu : PyStr.startswith (OPENALEX_URL +:+ id) OPENALEX_URL = true)
    by apply startswith_app.
  assert (R1 : PyStr.replace id OPENALEX_URL "" = id)
    by (apply replace_absent; [reflexivity|exact Hc]).
  assert (R2 : PyStr.replace (OPENALEX_URL +:+ id) OPENALEX_URL "" = id)
    by (apply replace_prefix; [reflexivity|exact Hc]).
  unfold normalizers in Hin. simpl in Hin.
  destruct Hin as [H|[H|[H|[H|[]]]]]; inversion H; subst; clear H.
  - unfold _normalize_work_id. fold OPENALEX_URL.
    rewrite Hl, Hu, orb_true_r. simpl orb. cbv iota. split; assumption.
  - unfold _normalize_author_id. fold OPENALEX_URL.
    rewrite Hl, Hu, orb_true_r. simpl orb. cbv iota. split; assumption.
  - unfold _normalize_institution_id. fold OPENALEX_URL.
    rewrite Hl, Hu, orb_true_r. simpl orb. cbv iota. split; assumption.
  - unfold _normalize_source_id. fold OPENALEX_URL.
    rewrite Hl, Hu, orb_true_r. simpl orb. cbv iota. split; assumption.
Qed.

(** Claim C5, as amended.  For each of the four normalizers, an identifier
    [id] that starts with the entity letter of the kind and contains no
    occurrence of the resource-URL prefix is returned unchanged, the full
    resource URL of [id] is normalized to [id], and on both inputs
    normalizing twice gives the same result as normalizing once. *)
Theorem normalize_idempotent_on_plain_native_ids
    (letter : string) (f : string -> string) (id x : string) :
  In (letter, f) normalizers ->
  PyStr.startswith id letter = true ->
  PyStr.contains id OPENALEX_URL = false ->
  x = id \/ x = OPENALEX_URL +:+ id ->
  f x = id /\ f (f x) = f x.
Proof.
  intros Hin Hl Hc Hx.
  destruct (normalize_native letter f id Hin Hl Hc) as [H1 H2].
  destruct Hx as [->| ->].
  - rewrite H1. split; [reflexivity|exact H1].
  - rewrite H2. split; [reflexivity|exact H1].
Qed.

Lemma normalize_idempotent_on_plain_native_ids_witness :
  _normalize_work_id "https://openalex.org/W123" = "W123" /\
  _normalize_work_id (_normalize_work_id "https://openalex.org/W123")
    = _normalize_work_id "https://openalex.org/W123".
Proof.
  apply (normalize_idempotent_on_plain_native_ids "W" _normalize_work_id "W123").
  - simpl. left. reflexivity.
  - reflexivity.
  - reflexivity.
  - right. reflexivity.
Defined.

(** Two strings in native form, one by its letter and one by the URL
    prefix, on which normalizing twice differs from normalizing once. *)
Lemma normalize_not_idempotent_on_every_native_form :
  (native_form "W" "Whttps://openalex.orghttps://openalex.org//" = true /\
   _normalize_work_id (_normalize_work_id "Whttps://openalex.orghttps://openalex.org//")
     <> _normalize_work_id "Whttps://openalex.orghttps://openalex.org//") /\
  (native_form "A" "https://openalex.org/0000-0002-1825-0097" = true /\
   _normalize_author_id (_normalize_author_id "https://openalex.org/0000-0002-1825-0097")
     <> _normalize_author_id "https://openalex.org/0000-0002-1825-0097").
Proof.
  split; (split; [reflexivity|]); vm_compute; discriminate.
Qed.

(** Claim C7.  The four documented results of the work normalizer: a bare
    DOI gets the [doi:] prefix, a prefixed DOI is unchanged, a PMID is
    lowercased, and a resource URL is stripped to the bare identifier. *)
Theorem normalize_work_examples :
  _normalize_work_id "10.1234/test" = "doi:10.1234/test" /\
  _normalize_work_id "doi:10.1234/test" = "doi:10.1234/test" /\
  _normalize_work_id "PMID:12345" = "pmid:12345" /\
  _normalize_work_id "https://openalex.org/W123" = "W123".
Proof. repeat split; vm_compute; reflexivity. Qed.

(** Claim C8, as amended.  For an author reference that neither starts
    with [A] nor with the resource-URL prefix: when it contains
    [orcid.org] or starts with the literal [0000-], the normalizer removes
    every [https://orcid.org/] and every [orcid:] and returns [orcid:]
    followed by the rest; when it starts with [orcid:] and does not contain
    [orcid.org], it is returned unchanged; the bare ORCID iD
    0000-0002-1825-0097 and its URL both give orcid:0000-0002-1825-0097. *)
Theorem normalize_author_orcid (x : string) :
  PyStr.startswith x "A" = false ->
  PyStr.startswith x "https://openalex.org/" = false ->
  (PyStr.contains x "orcid.org" = true \/ PyStr.startswith x "0000-" = true ->
   _normalize_author_id x
   = "orcid:" +:+ PyStr.replace (PyStr.replace x "https://orcid.org/" "") "orcid:" "")
  /\ (PyStr.startswith x "orcid:" = true -> PyStr.contains x "orcid.org" = false ->
      _normalize_author_id x = x)
  /\ _normalize_author_id "0000-0002-1825-0097" = "orcid:0000-0002-1825-0097"
  /\ _normalize_author_id "https://orcid.org/0000-0002-1825-0097"
     = "orcid:0000-0002-1825-0097".
Proof.
  intros HA HU. unfold _normalize_author_id at 1 2. rewrite HA, HU.
  change (false || false) with false. cbv iota.
  split; [|split; [|split; reflexivity]].
  - intros [H|H]; rewrite H; [|rewrite orb_true_r]; reflexivity.
  - intros Hp Hc. rewrite Hc.
    destruct x as [|a x]; [discriminate|].
    cbn [PyStr.startswith] in Hp.
    destruct (Ascii.eqb "o" a) eqn:Ho; [|discriminate].
    apply Ascii.eqb_eq in Ho. subst a. reflexivity.
Qed.

Lemma normalize_author_orcid_witness :
  _normalize_author_id "0000-0002-1825-0097"
  = "orcid:" +:+ PyStr.replace (PyStr.replace "0000-0002-1825-0097" "https://orcid.org/" "") "orcid:" "".
Proof.
  apply (proj1 (normalize_author_orcid "0000-0002-1825-0097" eq_refl eq_refl)).
  right. reflexivity.
Defined.

(** An ORCID iD of the 0009 block starts with four digits and a hyphen and
    is not in native form, yet it is returned without the [orcid:] prefix. *)
Lemma normalize_author_misses_orcid_patterns :
  PyStr.startswith "0009-0002-1825-0097" "A" = false /\
  PyStr.startswith "0009-0002-1825-0097" "https://openalex.org/" = false /\
  four_digits_hyphen "0009-0002-1825-0097" = true /\
  _normalize_author_id "0009-0002-1825-0097" = "0009-0002-1825-0097" /\
  PyStr.startswith (_normalize_author_id "0009-0002-1825-0097") "orcid:" = false.
Proof. repeat split; vm_compute; reflexivity. Qed.

(** ** Parameter construction *)

Section BuildParams.
Variable self : OpenAlexAPI.

(** The three last steps of [_build_params] leave other keys alone. *)
Lemma tail_params_lookup (k : string) (page per_page : option Z)
    (params : gmap string pyval) :
  k <> "page" -> k <> "per_page" -> k <> "mailto" ->
  (let params :=
     match page with
     | Some n => if n =? 0 then params else <["page" := VInt n]> params
     | None => params
     end in
   let params :=
     match per_page with
     | Some n => if n =? 0 then params else <["per_page" := VInt n]> params
     | None => params
     end in
   match email self with
   | Some e => if PyStr.truthy e then <["mailto" := VStr e]> params else params
   | None => params
   end) !! k = params !! k.
Proof.
  intros H1 H2 H3. cbv zeta.
  destruct (email self) as [e|]; [destruct (PyStr.truthy e)|];
    destruct per_page as [pp|]; try destruct (pp =? 0);
    destruct page as [pg|]; try destruct (pg =? 0);
    rewrite ?lookup_insert_ne by congruence; reflexivity.
Qed.

Lemma build_params_grouped_lookup (k : string)
    (filter_str search sort : option string) (page per_page : option Z)
    (select : option (list string)) (c : ascii) (g : string)
    (extra_filters : option Dict.t) :
  k <> "page" -> k <> "per_page" -> k <> "mailto" ->
  k <> "filter" -> k <> "search" -> k <> "group_by" ->
  _build_params self filter_str search sort page per_page select
    (Some (String c g)) extra_filters !! k
  = (<["sort" := if sort_in_grouped sort
                 then match sort with Some s => VStr s | None => VNone end
                 else VStr "count:desc"]> (∅ : gmap string pyval)) !! k.
Proof.
  intros H1 H2 H3 H4 H5 H6. unfold _build_params. cbv zeta.
  rewrite tail_params_lookup by assumption.
  destruct (sort_in_grouped sort);
    destruct (decide (k = "sort")) as [->|Hk];
    rewrite ?lookup_insert_eq; try reflexivity;
    rewrite !(lookup_insert_ne _ "sort") by congruence;
    rewrite lookup_insert_ne by congruence;
    destruct search as [s|]; try destruct (PyStr.truthy s);
    rewrite ?lookup_insert_ne by congruence;
    destruct (build_filters filter_str extra_filters);
    rewrite ?lookup_insert_ne by congruence; reflexivity.
Qed.

End BuildParams.

(** Claim C1.  Whenever [group_by] is a non-empty value, the parameters
    built by [_build_params] have no [select] key, whatever select list,
    sort, search term, filters or pagination were supplied. *)
Theorem group_by_suppresses_select (self : OpenAlexAPI)
    (filter_str search sort : option string) (page per_page : option Z)
    (select : option (list string)) (group_by : option string)
    (extra_filters : option Dict.t) :
  truthy_str group_by = true ->
  _build_params self filter_str search sort page per_page select group_by
    extra_filters !! "select" = None.
Proof.
  intros Hg. destruct group_by as [[|c g]|]; try discriminate.
  rewrite build_params_grouped_lookup by congruence.
  rewrite lookup_insert_ne by congruence. apply lookup_empty.
Qed.

Lemma group_by_suppresses_select_witness :
  _build_params default_api None (Some "test") None None None
    (Some ["id"; "title"]) (Some "publication_year") None !! "select" = None.
Proof.
  apply (group_by_suppresses_select default_api None (Some "test") None None None
           (Some ["id"; "title"]) (Some "publication_year") None).
  reflexivity.
Defined.

Lemma sort_in_grouped_spec (sort : option string) :
  sort_in_grouped sort = true <->
  exists s, sort = Some s /\
    In s ["key"; "count"; "count:asc"; "count:desc"; "key:asc"; "key:desc"].
Proof.
  unfold sort_in_grouped, GROUPED_SORTS. destruct sort as [s|].
  - rewrite existsb_exists. split.
    + intros (x & Hx & He). apply String.eqb_eq in He. subst x.
      exists s. split; [reflexivity|]. simpl in *. tauto.
    + intros (s' & Hs & Hin). inversion Hs; subst s'.
      exists s. split; [simpl in *; tauto|apply String.eqb_refl].
  - split; [discriminate|]. intros (s & Hs & _). discriminate.
Qed.

(** Claim C2.  With a non-empty [group_by], a supplied sort that is one of
    the six literals key, count, count:asc, count:desc, key:asc and
    key:desc is kept unchanged as the [sort] parameter, and any other sort,
    or none, makes the [sort] parameter [count:desc]. *)
Theorem group_by_restricts_sort (self : OpenAlexAPI)
    (filter_str search sort : option string) (page per_page : option Z)
    (select : option (list string)) (group_by : option string)
    (extra_filters : option Dict.t) :
  truthy_str group_by = true ->
  let params := _build_params self filter_str search sort page per_page select
                  group_by extra_filters in
  (forall s, sort = Some s ->
     In s ["key"; "count"; "count:asc"; "count:desc"; "key:asc"; "key:desc"] ->
     params !! "sort" = Some (VStr s)) /\
  ((forall s, sort = Some s ->
      ~ In s ["key"; "count"; "count:asc"; "count:desc"; "key:asc"; "key:desc"]) ->
   params !! "sort" = Some (VStr "count:desc")).
Proof.
  intros Hg params. subst params.
  destruct group_by as [[|c g]|]; try discriminate.
  rewrite build_params_grouped_lookup by congruence.
  rewrite lookup_insert_eq. split.
  - intros s Hs Hin.
    assert (Ht : sort_in_grouped sort = true)
      by (apply sort_in_grouped_spec; eauto).
    rewrite Ht, Hs. reflexivity.
  - intros Hnot.
    destruct (sort_in_grouped sort) eqn:Ht; [|reflexivity].
    apply sort_in_grouped_spec in Ht. destruct Ht as (s & Hs & Hin).
    exfalso. exact (Hnot s Hs Hin).
Qed.

Lemma group_by_restricts_sort_witness :
  _build_params default_api None None (Some "count:asc") None None None
    (Some "type") None !! "sort" = Some (VStr "count:asc") /\
  _build_params default_api None None (Some "cited_by_count:desc") None None None
    (Some "type") None !! "sort" = Some (VStr "count:desc").
Proof.
  split.
  - apply (proj1 (group_by_restricts_sort default_api None None (Some "count:asc")
                      None None None (Some "type") None eq_refl) "count:asc" eq_refl).
    simpl. tauto.
  - apply (proj2 (group_by_restricts_sort default_api None None
                      (Some "cited_by_count:desc") None None None (Some "type") None
                      eq_refl)).
    intros s Hs. inversion Hs; subst s. simpl.
    intros [H|[H|[H|[H|[H|[H|[]]]]]]]; discriminate.
Defined.

Lemma fold_append_clause (d : list (string * pyval)) : forall acc,
  fold_left append_clause d acc =
  (acc ++ flat_map (fun kv => match snd kv with
                              | VNone => []
                              | v => [fst kv +:+ ":" +:+ py_str v]
                              end) d)%list.
Proof.
  induction d as [|[k v] d IH]; intros acc; simpl.
  - rewrite app_nil_r. reflexivity.
  - rewrite IH. unfold append_clause. simpl.
    destruct v; simpl; rewrite <- ?app_assoc; reflexivity.
Qed.

Lemma build_filters_spec (filter_str : option string) (extra_filters : option Dict.t) :
  build_filters filter_str extra_filters = spec_clauses filter_str extra_filters.
Proof.
  unfold build_filters, spec_clauses, Dict.items.
  destruct extra_filters as [[|kv d]|]; cbv zeta.
  - destruct filter_str as [[|c s]|]; simpl; reflexivity.
  - rewrite fold_append_clause. destruct filter_str as [[|c s]|]; reflexivity.
  - destruct filter_str as [[|c s]|]; simpl; reflexivity.
Qed.

Lemma build_params_filter_lookup (self : OpenAlexAPI)
    (filter_str search sort : option string) (page per_page : option Z)
    (sel : option (list string)) (group_by : option string)
    (extra_filters : option Dict.t) :
  _build_params self filter_str search sort page per_page sel group_by
    extra_filters !! "filter"
  = match build_filters filter_str extra_filters with
    | [] => None
    | f :: fs => Some (VStr (py_join "," (f :: fs)))
    end.
Proof.
  unfold _build_params. cbv zeta.
  rewrite tail_params_lookup by congruence.
  destruct group_by as [[|c g]|];
    try destruct (sort_in_grouped sort);
    destruct sort as [[|cs so]|]; simpl PyStr.truthy; cbv iota;
    destruct sel as [[|f fs]|];
    rewrite ?lookup_insert_ne by congruence;
    destruct search as [[|c' s']|]; simpl PyStr.truthy; cbv iota;
    rewrite ?lookup_insert_ne by congruence;
    destruct (build_filters filter_str extra_filters);
    rewrite ?lookup_insert_eq, ?lookup_empty; reflexivity.
Qed.

Lemma build_params_search_lookup (self : OpenAlexAPI)
    (filter_str sort : option string) (page per_page : option Z)
    (sel : option (list string)) (group_by : option string)
    (extra_filters : option Dict.t) (c : ascii) (q : string) :
  _build_params self filter_str (Some (String c q)) sort page per_page sel
    group_by extra_filters !! "search" = Some (VStr (String c q)).
Proof.
  unfold _build_params. cbv zeta.
  rewrite tail_params_lookup by congruence.
  destruct group_by as [[|c' g]|];
    try destruct (sort_in_grouped sort);
    destruct sort as [[|cs so]|]; simpl PyStr.truthy; cbv iota;
    destruct sel as [[|f fs]|];
    rewrite ?lookup_insert_ne by congruence;
    rewrite lookup_insert_eq; reflexivity.
Qed.

(** Claim C6.  The [filter] parameter of [_build_params] is the
    comma-joined list made of the explicit filter string, when there is
    one, followed by a [key:value] clause for each extra filter whose value
    is not null; there is no [filter] parameter when that list is empty;
    clauses with the same key are all kept; and a work search with
    min_citations=100, open_access=true and from_date 2023-01-01 sends the
    three clauses joined by commas next to the search term. *)
Theorem extra_filters_join_the_filter_parameter :
  (forall (self : OpenAlexAPI) (filter_str search sort : option string)
          (page per_page : option Z) (select : option (list string))
          (group_by : option string) (extra_filters : option Dict.t),
     _build_params self filter_str search sort page per_page select group_by
       extra_filters !! "filter" = spec_filter filter_str extra_filters) /\
  (forall (self : OpenAlexAPI),
     _build_params self (Some "type:article,is_oa:false") None None None None None
       None (Some [("type", VStr "book"); ("to_publication_date", VNone);
                   ("is_oa", VStr "true")])
       !! "filter" = Some (VStr "type:article,is_oa:false,type:book,is_oa:true")) /\
  (forall (self : OpenAlexAPI) (c : ascii) (q : string) (sort : option string)
          (page per_page : Z) (select : option (list string))
          (group_by : option string),
     let params :=
       search_works_params self (Some (String c q)) None (Some "2023-01-01") None
         (Some 100) (Some true) None sort page per_page select group_by in
     params !! "filter"
       = Some (VStr "from_publication_date:2023-01-01,cited_by_count:>100,is_oa:true")
     /\ params !! "search" = Some (VStr (String c q))).
Proof.
  split; [|split].
  - intros. rewrite build_params_filter_lookup, build_filters_spec.
    unfold spec_filter. destruct (spec_clauses filter_str extra_filters); reflexivity.
  - intros. rewrite build_params_filter_lookup. reflexivity.
  - intros. subst params. unfold search_works_params. split.
    + rewrite build_params_filter_lookup. reflexivity.
    + apply build_params_search_lookup.
Qed.

(** Claim C10.  [search_works] with [open_access=False] builds exactly
    the parameters, and performs exactly the request, that it does with
    [open_access=None]: only the literal [True] adds the [is_oa] clause. *)
Theorem open_access_false_adds_no_clause (self : OpenAlexAPI) (E : env)
    (query filter_str from_date to_date : option string)
    (min_citations : option Z) (work_type sort : option string)
    (page per_page : Z) (select : option (list string)) (group_by : option string) :
  search_works_params self query filter_str from_date to_date min_citations
    (Some false) work_type sort page per_page select group_by
  = search_works_params self query filter_str from_date to_date min_citations
    None work_type sort page per_page select group_by
  /\ search_works self E query filter_str from_date to_date min_citations
       (Some false) work_type sort page per_page select group_by
     = search_works self E query filter_str from_date to_date min_citations
       None work_type sort page per_page select group_by
  /\ search_works_params self None None None None None (Some true) None None 1 25
       None None !! "filter" = Some (VStr "is_oa:true")
  /\ search_works_params self None None None None None (Some false) None None 1 25
       None None !! "filter" = None.
Proof.
  split; [reflexivity|]. split; [reflexivity|]. split.
  - unfold search_works_params. rewrite build_params_filter_lookup. reflexivity.
  - unfold search_works_params. rewrite build_params_filter_lookup. reflexivity.
Qed.

(** ** The request engine: effort, outcomes and waits *)

Ltac split_branches :=
  repeat match goal with
    | |- context [match ?x with _ => _ end] =>
        match x with
        | context [match _ with _ => _ end] => fail 1
        | _ => destruct x eqn:?
        end
    end.

Section LoopEffects.
Variables (self : OpenAlexAPI) (E : env) (method path : string)
  (params : gmap string pyval).

Lemma attempt_body_effect attempt last_error w :
  exists evs,
    trace (snd (attempt_body self E method path params attempt last_error w))
      = (trace w ++ EvRequest method path params :: evs)%list /\
    n_requests (snd (attempt_body self E method path params attempt last_error w))
      = S (n_requests w) /\
    (n_draws (snd (attempt_body self E method path params attempt last_error w))
      <= S (n_draws w))%nat /\
    count_events is_request evs = 0%nat /\
    (count_events is_sleep evs <= 1)%nat /\
    (attempt < max_retries self \/ count_events is_sleep evs = 0%nat) /\
    step_shape self attempt
      (fst (attempt_body self E method path params attempt last_error w)).
Proof.
  unfold attempt_body, bind, client_request.
  destruct (transport E (n_requests w)) as [r|e].
  - destruct (status_code r =? 200).
    { destruct (body r); exists []; simpl; repeat split; auto; lia. }
    destruct (status_code r =? 429).
    2:{ destruct (status_code r =? 404); [|destruct (status_code r =? 400)];
        exists []; simpl; repeat split; auto; lia. }
    unfold int_of_str, random_random, jitter, resume_time, _report_status,
      time_sleep, emit, ret, raise.
    split_branches; simpl;
    eexists; (split; [rewrite <- ?app_assoc; simpl; reflexivity|]);
    unfold count_events, step_shape; simpl;
    try match goal with c : clock_error |- _ => destruct c end; simpl;
    repeat split; auto; try lia;
    try (apply Z.ltb_lt; assumption); try (left; apply Z.ltb_lt; assumption).
  - unfold _report_status, time_sleep, emit, ret, raise.
    split_branches; simpl;
    eexists; (split; [rewrite <- ?app_assoc; simpl; reflexivity|]);
    unfold count_events, step_shape; simpl; repeat split; auto; try lia;
    try (apply Z.ltb_lt; assumption); try (left; apply Z.ltb_lt; assumption).
Qed.

Lemma count_events_app p (t u : list event) :
  count_events p (t ++ u) = (count_events p t + count_events p u)%nat.
Proof. unfold count_events. rewrite List.filter_app, List.length_app. reflexivity. Qed.

Lemma count_events_none p (t : list event) :
  count_events p t = 0%nat -> Forall (fun ev => p ev = false) t.
Proof.
  unfold count_events. induction t as [|ev t IH]; simpl; intros H.
  - constructor.
  - destruct (p ev) eqn:Hp; [discriminate|]. constructor; auto.
Qed.

Lemma no_request_events (t : list event) (x : event) :
  count_events is_request t = 0%nat ->
  Forall (fun ev => is_request ev = true -> ev = x) t.
Proof.
  intros H. apply count_events_none in H.
  induction H as [|ev t Hev _ IH]; constructor; auto.
  intros H1. congruence.
Qed.

(** The events the whole loop adds. *)
Lemma retry_loop_effect (k : nat) : forall (a : nat) last_error w,
  k = 0%nat \/ Z.of_nat a + Z.of_nat k = max_retries self + 1 ->
  exists evs,
    trace (snd (retry_loop self E method path params
                  (map Z.of_nat (seq a k)) last_error w))
      = (trace w ++ evs)%list /\
    Forall (fun ev => is_request ev = true -> ev = EvRequest method path params) evs /\
    n_requests (snd (retry_loop self E method path params
                       (map Z.of_nat (seq a k)) last_error w))
      = (n_requests w + count_events is_request evs)%nat /\
    (count_events is_request evs <= k)%nat /\
    (n_draws (snd (retry_loop self E method path params
                     (map Z.of_nat (seq a k)) last_error w))
      <= n_draws w + count_events is_request evs)%nat /\
    (count_events is_sleep evs <= Z.to_nat (max_retries self) - a)%nat /\
    (k <> 0%nat ->
     forall m c, fst (retry_loop self E method path params
                        (map Z.of_nat (seq a k)) last_error w)
                 <> Raise (APIError m None None c)).
Proof.
  induction k as [|k IH]; intros a last_error w Hk.
  - exists []. simpl. rewrite app_nil_r. unfold count_events. simpl.
    repeat split; auto; try lia.
  - destruct Hk as [Hk|Hk]; [discriminate|].
    change (seq a (S k)) with (a :: seq (S a) k). rewrite map_cons. cbn [retry_loop].
    destruct (attempt_body_effect (Z.of_nat a) last_error w)
      as (evs1 & Ht & Hn & Hd & Hr & Hs & Hs' & Hshape).
    unfold bind.
    destruct (attempt_body self E method path params (Z.of_nat a) last_error w)
      as [[[[j|] le']|e] w1] eqn:Hstep; simpl in Ht, Hn, Hd, Hshape.
    + exists (EvRequest method path params :: evs1). simpl.
      rewrite Ht. split; [reflexivity|].
      split.
      { constructor; [reflexivity|].
        apply no_request_events, Hr. }
      change (EvRequest method path params :: evs1)
        with ([EvRequest method path params] ++ evs1)%list.
      rewrite !count_events_app. unfold count_events at 1 3 5. simpl.
      repeat split; try lia. discriminate.
    + destruct (IH (S a) le' w1) as (evs2 & Ht2 & Hf2 & Hn2 & Hr2 & Hd2 & Hs2 & Hx2).
      { destruct k; [left; reflexivity|right; lia]. }
      exists ((EvRequest method path params :: evs1) ++ evs2)%list.
      rewrite Ht2, Ht, <- app_assoc. split; [reflexivity|].
      split.
      { apply Forall_app. split; [|exact Hf2].
        constructor; [reflexivity|].
        apply no_request_events, Hr. }
      change (EvRequest method path params :: evs1)
        with ([EvRequest method path params] ++ evs1)%list.
      rewrite !count_events_app. unfold count_events at 1 4 7. simpl.
      rewrite Hn2, Hn.
      repeat split; try lia.
      intros _. apply Hx2. intros ->. simpl in Hk. lia.
    + exists (EvRequest method path params :: evs1). simpl.
      rewrite Ht. split; [reflexivity|].
      split.
      { constructor; [reflexivity|].
        apply no_request_events, Hr. }
      change (EvRequest method path params :: evs1)
        with ([EvRequest method path params] ++ evs1)%list.
      rewrite !count_events_app. unfold count_events at 1 3 5. simpl.
      repeat split; try lia.
      intros _ m c Heq. inversion Heq; subst. exact Hshape.
Qed.
End LoopEffects.

Section RetrySteps.
Variables (self : OpenAlexAPI) (E : env) (method path : string)
  (params : gmap string pyval).

Lemma report_status_sleeps msg w :
  exists w', _report_status self E msg w = (Ok tt, w') /\
    n_requests w' = n_requests w /\ n_draws w' = n_draws w /\
    List.filter is_sleep (trace w') = List.filter is_sleep (trace w) /\
    count_events is_request (trace w') = count_events is_request (trace w).
Proof.
  unfold _report_status, emit, ret.
  destruct (status_callback self); [|destruct (stderr_isatty E)];
    eexists; (split; [reflexivity|]); simpl;
    rewrite ?count_events_snoc, ?List.filter_app; simpl;
    rewrite ?app_nil_r; repeat split; lia.
Qed.

Lemma filter_sleep_count (t u : list event) :
  List.filter is_sleep t = u -> count_events is_sleep t = length u.
Proof. intros <-. reflexivity. Qed.

Lemma jitter_is_int (base : Z) (x p : PyFloat.t) (wait : Z) w :
  jitter_product base x = Some p -> jitter base x w = (Ok wait, w) ->
  PyFloat.to_int p = PyFloat.IntOk wait.
Proof.
  unfold jitter_product, jitter. destruct (PyFloat.of_int base) as [f|]; [|discriminate].
  simpl. intros Hp. injection Hp as <-.
  destruct (PyFloat.to_int _); unfold ret, raise; congruence.
Qed.

(** The wait after a 429 before the last attempt. *)
Lemma attempt_429_sleep attempt last_error w r base :
  clock_formats E ->
  transport E (n_requests w) = Responded r ->
  status_code r = 429 ->
  (truthy_str (retry_after_header r) = true ->
   py_int (default "" (retry_after_header r)) = Some base) ->
  (truthy_str (retry_after_header r) = false ->
   base = Z.min (2 ^ attempt) (max_retry_wait self)) ->
  0 <= base <= 2 ^ 32 ->
  0 <= attempt < max_retries self ->
  exists p wait w',
    jitter_product base (PyFloat.of_draw (random_draw E (n_draws w))) = Some p /\
    PyFloat.to_int p = PyFloat.IntOk wait /\
    attempt_body self E method path params attempt last_error w
      = (Ok (None, last_error), w') /\
    n_requests w' = S (n_requests w) /\
    n_draws w' = S (n_draws w) /\
    List.filter is_sleep (trace w')
      = (List.filter is_sleep (trace w) ++ [EvSleep wait])%list /\
    3 * base - 4 < 4 * wait <= 5 * base /\ 0 <= wait.
Proof.
  intros Hclock Ht H429 Hhead Hnone Hrange Ha.
  unfold attempt_body.
  set (w1 := {| n_requests := S (n_requests w); n_draws := n_draws w;
                trace := trace w ++ [EvRequest method path params] |}).
  rewrite (bind_ok _ _ w (Responded r) w1) by (unfold client_request; rewrite Ht; reflexivity).
  rewrite H429. change (429 =? 200) with false. change (429 =? 429) with true.
  cbv iota zeta.
  assert (Hbase : (if truthy_str (retry_after_header r)
                   then int_of_str (default "" (retry_after_header r))
                   else ret (backoff self attempt)) w1 = (Ok base, w1)).
  { destruct (truthy_str (retry_after_header r)).
    - unfold int_of_str. rewrite (Hhead eq_refl). reflexivity.
    - rewrite (Hnone eq_refl). reflexivity. }
  rewrite (bind_ok _ _ w1 base w1 Hbase).
  set (w2 := {| n_requests := n_requests w1; n_draws := S (n_draws w1); trace := trace w1 |}).
  rewrite (bind_ok _ _ w1 (PyFloat.of_draw (random_draw E (n_draws w1))) w2) by reflexivity.
  destruct (jitter_ok base (random_draw E (n_draws w1)) w2) as (p & wt & Hp & _ & Hj & Hb & Hwt);
    [lia | lia |].
  rewrite (bind_ok _ _ w2 wt w2 Hj).
  destruct (Z.ltb_spec attempt (max_retries self)); [|lia].
  destruct (resume_time_ok E Hclock wt w2 ltac:(lia)) as (rs & Hrs).
  rewrite (bind_ok _ _ w2 rs w2 Hrs).
  match goal with |- context [_report_status self E ?m] =>
    destruct (report_status_sleeps m w2) as (w3 & Hrep & Hn3 & Hd3 & Hs3 & Hr3) end.
  rewrite (bind_ok _ _ w2 tt w3 Hrep).
  unfold bind. rewrite (time_sleep_ok wt w3) by (unfold SLEEP_MAX; lia).
  unfold ret. exists p, wt. eexists.
  split; [exact Hp|]. split; [exact (jitter_is_int _ _ _ _ _ Hp Hj)|].
  split; [reflexivity|]. simpl.
  rewrite List.filter_app, Hs3, Hn3, Hd3. simpl.
  rewrite List.filter_app. simpl. rewrite app_nil_r.
  repeat split; lia.
Qed.

(** The wait after a transport fault before the last attempt. *)
Lemma attempt_fault_sleep attempt last_error w e :
  0 <= max_retry_wait self <= SLEEP_MAX ->
  transport E (n_requests w) = RequestError e ->
  0 <= attempt < max_retries self ->
  exists w', attempt_body self E method path params attempt last_error w
               = (Ok (None, Some e), w') /\
    n_requests w' = S (n_requests w) /\
    n_draws w' = n_draws w /\
    List.filter is_sleep (trace w')
      = (List.filter is_sleep (trace w)
         ++ [EvSleep (Z.min (2 ^ attempt) (max_retry_wait self))])%list.
Proof.
  intros Hwait Ht Ha.
  unfold attempt_body.
  set (w1 := {| n_requests := S (n_requests w); n_draws := n_draws w;
                trace := trace w ++ [EvRequest method path params] |}).
  rewrite (bind_ok _ _ w (RequestError e) w1) by (unfold client_request; rewrite Ht; reflexivity).
  cbv iota zeta.
  destruct (Z.ltb_spec attempt (max_retries self)); [|lia].
  match goal with |- context [_report_status self E ?m] =>
    destruct (report_status_sleeps m w1) as (w3 & Hrep & Hn3 & Hd3 & Hs3 & Hr3) end.
  rewrite (bind_ok _ _ w1 tt w3 Hrep).
  assert (0 <= backoff self attempt <= SLEEP_MAX).
  { unfold backoff. pose proof (Z.pow_nonneg 2 attempt ltac:(lia)). lia. }
  unfold bind. rewrite (time_sleep_ok _ w3) by assumption.
  unfold ret, backoff. eexists. split; [reflexivity|]. simpl.
  rewrite List.filter_app, Hs3, Hn3, Hd3. simpl.
  rewrite List.filter_app. simpl. rewrite app_nil_r.
  repeat split; lia.
Qed.

Lemma attempt_fault_last attempt last_error w e :
  transport E (n_requests w) = RequestError e ->
  max_retries self <= attempt ->
  attempt_body self E method path params attempt last_error w
  = (Raise (APIError (JStr ("Connection error: " +:+ e)) None
              (Some "Check your network connection") (Some e)),
     {| n_requests := S (n_requests w); n_draws := n_draws w;
        trace := trace w ++ [EvRequest method path params] |}).
Proof.
  intros Ht Ha. unfold attempt_body.
  erewrite bind_ok by (unfold client_request; rewrite Ht; reflexivity).
  cbv iota zeta.
  destruct (Z.ltb_spec attempt (max_retries self)); [lia|]. reflexivity.
Qed.

(** When every exchange is a transport fault. *)
Lemma retry_loop_all_faults (k : nat) : forall (a : nat) last_error w,
  0 <= max_retry_wait self <= SLEEP_MAX ->
  (forall n, exists e, transport E n = RequestError e) ->
  Z.of_nat a + Z.of_nat k = max_retries self ->
  exists e w',
    transport E (n_requests w + k)%nat = RequestError e /\
    retry_loop self E method path params
      (map Z.of_nat (seq a (S k))) last_error w
    = (Raise (APIError (JStr ("Connection error: " +:+ e)) None
                (Some "Check your network connection") (Some e)), w') /\
    n_requests w' = (n_requests w + S k)%nat /\
    n_draws w' = n_draws w /\
    List.filter is_sleep (trace w')
    = (List.filter is_sleep (trace w)
       ++ map (fun i => EvSleep (Z.min (2 ^ Z.of_nat i) (max_retry_wait self)))
            (seq a k))%list.
Proof.
  induction k as [|k IH]; intros a last_error w Hwait Hall Hak.
  - change (map Z.of_nat (seq a 1)) with [Z.of_nat a]. cbn [retry_loop].
    destruct (Hall (n_requests w)) as [e Ht].
    exists e. eexists.
    replace (n_requests w + 0)%nat with (n_requests w) by lia.
    split; [exact Ht|]. split.
    { apply bind_raise. apply attempt_fault_last; [exact Ht|lia]. }
    simpl. rewrite List.filter_app. simpl. rewrite !app_nil_r.
    repeat split; lia.
  - change (seq a (S (S k))) with (a :: seq (S a) (S k)).
    rewrite map_cons. cbn [retry_loop].
    destruct (Hall (n_requests w)) as [e Ht].
    destruct (attempt_fault_sleep (Z.of_nat a) last_error w e Hwait Ht ltac:(lia))
      as (w1 & Hb & Hn & Hd & Hs).
    rewrite (bind_ok _ _ _ _ _ Hb). cbv beta iota.
    destruct (IH (S a) (Some e) w1 Hwait Hall ltac:(lia))
      as (e' & w' & Ht' & Hl & Hn' & Hd' & Hs').
    exists e', w'.
    replace (n_requests w + S k)%nat with (n_requests w1 + k)%nat by lia.
    split; [exact Ht'|]. split; [exact Hl|].
    rewrite Hs', Hs, <- app_assoc. simpl.
    repeat split; lia.
Qed.

(** The loop passes over exchanges after which it tries again. *)
Lemma retry_loop_skip (k : nat) : forall (a : nat) last_error w rest,
  0 <= max_retry_wait self <= 2 ^ 32 ->
  clock_formats E ->
  (forall i, (i < k)%nat -> retryable (transport E (n_requests w + i)%nat)) ->
  Z.of_nat a + Z.of_nat k <= max_retries self ->
  exists last_error' w',
    retry_loop self E method path params
      (map Z.of_nat (seq a k) ++ rest) last_error w
    = retry_loop self E method path params rest last_error' w' /\
    n_requests w' = (n_requests w + k)%nat /\
    count_events is_sleep (trace w') = (count_events is_sleep (trace w) + k)%nat /\
    count_events is_request (trace w') = (count_events is_request (trace w) + k)%nat.
Proof.
  induction k as [|k IH]; intros a last_error w rest Hwait Hclock Hall Hak.
  - exists last_error, w. simpl. repeat split; lia.
  - change (seq a (S k)) with (a :: seq (S a) k).
    rewrite map_cons. simpl app. cbn [retry_loop].
    pose proof (Hall 0%nat ltac:(lia)) as Hrl.
    replace (n_requests w + 0)%nat with (n_requests w) in Hrl by lia.
    assert (Hstep : exists le1 w1,
      attempt_body self E method path params (Z.of_nat a) last_error w
        = (Ok (None, le1), w1) /\
      n_requests w1 = S (n_requests w) /\
      count_events is_sleep (trace w1) = S (count_events is_sleep (trace w)) /\
      count_events is_request (trace w1) = S (count_events is_request (trace w))).
    { destruct (transport E (n_requests w)) as [r|e] eqn:Ht.
      - destruct (attempt_429_retry self E method path params Hwait Hclock
                    (Z.of_nat a) last_error w r Ht Hrl ltac:(lia))
          as (w1 & Hb & Hn & Hs & Hr).
        exists last_error, w1. auto.
      - destruct (attempt_body_effect self E method path params
                    (Z.of_nat a) last_error w)
          as (evs & Htr & Hn & _ & Hrq & _ & _ & _).
        destruct (attempt_fault_sleep (Z.of_nat a) last_error w e
                    ltac:(unfold SLEEP_MAX; lia) Ht ltac:(lia))
          as (w1 & Hb & Hn1 & Hd & Hs).
        rewrite Hb in Htr, Hn. simpl in Htr, Hn.
        exists (Some e), w1. split; [exact Hb|]. split; [exact Hn1|]. split.
        + rewrite (filter_sleep_count _ _ Hs), length_app.
          unfold count_events. simpl. lia.
        + rewrite Htr.
          change (EvRequest method path params :: evs)
            with ([EvRequest method path params] ++ evs)%list.
          rewrite !count_events_app, Hrq. unfold count_events at 2. simpl. lia. }
    destruct Hstep as (le1 & w1 & Hb & Hn & Hs & Hr).
    rewrite (bind_ok _ _ _ _ _ Hb). cbv beta iota.
    destruct (IH (S a) le1 w1 rest Hwait Hclock) as (le' & w' & Hl & Hn' & Hs' & Hr').
    { intros i Hi. replace (n_requests w1 + i)%nat with (n_requests w + S i)%nat by lia.
      apply Hall. lia. }
    { lia. }
    exists le', w'. split; [exact Hl|]. repeat split; lia.
Qed.

End RetrySteps.

Section LastAttempt.
Variables (self : OpenAlexAPI) (E : env) (method path : string)
  (params : gmap string pyval).

Lemma request_after_retries (k : nat) w :
  0 <= max_retry_wait self <= 2 ^ 32 ->
  clock_formats E ->
  Z.of_nat k <= max_retries self ->
  (forall i, (i < k)%nat -> retryable (transport E (n_requests w + i)%nat)) ->
  exists last_error w1 rest,
    _request self E method path params w
    = bind (attempt_body self E method path params (Z.of_nat k) last_error)
        (fun step => match step with
                     | (Some j, _) => ret j
                     | (None, last_error') =>
                         retry_loop self E method path params rest last_error'
                     end) w1 /\
    n_requests w1 = (n_requests w + k)%nat /\
    count_events is_sleep (trace w1) = (count_events is_sleep (trace w) + k)%nat /\
    count_events is_request (trace w1) = (count_events is_request (trace w) + k)%nat.
Proof.
  intros Hwait Hclock Hk Hall. unfold _request.
  rewrite py_range_succ by lia.
  replace (S (Z.to_nat (max_retries self)))
    with (k + S (Z.to_nat (max_retries self) - k))%nat by lia.
  rewrite seq_app, map_app. simpl Nat.add.
  change (seq k (S (Z.to_nat (max_retries self) - k)))
    with (k :: seq (S k) (Z.to_nat (max_retries self) - k)).
  rewrite map_cons.
  destruct (retry_loop_skip self E method path params k 0%nat None w
              (Z.of_nat k :: map Z.of_nat (seq (S k) (Z.to_nat (max_retries self) - k)))
              Hwait Hclock Hall ltac:(lia)) as (le & w1 & Hl & Hn & Hs & Hr).
  rewrite Hl. cbn [retry_loop].
  exists le, w1. eexists. split; [reflexivity|]. repeat split; assumption.
Qed.

Lemma attempt_200 attempt last_error w r :
  transport E (n_requests w) = Responded r ->
  status_code r = 200 ->
  attempt_body self E method path params attempt last_error w
  = (match body r with
     | Some j => Ok (Some j, last_error)
     | None => Raise JSONDecodeError
     end,
     {| n_requests := S (n_requests w); n_draws := n_draws w;
        trace := trace w ++ [EvRequest method path params] |}).
Proof.
  intros Ht Hs. unfold attempt_body.
  erewrite bind_ok by (unfold client_request; rewrite Ht; reflexivity).
  cbv beta iota. rewrite Hs. change (200 =? 200) with true. cbv iota.
  destruct (body r); reflexivity.
Qed.

Lemma obj_get_in (fields : list (string * json)) (k : string) (v : json) :
  List.NoDup (map fst fields) -> In (k, v) fields -> obj_get fields k = Some v.
Proof.
  induction fields as [|[k' v'] fields IH]; intros Hnd Hin; [contradiction|].
  simpl in Hnd. inversion Hnd as [|x l Hx Hl]; subst.
  simpl. destruct Hin as [Heq|Hin].
  - injection Heq as -> ->. rewrite String.eqb_refl. reflexivity.
  - destruct (String.eqb_spec k' k) as [->|Hne].
    + exfalso. apply Hx. apply in_map_iff. exists (k, v). auto.
    + apply IH; assumption.
Qed.

Lemma obj_get_not_in (fields : list (string * json)) (k : string) :
  ~ In k (map fst fields) -> obj_get fields k = None.
Proof.
  induction fields as [|[k' v'] fields IH]; intros Hn; [reflexivity|].
  simpl in *. destruct (String.eqb_spec k' k) as [->|Hne]; [tauto|].
  apply IH. tauto.
Qed.

Lemma attempt_terminal attempt last_error w r :
  transport E (n_requests w) = Responded r ->
  status_code r <> 200 -> status_code r <> 429 ->
  exists message suggestion,
    attempt_body self E method path params attempt last_error w
    = (Raise (APIError message (Some (status_code r)) suggestion None),
       {| n_requests := S (n_requests w); n_draws := n_draws w;
          trace := trace w ++ [EvRequest method path params] |}) /\
    (status_code r = 404 ->
     message = JStr "Entity not found" /\
     suggestion = Some "Check the ID format. OpenAlex IDs start with W (works), A (authors), I (institutions), S (sources), etc.") /\
    (status_code r = 400 ->
     suggestion = Some "Check the query parameters and filter syntax" /\
     (forall fields m, body r = Some (JObj fields) ->
        List.NoDup (map fst fields) -> In ("message", m) fields -> message = m) /\
     (forall fields, body r = Some (JObj fields) ->
        ~ In "message" (map fst fields) -> message = JStr "Bad request") /\
     ((forall fields, body r <> Some (JObj fields)) -> message = JStr "Bad request")) /\
    (status_code r <> 404 -> status_code r <> 400 ->
     message = JStr ("API request failed: " +:+ str_of_int (status_code r)) /\
     suggestion = None).
Proof.
  intros Ht H200 H429. unfold attempt_body.
  erewrite bind_ok by (unfold client_request; rewrite Ht; reflexivity).
  cbv beta iota.
  destruct (Z.eqb_spec (status_code r) 200); [contradiction|].
  destruct (Z.eqb_spec (status_code r) 429); [contradiction|].
  destruct (Z.eqb_spec (status_code r) 404) as [H404|H404].
  { eexists. eexists. rewrite H404 at 1. split; [reflexivity|].
    split; [intros _; split; reflexivity|]. split; intros; lia. }
  destruct (Z.eqb_spec (status_code r) 400) as [H400|H400].
  { eexists. eexists. rewrite H400 at 1. split; [reflexivity|].
    split; [intros; lia|]. split; [|intros; lia].
    intros _. split; [reflexivity|]. unfold bad_request_message.
    split; [|split].
    - intros fields m Hb Hnd Hin. rewrite Hb, (obj_get_in _ _ _ Hnd Hin). reflexivity.
    - intros fields Hb Hn. rewrite Hb, (obj_get_not_in _ _ Hn). reflexivity.
    - intros Hno. destruct (body r) as [[| | | | |fields]|]; try reflexivity.
      exfalso. apply (Hno fields). reflexivity. }
  eexists. eexists. split; [reflexivity|].
  split; [intros; lia|]. split; [intros; lia|]. intros _ _. split; reflexivity.
Qed.

Lemma attempt_bad_header attempt last_error w r :
  transport E (n_requests w) = Responded r ->
  status_code r = 429 ->
  truthy_str (retry_after_header r) = true ->
  py_int (default "" (retry_after_header r)) = None ->
  attempt_body self E method path params attempt last_error w
  = (Raise ValueError,
     {| n_requests := S (n_requests w); n_draws := n_draws w;
        trace := trace w ++ [EvRequest method path params] |}).
Proof.
  intros Ht Hs Hh Hp. unfold attempt_body.
  erewrite bind_ok by (unfold client_request; rewrite Ht; reflexivity).
  cbv beta iota. rewrite Hs. change (429 =? 200) with false.
  change (429 =? 429) with true. cbv iota zeta. rewrite Hh.
  apply bind_raise. unfold int_of_str. rewrite Hp. reflexivity.
Qed.

End LastAttempt.

(** Property X1. Whatever the server and the transport do, one call of
    [_request] performs at most [max_retries + 1] exchanges, all with the
    method, path and parameters it was given, sleeps at most [max_retries]
    times and draws at most one random number per exchange. *)
Theorem request_effort_is_bounded (self : OpenAlexAPI) (E : env)
    (method path : string) (params : gmap string pyval) (w : world) :
  exists evs,
    trace (snd (_request self E method path params w)) = (trace w ++ evs)%list /\
    Forall (fun ev => is_request ev = true -> ev = EvRequest method path params) evs /\
    n_requests (snd (_request self E method path params w))
      = (n_requests w + count_events is_request evs)%nat /\
    (count_events is_request evs <= Z.to_nat (max_retries self + 1))%nat /\
    (count_events is_sleep evs <= Z.to_nat (max_retries self))%nat /\
    (n_draws (snd (_request self E method path params w))
      <= n_draws w + count_events is_request evs)%nat.
Proof.
  unfold _request, py_range.
  destruct (retry_loop_effect self E method path params
              (Z.to_nat (max_retries self + 1)) 0%nat None w)
    as (evs & Ht & Hf & Hn & Hr & Hd & Hs & _).
  { destruct (Z.to_nat (max_retries self + 1)) eqn:Hk; [left; reflexivity|right; lia]. }
  exists evs. repeat split; try assumption. lia.
Qed.

(** Property X2. With a non-negative [max_retries] the error that follows
    the loop, the only [APIError] of the engine with neither a status code
    nor a suggestion, is never raised: the last attempt always returns or
    raises by itself. *)
Theorem request_failed_error_unreachable (self : OpenAlexAPI) (E : env)
    (method path : string) (params : gmap string pyval) (w : world)
    (message : json) (cause : option string) :
  0 <= max_retries self ->
  fst (_request self E method path params w)
  <> Raise (APIError message None None cause).
Proof.
  intros Hm. unfold _request. rewrite py_range_succ by exact Hm.
  destruct (retry_loop_effect self E method path params
              (S (Z.to_nat (max_retries self))) 0%nat None w)
    as (evs & _ & _ & _ & _ & _ & _ & Hx).
  { right. lia. }
  apply Hx. discriminate.
Qed.

Lemma request_failed_error_unreachable_witness :
  fst (_request default_api (always_429 None 0) "GET" "/works" ∅ world0)
  <> Raise (APIError (JStr "Request failed after 3 retries") None None None).
Proof.
  apply (request_failed_error_unreachable default_api (always_429 None 0)
           "GET" "/works" ∅ world0).
  simpl. lia.
Defined.













Section Notices.
Variables (self : OpenAlexAPI) (E : env) (method path : string)
  (params : gmap string pyval).

Lemma attempt_body_notices attempt last_error w :
  exists evs,
    trace (snd (attempt_body self E method path params attempt last_error w))
      = (trace w ++ evs)%list /\
    Forall (notice_ok self E) evs /\
    (count_events is_notice evs <= 1)%nat /\
    (attempt < max_retries self \/ count_events is_notice evs = 0%nat) /\
    step_shape self attempt
      (fst (attempt_body self E method path params attempt last_error w)).
Proof.
  unfold attempt_body, bind, client_request.
  destruct (transport E (n_requests w)) as [r|e].
  - destruct (status_code r =? 200).
    { destruct (body r); exists [EvRequest method path params]; simpl;
        repeat split; auto; repeat constructor. }
    destruct (status_code r =? 429).
    2:{ destruct (status_code r =? 404); [|destruct (status_code r =? 400)];
        exists [EvRequest method path params]; simpl;
        repeat split; auto; repeat constructor. }
    unfold int_of_str, random_random, jitter, resume_time, _report_status,
      time_sleep, emit, ret, raise.
    split_branches; simpl;
    eexists; (split; [rewrite <- ?app_assoc; simpl; reflexivity|]);
    unfold count_events, step_shape; simpl;
    try match goal with c : clock_error |- _ => destruct c end; simpl;
    (split; [repeat constructor; simpl; auto|]);
    repeat split; auto; try lia;
    try (apply Z.ltb_lt; assumption); try (left; apply Z.ltb_lt; assumption).
  - unfold _report_status, time_sleep, emit, ret, raise.
    split_branches; simpl;
    eexists; (split; [rewrite <- ?app_assoc; simpl; reflexivity|]);
    unfold count_events, step_shape; simpl;
    (split; [repeat constructor; simpl; auto|]);
    repeat split; auto; try lia;
    try (apply Z.ltb_lt; assumption); try (left; apply Z.ltb_lt; assumption).
Qed.

Lemma retry_loop_notices (k : nat) : forall (a : nat) last_error w,
  k = 0%nat \/ Z.of_nat a + Z.of_nat k = max_retries self + 1 ->
  exists evs,
    trace (snd (retry_loop self E method path params
                  (map Z.of_nat (seq a k)) last_error w))
      = (trace w ++ evs)%list /\
    Forall (notice_ok self E) evs /\
    (count_events is_notice evs <= Z.to_nat (max_retries self) - a)%nat.
Proof.
  induction k as [|k IH]; intros a last_error w Hk.
  - exists []. simpl. rewrite app_nil_r. unfold count_events. simpl.
    repeat split; auto; lia.
  - destruct Hk as [Hk|Hk]; [discriminate|].
    change (seq a (S k)) with (a :: seq (S a) k). rewrite map_cons. cbn [retry_loop].
    destruct (attempt_body_notices (Z.of_nat a) last_error w)
      as (evs1 & Ht & Hf & Hc & Hc' & Hshape).
    unfold bind.
    destruct (attempt_body self E method path params (Z.of_nat a) last_error w)
      as [[[[j|] le']|e] w1] eqn:Hstep; simpl in Ht, Hshape.
    + exists evs1. simpl. repeat split; try assumption. lia.
    + destruct (IH (S a) le' w1) as (evs2 & Ht2 & Hf2 & Hc2).
      { destruct k; [left; reflexivity|right; lia]. }
      exists (evs1 ++ evs2)%list.
      rewrite Ht2, Ht, <- app_assoc. split; [reflexivity|].
      split; [apply Forall_app; split; assumption|].
      rewrite count_events_app. lia.
    + exists evs1. simpl. repeat split; try assumption. lia.
Qed.

End Notices.

(** Property X9. A status notice is only ever sent through one channel: to
    the callback when the client has one, and otherwise to standard error,
    and then only when standard error is a terminal. One call of [_request]
    sends at most [max_retries] notices, and none at all when there is no
    callback and standard error is not a terminal. *)
Theorem status_notices_use_one_channel (self : OpenAlexAPI) (E : env)
    (method path : string) (params : gmap string pyval) (w : world) :
  exists evs,
    trace (snd (_request self E method path params w)) = (trace w ++ evs)%list /\
    Forall (notice_ok self E) evs /\
    (count_events is_notice evs <= Z.to_nat (max_retries self))%nat /\
    (status_callback self = false -> stderr_isatty E = false ->
     count_events is_notice evs = 0%nat).
Proof.
  unfold _request, py_range.
  destruct (retry_loop_notices self E method path params
              (Z.to_nat (max_retries self + 1)) 0%nat None w)
    as (evs & Ht & Hf & Hc).
  { destruct (Z.to_nat (max_retries self + 1)) eqn:Hk; [left; reflexivity|right; lia]. }
  exists evs. split; [exact Ht|]. split; [exact Hf|]. split; [lia|].
  intros Hcb Htty. clear Ht Hc. unfold count_events.
  induction Hf as [|ev evs Hev _ IH]; [reflexivity|].
  simpl. destruct ev; simpl in *; try exact IH.
  - congruence.
  - destruct Hev. congruence.
Qed.

(** ** Errors as JSON *)

(** Property X10. The dictionary [to_dict] builds for an error always has
    the message under [error] and the documentation URL under
    [documentation]; it has [status_code] only for a status code other than
    [None] and 0, and [suggestion] only for a non-empty suggestion; it has
    no other key. For a [RateLimitError] the dictionary is the same whatever
    [retry_after] is: the wait the server asked for is not reported. *)
Theorem error_dict_fields (e : pyexc) (d : list (string * json)) :
  to_dict e = Some d ->
  obj_get d "error" = exc_message e /\
  obj_get d "documentation" = Some (JStr "https://docs.openalex.org/") /\
  obj_get d "status_code"
    = match exc_status_code e with
      | Some sc => if sc =? 0 then None else Some (JNum sc)
      | None => None
      end /\
  obj_get d "suggestion"
    = match exc_suggestion e with
      | Some (String c s) => Some (JStr (String c s))
      | _ => None
      end /\
  (forall k, obj_get d k <> None ->
             In k ["error"; "status_code"; "suggestion"; "documentation"]) /\
  (forall ra, e = RateLimitError ra -> forall ra', to_dict (RateLimitError ra') = Some d).
Proof.
  intros H.
  assert (Hk : forall k, In k ["error"; "status_code"; "suggestion"; "documentation"]
                         \/ (String.eqb "error" k = false /\
                             String.eqb "status_code" k = false /\
                             String.eqb "suggestion" k = false /\
                             String.eqb "documentation" k = false)).
  { intros k.
    destruct (String.eqb_spec "error" k) as [<-|H1]; [left; simpl; auto|].
    destruct (String.eqb_spec "status_code" k) as [<-|H2]; [left; simpl; auto|].
    destruct (String.eqb_spec "suggestion" k) as [<-|H3]; [left; simpl; auto|].
    destruct (String.eqb_spec "documentation" k) as [<-|H4]; [left; simpl; auto 6|].
    right. repeat split; reflexivity. }
  assert (Hkeys : forall d' : list (string * json),
            (forall k v, In (k, v) d' ->
               In k ["error"; "status_code"; "suggestion"; "documentation"]) ->
            forall k, obj_get d' k <> None ->
              In k ["error"; "status_code"; "suggestion"; "documentation"]).
  { intros d' Hd' k Hn. destruct (Hk k) as [Hin|(H1 & H2 & H3 & H4)]; [exact Hin|].
    exfalso. apply Hn. clear Hn. induction d' as [|[k' v] d' IH]; [reflexivity|].
    simpl. destruct (String.eqb_spec k' k) as [->|Hne].
    - specialize (Hd' k v (or_introl eq_refl)). simpl in Hd'.
      destruct Hd' as [<-|[<-|[<-|[<-|[]]]]];
        rewrite String.eqb_refl in *; discriminate.
    - apply IH. intros k0 v0 Hin. apply (Hd' k0 v0). right. exact Hin. }
  assert (Hin : forall d' : list (string * json),
            incl (map fst d') ["error"; "status_code"; "suggestion"; "documentation"] ->
            forall k v, In (k, v) d' ->
              In k ["error"; "status_code"; "suggestion"; "documentation"]).
  { intros d' Hd' k v Hkv. apply Hd'. apply in_map_iff. exists (k, v). auto. }
  destruct e as [m sc sug c|ra| | | |]; try discriminate H.
  - unfold to_dict in H.
    cbn [exc_message exc_status_code exc_suggestion] in H |- *.
    destruct sc as [sc|]; [destruct (sc =? 0)|]; destruct sug as [[|a s]|];
      injection H as <-;
      (split; [reflexivity|]); (split; [reflexivity|]); (split; [reflexivity|]);
      (split; [reflexivity|]);
      (split; [|discriminate]);
      apply Hkeys, Hin; cbn [map fst app]; intros k Hk'; simpl in Hk' |- *; tauto.
  - unfold to_dict in H.
    cbn [exc_message exc_status_code exc_suggestion] in H |- *.
    change (429 =? 0) with false in H. cbv iota in H. injection H as <-.
    (split; [reflexivity|]); (split; [reflexivity|]); (split; [reflexivity|]);
      (split; [reflexivity|]); split.
    + apply Hkeys, Hin; cbn [map fst app]; intros k Hk'; simpl in Hk' |- *; tauto.
    + intros ra0 _ ra'. reflexivity.
Qed.

Lemma error_dict_fields_witness :
  let d := [("error", JStr "Rate limit exceeded"); ("status_code", JNum 429);
            ("suggestion", JStr "Wait a moment or add your email via --email or OPENALEX_EMAIL env var for higher limits");
            ("documentation", JStr "https://docs.openalex.org/")] in
  to_dict (RateLimitError (Some 7)) = Some d /\
  obj_get d "error" = Some (JStr "Rate limit exceeded") /\
  obj_get d "status_code" = Some (JNum 429) /\
  to_dict (RateLimitError None) = Some d.
Proof.
  intros d.
  destruct (error_dict_fields (RateLimitError (Some 7)) d) as (H1 & _ & H3 & _ & _ & H6).
  - reflexivity.
  - split; [reflexivity|]. split; [exact H1|]. split; [exact H3|].
    apply (H6 (Some 7)). reflexivity.
Defined.

(** ** Parameters of the list requests *)

Section ListParams.
Variable self : OpenAlexAPI.

(** Without grouping, the keys other than [filter], [search], the two
    pagination keys and [mailto] are those of the sort and select steps. *)
Lemma build_params_ungrouped_lookup (k : string)
    (filter_str search sort : option string) (page per_page : option Z)
    (sel : option (list string)) (group_by : option string)
    (extra_filters : option Dict.t) :
  truthy_str group_by = false ->
  k <> "page" -> k <> "per_page" -> k <> "mailto" ->
  k <> "filter" -> k <> "search" ->
  _build_params self filter_str search sort page per_page sel group_by
    extra_filters !! k
  = (let params : gmap string pyval :=
       match sort with
       | Some s => if PyStr.truthy s then <["sort" := VStr s]> ∅ else ∅
       | None => ∅
       end in
     match sel with
     | Some (f :: fs) => <["select" := VStr (py_join "," (f :: fs))]> params
     | _ => params
     end) !! k.
Proof.
  intros Hg H1 H2 H3 H4 H5. unfold _build_params. cbv zeta.
  rewrite tail_params_lookup by assumption.
  assert (Hbase : forall base : gmap string pyval,
            base !! k = None ->
            match sel with
            | Some (f :: fs) =>
                <["select" := VStr (py_join "," (f :: fs))]>
                  match sort with
                  | Some s => if PyStr.truthy s then <["sort" := VStr s]> base else base
                  | None => base
                  end
            | _ => match sort with
                   | Some s => if PyStr.truthy s then <["sort" := VStr s]> base else base
                   | None => base
                   end
            end !! k
            = match sel with
              | Some (f :: fs) =>
                  <["select" := VStr (py_join "," (f :: fs))]>
                    match sort with
                    | Some s => if PyStr.truthy s
                                then <["sort" := VStr s]> (∅ : gmap string pyval) else ∅
                    | None => ∅
                    end
              | _ => match sort with
                     | Some s => if PyStr.truthy s
                                 then <["sort" := VStr s]> (∅ : gmap string pyval) else ∅
                     | None => ∅
                     end
              end !! k).
  { intros base Hb.
    destruct sel as [[|f fs]|]; destruct sort as [s|]; try destruct (PyStr.truthy s);
      repeat (match goal with
              | |- context [<[?j := _]> _ !! k] =>
                  destruct (decide (k = j)) as [->|];
                  [rewrite !lookup_insert_eq; reflexivity
                  |rewrite !(lookup_insert_ne _ j) by congruence]
              end);
      rewrite ?lookup_empty; assumption. }
  destruct group_by as [[|c g]|]; try discriminate Hg; apply Hbase;
    destruct search as [s|]; try destruct (PyStr.truthy s);
    rewrite ?lookup_insert_ne by congruence;
    destruct (build_filters filter_str extra_filters);
    rewrite ?lookup_insert_ne by congruence; apply lookup_empty.
Qed.

(** Before the pagination and contact steps the mapping has none of
    their keys. *)
Lemma build_params_tail (k : string)
    (filter_str search sort : option string) (page per_page : option Z)
    (sel : option (list string)) (group_by : option string)
    (extra_filters : option Dict.t) :
  k = "page" \/ k = "per_page" \/ k = "mailto" ->
  _build_params self filter_str search sort page per_page sel group_by
    extra_filters !! k
  = (let params : gmap string pyval := ∅ in
     let params :=
       match page with
       | Some n => if n =? 0 then params else <["page" := VInt n]> params
       | None => params
       end in
     let params :=
       match per_page with
       | Some n => if n =? 0 then params else <["per_page" := VInt n]> params
       | None => params
       end in
     match email self with
     | Some e => if PyStr.truthy e then <["mailto" := VStr e]> params else params
     | None => params
     end) !! k.
Proof.
  intros Hk. unfold _build_params. cbv zeta.
  match goal with
  | |- match email self with
       | Some e => if PyStr.truthy e then <["mailto" := VStr e]> ?P else ?P
       | None => ?P
       end !! k = _ =>
      match P with
      | match per_page with
        | Some n => if n =? 0 then ?Q else <["per_page" := VInt n]> ?Q
        | None => ?Q
        end =>
          match Q with
          | match page with
            | Some n => if n =? 0 then ?B else <["page" := VInt n]> ?B
            | None => ?B
            end => assert (Hb : B !! k = None)
          end
      end
  end.
  { destruct group_by as [[|c g]|]; try destruct (sort_in_grouped sort);
      destruct sel as [[|f fs]|]; destruct sort as [s|]; try destruct (PyStr.truthy s);
      destruct search as [q|]; try destruct (PyStr.truthy q);
      destruct (build_filters filter_str extra_filters);
      rewrite ?lookup_insert_ne by (destruct Hk as [-> | [-> | ->]]; congruence);
      apply lookup_empty. }
  destruct (email self) as [e|]; [destruct (PyStr.truthy e)|];
    destruct per_page as [pp|]; try destruct (pp =? 0);
    destruct page as [pg|]; try destruct (pg =? 0);
    repeat (match goal with
            | |- context [<[?j := _]> _ !! k] =>
                destruct (decide (k = j)) as [->|];
                [rewrite !lookup_insert_eq; reflexivity
                |rewrite !(lookup_insert_ne _ j) by congruence]
            end);
    rewrite ?lookup_empty; assumption.
Qed.

End ListParams.

Lemma str_or_truthy (a : option string) (b : string) :
  PyStr.truthy b = true -> PyStr.truthy (str_or a b) = true.
Proof.
  intros Hb. unfold str_or. destruct a as [[|c s]|]; simpl; auto.
Qed.

Lemma list_or_cons {A} (a : option (list A)) (b : list A) :
  b <> [] -> exists f fs, list_or a b = f :: fs.
Proof.
  intros Hb. unfold list_or. destruct a as [[|x l]|]; eauto;
    destruct b as [|f fs]; try contradiction; eauto.
Qed.

Lemma build_params_sort_select (self : OpenAlexAPI)
    (filter_str search : option string) (chosen : string) (page per_page : option Z)
    (fields : list string) (group_by : option string)
    (extra_filters : option Dict.t) :
  PyStr.truthy chosen = true -> fields <> [] ->
  let params := _build_params self filter_str search (Some chosen) page per_page
                  (Some fields) group_by extra_filters in
  params !! "sort" = Some (VStr (sent_sort group_by chosen)) /\
  params !! "select"
  = (if truthy_str group_by then None else Some (VStr (py_join "," fields))).
Proof.
  intros Hc Hf params. subst params. unfold sent_sort.
  destruct (truthy_str group_by) eqn:Hg.
  - destruct group_by as [[|c g]|]; try discriminate.
    rewrite !build_params_grouped_lookup by congruence.
    rewrite lookup_insert_eq, lookup_insert_ne, lookup_empty by congruence.
    destruct (sort_in_grouped (Some chosen)); split; reflexivity.
  - rewrite !(build_params_ungrouped_lookup self _ _ _ _ _ _ _ _ _ Hg) by congruence.
    cbv zeta. rewrite Hc. destruct fields as [|f fs]; [contradiction|].
    rewrite lookup_insert_ne by congruence.
    rewrite !lookup_insert_eq. split; reflexivity.
Qed.

(** Property X11. Every list request is sorted. The sort an endpoint chooses
    is the caller's, or its default when the caller gives none or an empty
    one: [cited_by_count:desc] for the searches, [publication_date:desc] for
    the works of an author, institution or source. Without grouping that
    sort is sent, with the caller's fields or the default fields as
    [select]; with grouping the sort sent is the chosen one only when it is
    one of the six group sorts and [count:desc] otherwise, so the defaults
    are never sent with [group_by], and there is no [select]. *)
Theorem list_requests_are_sorted (self : OpenAlexAPI)
    (default_fields : list string) (query : option string) (q key id : string)
    (filter_str from_date to_date : option string)
    (min_citations : option Z) (open_access : option bool)
    (work_type sort : option string) (page per_page : Z)
    (sel : option (list string)) (group_by : option string) :
  default_fields <> [] ->
  let select_of (fields : list string) :=
    if truthy_str group_by then None
    else Some (VStr (py_join "," (list_or sel fields))) in
  let works := search_works_params self query filter_str from_date to_date
                 min_citations open_access work_type sort page per_page sel group_by in
  let others := search_params self default_fields q filter_str sort page per_page
                  sel group_by in
  let of_entity := entity_works_params self key id filter_str from_date to_date
                     sort page per_page sel group_by in
  works !! "sort"
    = Some (VStr (sent_sort group_by (str_or sort "cited_by_count:desc"))) /\
  others !! "sort"
    = Some (VStr (sent_sort group_by (str_or sort "cited_by_count:desc"))) /\
  of_entity !! "sort"
    = Some (VStr (sent_sort group_by (str_or sort "publication_date:desc"))) /\
  works !! "select" = select_of DEFAULT_WORK_FIELDS /\
  others !! "select" = select_of default_fields /\
  of_entity !! "select" = select_of DEFAULT_WORK_FIELDS /\
  sent_sort group_by (str_or sort "cited_by_count:desc") <> "" /\
  sent_sort group_by (str_or sort "publication_date:desc") <> "" /\
  (truthy_str group_by = true -> truthy_str sort = false ->
   works !! "sort" = Some (VStr "count:desc") /\
   others !! "sort" = Some (VStr "count:desc") /\
   of_entity !! "sort" = Some (VStr "count:desc")).
Proof.
  intros Hd select_of works others of_entity.
  assert (Hw : DEFAULT_WORK_FIELDS <> []) by discriminate.
  destruct (list_or_cons sel DEFAULT_WORK_FIELDS Hw) as (f1 & fs1 & Hl1).
  destruct (list_or_cons sel default_fields Hd) as (f2 & fs2 & Hl2).
  assert (Hne1 : list_or sel DEFAULT_WORK_FIELDS <> []) by (rewrite Hl1; discriminate).
  assert (Hne2 : list_or sel default_fields <> []) by (rewrite Hl2; discriminate).
  assert (Hc : PyStr.truthy (str_or sort "cited_by_count:desc") = true)
    by (apply str_or_truthy; reflexivity).
  assert (Hp : PyStr.truthy (str_or sort "publication_date:desc") = true)
    by (apply str_or_truthy; reflexivity).
  destruct (build_params_sort_select self filter_str query _ (Some page) (Some per_page)
              _ group_by
              (Some (search_works_filters from_date to_date min_citations
                       open_access work_type)) Hc Hne1) as [Hs1 Hsel1].
  destruct (build_params_sort_select self filter_str (Some q) _ (Some page)
              (Some per_page) _ group_by None Hc Hne2) as [Hs2 Hsel2].
  destruct (build_params_sort_select self filter_str None _ (Some page) (Some per_page)
              _ group_by
              (Some (entity_works_filters key id from_date to_date)) Hp Hne1)
    as [Hs3 Hsel3].
  assert (Hnonempty : forall chosen, PyStr.truthy chosen = true ->
                                     sent_sort group_by chosen <> "").
  { intros chosen Ht. unfold sent_sort.
    destruct (truthy_str group_by); [destruct (sort_in_grouped (Some chosen))|];
      try discriminate; intros ->; discriminate. }
  split; [exact Hs1|]. split; [exact Hs2|]. split; [exact Hs3|].
  split; [exact Hsel1|]. split; [exact Hsel2|]. split; [exact Hsel3|].
  split; [apply Hnonempty, Hc|]. split; [apply Hnonempty, Hp|].
  intros Hg Hsort. subst works others of_entity.
  unfold search_works_params, search_params, entity_works_params. cbv zeta.
  rewrite Hs1, Hs2, Hs3. unfold sent_sort. rewrite Hg.
  destruct sort as [[|c s]|]; try discriminate Hsort; repeat split; reflexivity.
Qed.

Lemma list_requests_are_sorted_witness :
  search_params default_api DEFAULT_AUTHOR_FIELDS "turing" None None 1 25 None
    (Some "last_known_institutions.country_code") !! "sort"
  = Some (VStr "count:desc").
Proof.
  destruct (list_requests_are_sorted default_api DEFAULT_AUTHOR_FIELDS None "turing"
              "authorships.author.id" "A1" None None None None None None None 1 25 None
              (Some "last_known_institutions.country_code"))
    as (_ & _ & _ & _ & _ & _ & _ & _ & H).
  - discriminate.
  - apply H; reflexivity.
Defined.

(** Property X12. In the parameters of a list request, [page] and [per_page]
    are present exactly when the argument is an integer other than 0, and
    carry that integer. [mailto] is present exactly when the client has a
    non-empty contact address, both in the parameters of a list request and
    in those of a [get_*] request, which never carry pagination. *)
Theorem pagination_and_contact_parameters (self : OpenAlexAPI)
    (filter_str search sort : option string) (page per_page : option Z)
    (sel : option (list string)) (group_by : option string)
    (extra_filters : option Dict.t) (fields : list string) :
  let params := _build_params self filter_str search sort page per_page sel
                  group_by extra_filters in
  let contact := match email self with
                 | Some (String c e) => Some (VStr (String c e))
                 | _ => None
                 end in
  params !! "page"
    = match page with
      | Some n => if n =? 0 then None else Some (VInt n)
      | None => None
      end /\
  params !! "per_page"
    = match per_page with
      | Some n => if n =? 0 then None else Some (VInt n)
      | None => None
      end /\
  params !! "mailto" = contact /\
  get_params self fields !! "mailto" = contact /\
  get_params self fields !! "page" = None /\
  get_params self fields !! "per_page" = None.
Proof.
  intros params contact. subst params contact.
  rewrite !build_params_tail by auto. unfold get_params. cbv zeta.
  destruct (email self) as [[|c e]|]; simpl PyStr.truthy; cbv iota;
    destruct page as [pg|]; try destruct (pg =? 0);
    destruct per_page as [pp|]; try destruct (pp =? 0);
    repeat split;
    repeat (first [ rewrite lookup_insert_eq
                  | rewrite lookup_insert_ne by congruence
                  | rewrite lookup_empty ]);
    reflexivity.
Qed.

(** ** The entity endpoints *)

(** Property X13.  For each of [get_work], [get_author], [get_institution]
    and [get_source], an identifier that starts with the letter of the
    entity kind and contains no resource-URL prefix, and its full resource
    URL, give the same call of [_request]: a GET of the endpoint path
    followed by the bare identifier.  Its parameters are [select], the
    comma-joined fields of the caller, or the default fields of the entity
    kind when the caller gives none or an empty list, and [mailto] when the
    client has a non-empty contact address, and nothing else. *)
Theorem entity_getters_accept_id_or_url (letter prefix : string)
    (defaults : list string)
    (get : OpenAlexAPI -> env -> string -> option (list string) -> M json)
    (self : OpenAlexAPI) (E : env) (id : string) (sel : option (list string)) :
  In (letter, prefix, defaults, get) entity_getters ->
  PyStr.startswith id letter = true ->
  PyStr.contains id OPENALEX_URL = false ->
  let fields := match sel with
                | Some (f :: fs) => f :: fs
                | _ => defaults
                end in
  let select : gmap string pyval := <["select" := VStr (py_join "," fields)]> ∅ in
  let params := match email self with
                | Some (String c e) => <["mailto" := VStr (String c e)]> select
                | _ => select
                end in
  get self E id sel = _request self E "GET" (prefix +:+ id) params /\
  get self E (OPENALEX_URL +:+ id) sel = _request self E "GET" (prefix +:+ id) params.
Proof.
  intros Hin Hs Hc fields select params. subst fields select params.
  simpl in Hin.
  destruct Hin as [Hin|[Hin|[Hin|[Hin|[]]]]]; injection Hin as <- <- <- <-.
  - destruct (normalize_native "W" _normalize_work_id id) as [H1 H2];
      [simpl; auto | exact Hs | exact Hc |].
    unfold get_work. rewrite H1, H2. unfold get_params, list_or.
    destruct sel as [[|f fs]|]; destruct (email self) as [[|c e]|];
      split; reflexivity.
  - destruct (normalize_native "A" _normalize_author_id id) as [H1 H2];
      [simpl; auto | exact Hs | exact Hc |].
    unfold get_author. rewrite H1, H2. unfold get_params, list_or.
    destruct sel as [[|f fs]|]; destruct (email self) as [[|c e]|];
      split; reflexivity.
  - destruct (normalize_native "I" _normalize_institution_id id) as [H1 H2];
      [simpl; auto | exact Hs | exact Hc |].
    unfold get_institution. rewrite H1, H2. unfold get_params, list_or.
    destruct sel as [[|f fs]|]; destruct (email self) as [[|c e]|];
      split; reflexivity.
  - destruct (normalize_native "S" _normalize_source_id id) as [H1 H2];
      [simpl; auto 6 | exact Hs | exact Hc |].
    unfold get_source. rewrite H1, H2. unfold get_params, list_or.
    destruct sel as [[|f fs]|]; destruct (email self) as [[|c e]|];
      split; reflexivity.
Qed.

Lemma entity_getters_accept_id_or_url_witness :
  get_author default_api (always_429 None 0) "https://openalex.org/A5023888391" None
  = _request default_api (always_429 None 0) "GET" "/authors/A5023888391"
      (<["select" := VStr "id,orcid,display_name,works_count,cited_by_count,summary_stats,affiliations,last_known_institutions,topics"]> ∅).
Proof.
  apply (entity_getters_accept_id_or_url "A" "/authors/"
           [ "id"; "orcid"; "display_name"; "works_count"; "cited_by_count";
             "summary_stats"; "affiliations"; "last_known_institutions"; "topics" ]
           get_author default_api (always_429 None 0) "A5023888391" None).
  - simpl. auto.
  - reflexivity.
  - reflexivity.
Defined.

Section Endpoints.
Variables (self : OpenAlexAPI) (E : env).

Lemma request_first_200 method path params w r j :
  0 <= max_retries self ->
  transport E (n_requests w) = Responded r ->
  status_code r = 200 -> body r = Some j ->
  _request self E method path params w = (Ok j, after_request w method path params).
Proof.
  intros Hm Ht Hs Hb. unfold _request. rewrite py_range_succ by exact Hm.
  change (seq 0 (S (Z.to_nat (max_retries self))))
    with (0%nat :: seq 1 (Z.to_nat (max_retries self))).
  rewrite map_cons. cbn [retry_loop].
  pose proof (attempt_200 self E method path params (Z.of_nat 0) None w r Ht Hs) as Ha.
  rewrite Hb in Ha. rewrite (bind_ok _ _ _ _ _ Ha). reflexivity.
Qed.

Lemma request_first_404 method path params w r :
  0 <= max_retries self ->
  transport E (n_requests w) = Responded r ->
  status_code r = 404 ->
  _request self E method path params w
  = (Raise (APIError (JStr "Entity not found") (Some 404)
              (Some NOT_FOUND_SUGGESTION) None),
     after_request w method path params).
Proof.
  intros Hm Ht Hs. unfold _request. rewrite py_range_succ by exact Hm.
  change (seq 0 (S (Z.to_nat (max_retries self))))
    with (0%nat :: seq 1 (Z.to_nat (max_retries self))).
  rewrite map_cons. cbn [retry_loop].
  destruct (attempt_terminal self E method path params (Z.of_nat 0) None w r Ht
              ltac:(lia) ltac:(lia)) as (m & sug & Ha & H404 & _).
  destruct (H404 Hs) as [-> ->]. rewrite Hs in Ha.
  rewrite (bind_raise _ _ _ _ _ Ha). reflexivity.
Qed.

Lemma resolve_ok (c : M json) (k : string -> EM json) w doc w1 :
  c w = (Ok doc, w1) ->
  ebind (ebind (lift c) entity_id) k w = ebind (entity_id doc) k w1.
Proof. intros H. unfold ebind, lift. rewrite H. reflexivity. Qed.

Lemma resolve_raise (c : M json) (k : string -> EM json) w e w1 :
  c w = (Raise e, w1) ->
  ebind (ebind (lift c) entity_id) k w = (Raises (Engine e), w1).
Proof. intros H. unfold ebind, lift. rewrite H. reflexivity. Qed.

Lemma citing_params_lookup clause id page per_page sel :
  PyStr.truthy clause = true ->
  citing_params self clause id page per_page sel !! "filter"
    = Some (VStr (clause +:+ id)) /\
  citing_params self clause id page per_page sel !! "sort"
    = Some (VStr "cited_by_count:desc") /\
  citing_params self clause id page per_page sel !! "select"
    = Some (VStr (py_join "," (list_or sel DEFAULT_WORK_FIELDS))) /\
  citing_params self clause id page per_page sel !! "group_by" = None.
Proof.
  intros Hc. unfold citing_params.
  rewrite build_params_filter_lookup.
  rewrite !(build_params_ungrouped_lookup self _ _ _ _ _ _ _ None None eq_refl)
    by congruence.
  cbv zeta. simpl PyStr.truthy. cbv iota.
  destruct (list_or_cons sel DEFAULT_WORK_FIELDS ltac:(discriminate)) as (f & fs & ->).
  split; [|split; [|split]].
  - unfold build_filters. cbv zeta.
    destruct clause as [|c cl]; [discriminate|]. reflexivity.
  - rewrite lookup_insert_ne by congruence. apply lookup_insert_eq.
  - apply lookup_insert_eq.
  - rewrite !lookup_insert_ne by congruence. apply lookup_empty.
Qed.

End Endpoints.

(** Property X14. For a work identifier that starts with [W] and contains no
    resource-URL prefix, given bare or as its resource URL, [get_citations]
    and [get_references] are exactly one call of [_request] on [/works],
    with the filter [cites:<id>], respectively [cited_by:<id>], sorted by
    [cited_by_count:desc]; no lookup of the work precedes it. *)
Theorem citations_of_native_id_need_no_lookup (self : OpenAlexAPI) (E : env)
    (id : string) (page per_page : Z) (sel : option (list string)) :
  PyStr.startswith id "W" = true ->
  PyStr.contains id OPENALEX_URL = false ->
  let cites := citing_params self "cites:" id page per_page sel in
  let cited_by := citing_params self "cited_by:" id page per_page sel in
  get_citations self E id page per_page sel
    = lift (_request self E "GET" "/works" cites) /\
  get_citations self E (OPENALEX_URL +:+ id) page per_page sel
    = lift (_request self E "GET" "/works" cites) /\
  get_references self E id page per_page sel
    = lift (_request self E "GET" "/works" cited_by) /\
  get_references self E (OPENALEX_URL +:+ id) page per_page sel
    = lift (_request self E "GET" "/works" cited_by) /\
  cites !! "filter" = Some (VStr ("cites:" +:+ id)) /\
  cited_by !! "filter" = Some (VStr ("cited_by:" +:+ id)) /\
  cites !! "sort" = Some (VStr "cited_by_count:desc") /\
  cited_by !! "sort" = Some (VStr "cited_by_count:desc").
Proof.
  intros Hs Hc cites cited_by.
  destruct (normalize_native "W" _normalize_work_id id) as [H1 H2];
    [simpl; auto | exact Hs | exact Hc |].
  unfold get_citations, get_references. rewrite H1, H2, Hs.
  destruct (citing_params_lookup self "cites:" id page per_page sel eq_refl)
    as (F1 & S1 & _).
  destruct (citing_params_lookup self "cited_by:" id page per_page sel eq_refl)
    as (F2 & S2 & _).
  repeat split; try reflexivity; assumption.
Qed.

Lemma citations_of_native_id_need_no_lookup_witness :
  get_citations default_api (always_429 None 0) "https://openalex.org/W2741809807" 1 25 None
  = lift (_request default_api (always_429 None 0) "GET" "/works"
            (citing_params default_api "cites:" "W2741809807" 1 25 None)).
Proof.
  destruct (citations_of_native_id_need_no_lookup default_api (always_429 None 0)
              "W2741809807" 1 25 None) as (_ & H & _).
  - reflexivity.
  - reflexivity.
  - exact H.
Defined.

(** Property X15. When the normalized work identifier does not start with
    [W] (a DOI, a PMID), [get_citations] and [get_references] first request
    [/works/<id>] with [select=id], where the identifier has been normalized
    twice. If that exchange is answered 404, the not-found error leaves the
    method after this one exchange and no query is sent. If it is answered
    200 with a JSON object, the query is sent with the object's [id]
    stripped of the resource-URL prefix; an object without [id] raises
    [KeyError] and an [id] that is not a string raises [AttributeError],
    neither of which is an [APIError]. *)
Theorem citations_resolve_other_ids_first (self : OpenAlexAPI) (E : env)
    (work_id : string) (page per_page : Z) (sel : option (list string))
    (w : world) (r : response) :
  0 <= max_retries self ->
  PyStr.startswith (_normalize_work_id work_id) "W" = false ->
  transport E (n_requests w) = Responded r ->
  let w1 := after_request w "GET"
              ("/works/" +:+ _normalize_work_id (_normalize_work_id work_id))
              (get_params self ["id"]) in
  let query clause id :=
    lift (_request self E "GET" "/works"
            (citing_params self clause id page per_page sel)) in
  (status_code r = 404 ->
   let not_found := Raises (Engine (APIError (JStr "Entity not found") (Some 404)
                                      (Some NOT_FOUND_SUGGESTION) None)) in
   get_citations self E work_id page per_page sel w = (not_found, w1) /\
   get_references self E work_id page per_page sel w = (not_found, w1)) /\
  (status_code r = 200 -> forall fields,
   body r = Some (JObj fields) ->
   match obj_get fields "id" with
   | Some (JStr u) =>
       get_citations self E work_id page per_page sel w
         = query "cites:" (PyStr.replace u OPENALEX_URL "") w1 /\
       get_references self E work_id page per_page sel w
         = query "cited_by:" (PyStr.replace u OPENALEX_URL "") w1
   | Some _ =>
       get_citations self E work_id page per_page sel w = (Raises AttributeError, w1) /\
       get_references self E work_id page per_page sel w = (Raises AttributeError, w1)
   | None =>
       get_citations self E work_id page per_page sel w = (Raises (KeyError "id"), w1) /\
       get_references self E work_id page per_page sel w = (Raises (KeyError "id"), w1)
   end).
Proof.
  intros Hm Hn Ht w1 query. split.
  - intros Hs not_found.
    pose proof (request_first_404 self E "GET"
                  ("/works/" +:+ _normalize_work_id (_normalize_work_id work_id))
                  (get_params self ["id"]) w r Hm Ht Hs) as Hl.
    unfold get_citations, get_references. rewrite Hn. cbv iota zeta. simpl negb. cbv iota.
    split; apply resolve_raise; exact Hl.
  - intros Hs fields Hb.
    pose proof (request_first_200 self E "GET"
                  ("/works/" +:+ _normalize_work_id (_normalize_work_id work_id))
                  (get_params self ["id"]) w r (JObj fields) Hm Ht Hs Hb) as Hl.
    unfold get_citations, get_references. rewrite Hn. simpl negb. cbv iota.
    rewrite !(resolve_ok _ _ w (JObj fields) w1 Hl).
    unfold entity_id.
    destruct (obj_get fields "id") as [[| | |u| |]|]; split; reflexivity.
Qed.

Lemma citations_resolve_other_ids_first_witness :
  let E := scripted 1
             (respond 200 None
                (Some (JObj [("id", JStr "https://openalex.org/W2741809807")])))
             (respond 200 None (Some (JObj []))) 0 in
  get_citations default_api E "10.7717/peerj.4375" 1 25 None world0
  = lift (_request default_api E "GET" "/works"
            (citing_params default_api "cites:" "W2741809807" 1 25 None))
      (after_request world0 "GET" "/works/doi:10.7717/peerj.4375"
         (get_params default_api ["id"])).
Proof.
  intros E.
  destruct (citations_resolve_other_ids_first default_api E "10.7717/peerj.4375"
              1 25 None world0
              {| status_code := 200; retry_after_header := None;
                 body := Some (JObj [("id", JStr "https://openalex.org/W2741809807")]) |})
    as [_ H].
  - simpl. lia.
  - reflexivity.
  - reflexivity.
  - specialize (H eq_refl _ eq_refl). simpl in H. destruct H as [H _]. exact H.
Defined.

Lemma build_params_no_search (self : OpenAlexAPI)
    (filter_str sort : option string) (page per_page : option Z)
    (sel : option (list string)) (group_by : option string)
    (extra_filters : option Dict.t) :
  _build_params self filter_str None sort page per_page sel group_by
    extra_filters !! "search" = None.
Proof.
  unfold _build_params. cbv zeta.
  rewrite tail_params_lookup by congruence.
  destruct group_by as [[|c g]|];
    try destruct (sort_in_grouped sort);
    destruct sort as [[|cs so]|]; simpl PyStr.truthy; cbv iota;
    destruct sel as [[|f fs]|];
    rewrite ?lookup_insert_ne by congruence;
    destruct (build_filters filter_str extra_filters);
    rewrite ?lookup_insert_ne by congruence; apply lookup_empty.
Qed.

(** Property X16. For [get_author_works], [get_institution_works] and
    [get_source_works], an identifier that starts with the letter of the
    entity kind and contains no resource-URL prefix, given bare or as its
    resource URL, makes the method exactly one call of [_request] on
    [/works], without a lookup and without a search term. Its filter is the
    caller's filter string when it is not empty, then the entity clause
    [<key>:<id>], then the lower and the upper publication-date bound when
    they are not empty, joined by commas: the entity clause is always there.
    *)
Theorem entity_works_endpoints_query (letter key prefix : string)
    (normalize : string -> string)
    (works : OpenAlexAPI -> env -> string -> option string -> option string ->
             option string -> option string -> Z -> Z ->
             option (list string) -> option string -> EM json)
    (self : OpenAlexAPI) (E : env) (id : string)
    (filter_str from_date to_date sort : option string) (page per_page : Z)
    (sel : option (list string)) (group_by : option string) :
  In (letter, key, prefix, normalize, works) entity_works_endpoints ->
  PyStr.startswith id letter = true ->
  PyStr.contains id OPENALEX_URL = false ->
  let params := entity_works_params self key id filter_str from_date to_date sort
                  page per_page sel group_by in
  works self E id filter_str from_date to_date sort page per_page sel group_by
    = lift (_request self E "GET" "/works" params) /\
  works self E (OPENALEX_URL +:+ id) filter_str from_date to_date sort page
      per_page sel group_by
    = lift (_request self E "GET" "/works" params) /\
  params !! "filter"
    = Some (VStr (py_join ","
                    (clause_of "" filter_str ++ [key +:+ ":" +:+ id]
                     ++ clause_of "from_publication_date:" from_date
                     ++ clause_of "to_publication_date:" to_date)%list)) /\
  params !! "search" = None.
Proof.
  intros Hin Hs Hc params. subst params.
  assert (Hsearch : forall k, entity_works_params self k id filter_str from_date
                                to_date sort page per_page sel group_by !! "search" = None).
  { intros k. apply build_params_no_search. }
  simpl in Hin.
  destruct Hin as [Hin|[Hin|[Hin|[]]]]; injection Hin as <- <- <- <- <-.
  - destruct (normalize_native "A" _normalize_author_id id) as [H1 H2];
      [simpl; auto | exact Hs | exact Hc |].
    unfold get_author_works. rewrite H1, H2, Hs.
    split; [reflexivity|]. split; [reflexivity|]. split; [|apply Hsearch].
    unfold entity_works_params. rewrite build_params_filter_lookup.
    destruct filter_str as [[|c0 s0]|]; destruct from_date as [[|c1 s1]|];
      destruct to_date as [[|c2 s2]|]; reflexivity.
  - destruct (normalize_native "I" _normalize_institution_id id) as [H1 H2];
      [simpl; auto | exact Hs | exact Hc |].
    unfold get_institution_works. rewrite H1, H2, Hs.
    split; [reflexivity|]. split; [reflexivity|]. split; [|apply Hsearch].
    unfold entity_works_params. rewrite build_params_filter_lookup.
    destruct filter_str as [[|c0 s0]|]; destruct from_date as [[|c1 s1]|];
      destruct to_date as [[|c2 s2]|]; reflexivity.
  - destruct (normalize_native "S" _normalize_source_id id) as [H1 H2];
      [simpl; auto 6 | exact Hs | exact Hc |].
    unfold get_source_works. rewrite H1, H2, Hs.
    split; [reflexivity|]. split; [reflexivity|]. split; [|apply Hsearch].
    unfold entity_works_params. rewrite build_params_filter_lookup.
    destruct filter_str as [[|c0 s0]|]; destruct from_date as [[|c1 s1]|];
      destruct to_date as [[|c2 s2]|]; reflexivity.
Qed.

Lemma entity_works_endpoints_query_witness :
  entity_works_params default_api "authorships.author.id" "A5023888391"
    (Some "is_oa:true") (Some "2020-01-01") None None 1 25 None None !! "filter"
  = Some (VStr "is_oa:true,authorships.author.id:A5023888391,from_publication_date:2020-01-01").
Proof.
  destruct (entity_works_endpoints_query "A" "authorships.author.id" "/authors/"
              _normalize_author_id get_author_works default_api (always_429 None 0)
              "A5023888391" (Some "is_oa:true") (Some "2020-01-01") None None 1 25
              None None) as (_ & _ & H & _).
  - simpl. auto.
  - reflexivity.
  - reflexivity.
  - exact H.
Defined.

(** Property X17. When the normalized identifier of the author, institution
    or source does not start with the letter of the entity kind (an ORCID, a
    ROR, an ISSN), the [get_*_works] method first requests the entity with
    [select=id], under the identifier normalized twice. A 404 answer leaves
    the method as the not-found error after this one exchange. A 200 answer
    with a JSON object makes the works query use the object's [id] stripped
    of the resource-URL prefix in the entity clause; without [id] the method
    raises [KeyError], and [AttributeError] when [id] is not a string. *)
Theorem entity_works_resolve_other_ids_first (letter key prefix : string)
    (normalize : string -> string)
    (works : OpenAlexAPI -> env -> string -> option string -> option string ->
             option string -> option string -> Z -> Z ->
             option (list string) -> option string -> EM json)
    (self : OpenAlexAPI) (E : env) (id : string)
    (filter_str from_date to_date sort : option string) (page per_page : Z)
    (sel : option (list string)) (group_by : option string)
    (w : world) (r : response) :
  In (letter, key, prefix, normalize, works) entity_works_endpoints ->
  0 <= max_retries self ->
  PyStr.startswith (normalize id) letter = false ->
  transport E (n_requests w) = Responded r ->
  let w1 := after_request w "GET" (prefix +:+ normalize (normalize id))
              (get_params self ["id"]) in
  let result := works self E id filter_str from_date to_date sort page per_page
                  sel group_by w in
  (status_code r = 404 ->
   result = (Raises (Engine (APIError (JStr "Entity not found") (Some 404)
                               (Some NOT_FOUND_SUGGESTION) None)), w1)) /\
  (status_code r = 200 -> forall fields,
   body r = Some (JObj fields) ->
   match obj_get fields "id" with
   | Some (JStr u) =>
       result = lift (_request self E "GET" "/works"
                        (entity_works_params self key (PyStr.replace u OPENALEX_URL "")
                           filter_str from_date to_date sort page per_page sel
                           group_by)) w1
   | Some _ => result = (Raises AttributeError, w1)
   | None => result = (Raises (KeyError "id"), w1)
   end).
Proof.
  intros Hin Hm Hn Ht w1 result. subst w1 result. simpl in Hin.
  destruct Hin as [Hin|[Hin|[Hin|[]]]]; injection Hin as <- <- <- <- <-.
  - split.
    + intros Hs.
      pose proof (request_first_404 self E "GET"
                    ("/authors/" +:+ _normalize_author_id (_normalize_author_id id))
                    (get_params self ["id"]) w r Hm Ht Hs) as Hl.
      unfold get_author_works. rewrite Hn. simpl negb. cbv iota.
      apply resolve_raise. exact Hl.
    + intros Hs fields Hb.
      pose proof (request_first_200 self E "GET"
                    ("/authors/" +:+ _normalize_author_id (_normalize_author_id id))
                    (get_params self ["id"]) w r (JObj fields) Hm Ht Hs Hb) as Hl.
      unfold get_author_works. rewrite Hn. simpl negb. cbv iota.
      rewrite (resolve_ok _ _ w (JObj fields) _ Hl).
      unfold entity_id.
      destruct (obj_get fields "id") as [[| | |u| |]|]; reflexivity.
  - split.
    + intros Hs.
      pose proof (request_first_404 self E "GET"
                    ("/institutions/"
                     +:+ _normalize_institution_id (_normalize_institution_id id))
                    (get_params self ["id"]) w r Hm Ht Hs) as Hl.
      unfold get_institution_works. rewrite Hn. simpl negb. cbv iota.
      apply resolve_raise. exact Hl.
    + intros Hs fields Hb.
      pose proof (request_first_200 self E "GET"
                    ("/institutions/"
                     +:+ _normalize_institution_id (_normalize_institution_id id))
                    (get_params self ["id"]) w r (JObj fields) Hm Ht Hs Hb) as Hl.
      unfold get_institution_works. rewrite Hn. simpl negb. cbv iota.
      rewrite (resolve_ok _ _ w (JObj fields) _ Hl).
      unfold entity_id.
      destruct (obj_get fields "id") as [[| | |u| |]|]; reflexivity.
  - split.
    + intros Hs.
      pose proof (request_first_404 self E "GET"
                    ("/sources/" +:+ _normalize_source_id (_normalize_source_id id))
                    (get_params self ["id"]) w r Hm Ht Hs) as Hl.
      unfold get_source_works. rewrite Hn. simpl negb. cbv iota.
      apply resolve_raise. exact Hl.
    + intros Hs fields Hb.
      pose proof (request_first_200 self E "GET"
                    ("/sources/" +:+ _normalize_source_id (_normalize_source_id id))
                    (get_params self ["id"]) w r (JObj fields) Hm Ht Hs Hb) as Hl.
      unfold get_source_works. rewrite Hn. simpl negb. cbv iota.
      rewrite (resolve_ok _ _ w (JObj fields) _ Hl).
      unfold entity_id.
      destruct (obj_get fields "id") as [[| | |u| |]|]; reflexivity.
Qed.

Lemma entity_works_resolve_other_ids_first_witness :
  let E := scripted 1
             (respond 200 None
                (Some (JObj [("id", JStr "https://openalex.org/A5023888391")])))
             (respond 200 None (Some (JObj []))) 0 in
  get_author_works default_api E "0000-0002-1825-0097" None None None None 1 25
    None None world0
  = lift (_request default_api E "GET" "/works"
            (entity_works_params default_api "authorships.author.id" "A5023888391"
               None None None None 1 25 None None))
      (after_request world0 "GET" "/authors/orcid:0000-0002-1825-0097"
         (get_params default_api ["id"])).
Proof.
  intros E.
  destruct (entity_works_resolve_other_ids_first "A" "authorships.author.id"
              "/authors/" _normalize_author_id get_author_works default_api E
              "0000-0002-1825-0097" None None None None 1 25 None None world0
              {| status_code := 200; retry_after_header := None;
                 body := Some (JObj [("id", JStr "https://openalex.org/A5023888391")]) |})
    as [_ H].
  - simpl. auto.
  - simpl. lia.
  - reflexivity.
  - reflexivity.
  - specialize (H eq_refl _ eq_refl). simpl in H. exact H.
Defined.

(** ** The identifier normalizers: other identifier schemes *)

Section Segments.
Import PyStr.

Lemma str_app_nil_r (s : string) : s +:+ "" = s.
Proof.
  induction s as [|a s IH]; [reflexivity|].
  change (String a s +:+ "") with (String a (s +:+ "")). rewrite IH. reflexivity.
Qed.

Lemma str_app_snoc (acc : string) (c : ascii) (s : string) :
  (acc +:+ String c "") +:+ s = acc +:+ String c s.
Proof.
  induction acc as [|a acc IH]; [reflexivity|].
  change ((String a acc +:+ String c "") +:+ s)
    with (String a ((acc +:+ String c "") +:+ s)).
  rewrite IH. reflexivity.
Qed.

Lemma split_last_from_no_sep (sep : ascii) (s : string) : forall acc,
  contains s (String sep "") = false -> split_last_from sep s acc = acc +:+ s.
Proof.
  induction s as [|c s IH]; intros acc H.
  - simpl. rewrite str_app_nil_r. reflexivity.
  - pose proof (contains_tail _ _ _ H) as Ht.
    apply contains_startswith in H. cbn [startswith] in H.
    cbn [split_last_from]. rewrite Ascii.eqb_sym.
    destruct (Ascii.eqb sep c); [discriminate|].
    rewrite IH by exact Ht. apply str_app_snoc.
Qed.

Lemma split_last_segment (sep : ascii) (p s : string) : forall acc,
  contains s (String sep "") = false ->
  split_last_from sep (p +:+ String sep s) acc = s.
Proof.
  induction p as [|c p IH]; intros acc H.
  - change ("" +:+ String sep s) with (String sep s). cbn [split_last_from].
    rewrite Ascii.eqb_refl. apply (split_last_from_no_sep sep s "" H).
  - change (String c p +:+ String sep s) with (String c (p +:+ String sep s)).
    cbn [split_last_from]. destruct (Ascii.eqb c sep); apply IH; exact H.
Qed.

Lemma lower_char_idem (c : ascii) : lower_char (lower_char c) = lower_char c.
Proof. destruct c as [[] [] [] [] [] [] [] []]; reflexivity. Qed.

Lemma lower_idem (s : string) : lower (lower s) = lower s.
Proof.
  induction s as [|c s IH]; [reflexivity|].
  simpl. rewrite lower_char_idem, IH. reflexivity.
Qed.

End Segments.

(** Property X18. A bare DOI [10.<s>] that contains neither [doi:] nor
    [https://doi.org/] is normalized to [doi:10.<s>], the prefixed form
    [doi:10.<s>] is normalized to itself, so normalizing twice changes
    nothing, and the result does not start with [W]. *)
Theorem normalize_work_doi_is_stable (s : string) :
  let doi := "10." +:+ s in
  PyStr.contains doi "doi:" = false ->
  PyStr.contains doi "https://doi.org/" = false ->
  _normalize_work_id doi = "doi:" +:+ doi /\
  _normalize_work_id ("doi:" +:+ doi) = "doi:" +:+ doi /\
  PyStr.startswith (_normalize_work_id doi) "W" = false.
Proof.
  intros doi H1 H2.
  assert (R1 : PyStr.replace doi "doi:" "" = doi)
    by (apply replace_absent; [reflexivity|exact H1]).
  assert (R2 : PyStr.replace doi "https://doi.org/" "" = doi)
    by (apply replace_absent; [reflexivity|exact H2]).
  assert (R3 : PyStr.replace ("doi:" +:+ doi) "doi:" "" = doi)
    by (apply replace_prefix; [reflexivity|exact H1]).
  assert (N1 : _normalize_work_id doi = "doi:" +:+ doi).
  { unfold _normalize_work_id.
    change (PyStr.startswith doi "W") with false.
    change (PyStr.startswith doi "https://openalex.org/") with false.
    change (PyStr.startswith doi "10.") with true.
    cbv iota. simpl orb. cbv iota zeta. rewrite R1, R2. reflexivity. }
  split; [exact N1|]. split.
  - unfold _normalize_work_id.
    change (PyStr.startswith ("doi:" +:+ doi) "W") with false.
    change (PyStr.startswith ("doi:" +:+ doi) "https://openalex.org/") with false.
    change (PyStr.startswith ("doi:" +:+ doi) "10.") with false.
    change (PyStr.startswith ("doi:" +:+ doi) "doi:") with true.
    simpl orb. cbv iota zeta. rewrite R3, R2. reflexivity.
  - rewrite N1. reflexivity.
Qed.

Lemma normalize_work_doi_is_stable_witness :
  _normalize_work_id "10.7717/peerj.4375" = "doi:10.7717/peerj.4375" /\
  _normalize_work_id "doi:10.7717/peerj.4375" = "doi:10.7717/peerj.4375".
Proof.
  destruct (normalize_work_doi_is_stable "7717/peerj.4375") as (H1 & H2 & _).
  - reflexivity.
  - reflexivity.
  - split; [exact H1|exact H2].
Defined.

(** Property X19. A DOI given as a URL [https://doi.org/<s>] is returned
    unchanged by the work normalizer (unless it contains [openalex.org]):
    the DOI branch is entered only by identifiers that start with [10.] or
    [doi:], so the URL does not get the [doi:] form. *)
Theorem normalize_work_keeps_doi_urls (s : string) :
  let url := "https://doi.org/" +:+ s in
  PyStr.contains url "openalex.org" = false ->
  _normalize_work_id url = url /\
  PyStr.startswith (_normalize_work_id url) "doi:" = false.
Proof.
  intros url H.
  assert (N : _normalize_work_id url = url).
  { unfold _normalize_work_id. rewrite H.
    change (PyStr.startswith url "W") with false.
    change (PyStr.startswith url "https://openalex.org/") with false.
    change (PyStr.startswith url "10.") with false.
    change (PyStr.startswith url "doi:") with false.
    change (PyStr.startswith (PyStr.lower url) "pmid:") with false.
    change (PyStr.startswith (PyStr.lower url) "mag:") with false.
    reflexivity. }
  split; [exact N|]. rewrite N. reflexivity.
Qed.

Lemma normalize_work_keeps_doi_urls_witness :
  _normalize_work_id "https://doi.org/10.7717/peerj.4375"
  = "https://doi.org/10.7717/peerj.4375".
Proof.
  apply (normalize_work_keeps_doi_urls "10.7717/peerj.4375"). reflexivity.
Defined.

(** Property X20. The URL branches keep what follows the last slash. An
    institution reference [<p>/<s>] that contains [ror.org], is not in
    native form and has no slash in [<s>] is normalized to [ror:<s>], which
    is the bare prefix [ror:] when the reference ends in a slash. A work
    reference [<p>/<s>] that contains [openalex.org] and enters none of the
    earlier branches is normalized to [<s>]. *)
Theorem normalizers_keep_the_last_path_segment (p s : string) :
  let x := p +:+ "/" +:+ s in
  PyStr.contains s "/" = false ->
  (native_form "I" x = false -> PyStr.contains x "ror.org" = true ->
   _normalize_institution_id x = "ror:" +:+ s) /\
  (native_form "W" x = false ->
   PyStr.startswith x "10." = false -> PyStr.startswith x "doi:" = false ->
   PyStr.startswith (PyStr.lower x) "pmid:" = false ->
   PyStr.startswith (PyStr.lower x) "mag:" = false ->
   PyStr.contains x "openalex.org" = true ->
   _normalize_work_id x = s).
Proof.
  intros x Hs. split.
  - intros Hn Hc. unfold _normalize_institution_id.
    unfold native_form, OPENALEX_URL in Hn. rewrite Hn, Hc. unfold PyStr.split_last, x.
    change (p +:+ "/" +:+ s) with (p +:+ String "/" s).
    rewrite split_last_segment by exact Hs. reflexivity.
  - intros Hn H1 H2 H3 H4 Hc. unfold _normalize_work_id.
    unfold native_form, OPENALEX_URL in Hn. rewrite Hn, H1, H2, H3, H4, Hc.
    simpl orb. cbv iota. unfold PyStr.split_last, x.
    change (p +:+ "/" +:+ s) with (p +:+ String "/" s).
    apply split_last_segment. exact Hs.
Qed.

Lemma normalizers_keep_the_last_path_segment_witness :
  _normalize_institution_id "https://ror.org/03vek6s52" = "ror:03vek6s52" /\
  _normalize_institution_id "https://ror.org/03vek6s52/" = "ror:" /\
  _normalize_work_id "http://openalex.org/works/W2741809807" = "W2741809807".
Proof.
  split; [|split].
  - apply (proj1 (normalizers_keep_the_last_path_segment "https://ror.org" "03vek6s52"
                    eq_refl)); reflexivity.
  - apply (proj1 (normalizers_keep_the_last_path_segment "https://ror.org/03vek6s52" ""
                    eq_refl)); reflexivity.
  - apply (proj2 (normalizers_keep_the_last_path_segment "http://openalex.org/works"
                    "W2741809807" eq_refl)); reflexivity.
Defined.

Lemma normalize_work_lowercases (x : string) :
  PyStr.startswith (PyStr.lower x) "pmid:" = true \/
  PyStr.startswith (PyStr.lower x) "mag:" = true ->
  _normalize_work_id x = PyStr.lower x.
Proof.
  intros H. destruct x as [|a x]; [destruct H; discriminate|].
  assert (Ha : PyStr.lower_char a = "p"%char \/ PyStr.lower_char a = "m"%char).
  { cbn [PyStr.lower PyStr.startswith] in H.
    destruct H as [H|H]; [left|right].
    - destruct (Ascii.eqb_spec "p" (PyStr.lower_char a)); [auto|discriminate].
    - destruct (Ascii.eqb_spec "m" (PyStr.lower_char a)); [auto|discriminate]. }
  unfold _normalize_work_id.
  assert (Hne : forall c : ascii,
            PyStr.lower_char c <> "p"%char -> PyStr.lower_char c <> "m"%char ->
            Ascii.eqb c a = false).
  { intros c H1 H2. apply Ascii.eqb_neq. intros ->. tauto. }
  assert (HW : PyStr.startswith (String a x) "W" = false)
    by (cbn [PyStr.startswith]; rewrite (Hne "W"%char) by (vm_compute; discriminate);
        reflexivity).
  assert (HU : PyStr.startswith (String a x) "https://openalex.org/" = false)
    by (cbn [PyStr.startswith]; rewrite (Hne "h"%char) by (vm_compute; discriminate);
        reflexivity).
  assert (H1 : PyStr.startswith (String a x) "10." = false)
    by (cbn [PyStr.startswith]; rewrite (Hne "1"%char) by (vm_compute; discriminate);
        reflexivity).
  assert (HD : PyStr.startswith (String a x) "doi:" = false)
    by (cbn [PyStr.startswith]; rewrite (Hne "d"%char) by (vm_compute; discriminate);
        reflexivity).
  rewrite HW, HU, H1, HD. simpl orb. cbv iota.
  destruct H as [H|H].
  - rewrite H. reflexivity.
  - rewrite H. destruct (PyStr.startswith (PyStr.lower (String a x)) "pmid:"); reflexivity.
Qed.

(** Property X21. An ASCII work identifier whose lowercase form starts with
    [pmid:] or [mag:] is returned lowercased as a whole, whatever the case
    of its prefix; normalizing the result again changes nothing, and the
    result does not start with [W]. *)
Theorem normalize_work_pmid_mag_case_insensitive (x : string) :
  PyStr.isascii x = true ->
  PyStr.startswith (PyStr.lower x) "pmid:" = true \/
  PyStr.startswith (PyStr.lower x) "mag:" = true ->
  _normalize_work_id x = PyStr.lower x /\
  _normalize_work_id (_normalize_work_id x) = _normalize_work_id x /\
  PyStr.startswith (_normalize_work_id x) "W" = false.
Proof.
  intros _ H. pose proof (normalize_work_lowercases x H) as N.
  split; [exact N|]. rewrite N. split.
  - rewrite <- (lower_idem x) at 2. apply normalize_work_lowercases.
    rewrite lower_idem. exact H.
  - destruct x as [|a x]; [reflexivity|].
    cbn [PyStr.lower PyStr.startswith] in H |- *.
    destruct (Ascii.eqb_spec "W" (PyStr.lower_char a)) as [He|]; [|reflexivity].
    rewrite <- He in H. destruct H; discriminate.
Qed.

Lemma normalize_work_pmid_mag_case_insensitive_witness :
  _normalize_work_id "PMID:29456894" = "pmid:29456894" /\
  _normalize_work_id "Mag:2741809807" = "mag:2741809807".
Proof.
  split.
  - apply (normalize_work_pmid_mag_case_insensitive "PMID:29456894").
    + reflexivity.
    + left. reflexivity.
  - apply (normalize_work_pmid_mag_case_insensitive "Mag:2741809807").
    + reflexivity.
    + right. reflexivity.
Defined.

(** Property X22. Every ASCII string of nine characters with a hyphen at
    index 4 that does not start with [S] is taken for an ISSN and normalized
    to [issn:<x>], whatever its other ASCII characters are. Normalizing the
    result again lowercases it: twice normalized, as in the lookup of
    [get_source_works], the identifier is [issn:] followed by the lowercase
    of [x]. *)
Theorem normalize_source_issn_shape (x : string) :
  PyStr.isascii x = true ->
  PyStr.len x = 9 ->
  PyStr.index x 4 = Some "-"%char ->
  PyStr.startswith x "S" = false ->
  _normalize_source_id x = "issn:" +:+ x /\
  _normalize_source_id (_normalize_source_id x) = "issn:" +:+ PyStr.lower x.
Proof.
  intros _ Hl Hi Hs.
  assert (Hu : PyStr.startswith x "https://openalex.org/" = false).
  { unfold PyStr.len in Hl.
    destruct x as [|a0 [|a1 [|a2 [|a3 [|a4 [|a5 [|a6 [|a7 [|a8 [|a9 x]]]]]]]]]];
      simpl in Hl; try lia.
    cbn [PyStr.startswith].
    repeat match goal with
           | |- context [Ascii.eqb ?a ?b] => destruct (Ascii.eqb a b)
           end; reflexivity. }
  assert (N : _normalize_source_id x = "issn:" +:+ x).
  { unfold _normalize_source_id. rewrite Hs, Hu, Hl, Hi.
    simpl orb. cbv iota. rewrite Ascii.eqb_refl. reflexivity. }
  split; [exact N|]. rewrite N. unfold _normalize_source_id.
  change (PyStr.startswith ("issn:" +:+ x) "S") with false.
  change (PyStr.startswith ("issn:" +:+ x) "https://openalex.org/") with false.
  simpl orb. cbv iota.
  assert (Hlen : (PyStr.len ("issn:" +:+ x) =? 9) = false).
  { apply Z.eqb_neq. unfold PyStr.len in *.
    change ("issn:" +:+ x) with
      (String "i" (String "s" (String "s" (String "n" (String ":" x))))).
    cbn [String.length]. lia. }
  rewrite Hlen. cbv iota. simpl andb. cbv iota.
  change (PyStr.startswith (PyStr.lower ("issn:" +:+ x)) "issn:") with true.
  reflexivity.
Qed.

Lemma normalize_source_issn_shape_witness :
  _normalize_source_id "2167-835X" = "issn:2167-835X" /\
  _normalize_source_id (_normalize_source_id "2167-835X") = "issn:2167-835x".
Proof.
  apply (normalize_source_issn_shape "2167-835X"); reflexivity.
Defined.

(** ** BibTeX output *)

Section Escape.
Import PyStr.

Lemma str_app_assoc (a b c : string) : (a +:+ b) +:+ c = a +:+ (b +:+ c).
Proof.
  induction a as [|x a IH]; [reflexivity|].
  change ((String x a +:+ b) +:+ c) with (String x ((a +:+ b) +:+ c)).
  rewrite IH. reflexivity.
Qed.

(** Replacing a single character acts on each character by itself. *)
Lemma replace_char_app (c : ascii) (new a b : string) :
  replace (a +:+ b) (String c "") new
  = replace a (String c "") new +:+ replace b (String c "") new.
Proof.
  unfold replace. induction a as [|x a IH]; [reflexivity|].
  change (String x a +:+ b) with (String x (a +:+ b)).
  cbn [replace_scan startswith String.length Nat.pred].
  destruct (Ascii.eqb c x).
  - rewrite IH. symmetry. apply str_app_assoc.
  - rewrite IH. reflexivity.
Qed.

Lemma replace_char_other (c x : ascii) (new : string) :
  c <> x -> replace (String x "") (String c "") new = String x "".
Proof.
  intros H. unfold replace. cbn [replace_scan startswith].
  apply Ascii.eqb_neq in H. rewrite H. reflexivity.
Qed.

Lemma fold_replace_app (reps : list (string * string)) : forall a b,
  Forall (fun r => exists c, fst r = String c "") reps ->
  fold_left (fun text (r : string * string) => replace text (fst r) (snd r)) reps (a +:+ b)
  = fold_left (fun text (r : string * string) => replace text (fst r) (snd r)) reps a
    +:+ fold_left (fun text (r : string * string) => replace text (fst r) (snd r)) reps b.
Proof.
  induction reps as [|[old new] reps IH]; intros a b H; [reflexivity|].
  inversion H as [|r rs [c Hc] Hrest]; subst. simpl in Hc. subst old.
  cbn [fold_left fst snd]. rewrite replace_char_app. apply IH. exact Hrest.
Qed.

Lemma fold_replace_empty (reps : list (string * string)) :
  Forall (fun r => exists c, fst r = String c "") reps ->
  fold_left (fun text (r : string * string) => replace text (fst r) (snd r)) reps "" = "".
Proof.
  induction reps as [|[old new] reps IH]; intros H; [reflexivity|].
  inversion H as [|r rs [c Hc] Hrest]; subst. simpl in Hc. subst old.
  cbn [fold_left fst snd]. apply IH. exact Hrest.
Qed.

Lemma latex_replacements_single :
  Forall (fun r : string * string => exists c, fst r = String c "") LATEX_REPLACEMENTS.
Proof. unfold LATEX_REPLACEMENTS. repeat constructor; eexists; reflexivity. Qed.

Lemma escape_latex_fold (text : string) :
  _escape_latex text
  = fold_left (fun text (r : string * string) => replace text (fst r) (snd r))
      LATEX_REPLACEMENTS text.
Proof.
  unfold _escape_latex. destruct text as [|c t]; [|reflexivity].
  simpl negb. cbv iota. symmetry. apply fold_replace_empty, latex_replacements_single.
Qed.

End Escape.

(** Property X23. [_escape_latex] acts on each character by itself: the
    escaped text of a concatenation is the concatenation of the escaped
    texts, and a character outside the table is left as it is. Because the
    braces are replaced after the backslash, the braces of the replacement
    of a backslash are escaped in turn: a backslash becomes
    [\textbackslash\{\}], while a tilde and a circumflex, replaced after the
    braces, keep theirs. *)
Theorem escape_latex_is_characterwise :
  (forall a b, _escape_latex (a +:+ b) = _escape_latex a +:+ _escape_latex b) /\
  (forall c, ~ In c LATEX_SPECIALS -> _escape_latex (String c "") = String c "") /\
  _escape_latex "\" = "\textbackslash\{\}" /\
  _escape_latex "{" = "\{" /\ _escape_latex "}" = "\}" /\
  _escape_latex "~" = "\textasciitilde{}" /\
  _escape_latex "^" = "\textasciicircum{}" /\
  _escape_latex "&" = "\&" /\ _escape_latex "%" = "\%" /\
  _escape_latex "$" = "\$" /\ _escape_latex "#" = "\#" /\
  _escape_latex "_" = "\_".
Proof.
  split; [|split].
  - intros a b. rewrite !escape_latex_fold.
    apply fold_replace_app, latex_replacements_single.
  - intros c Hc. unfold _escape_latex, LATEX_REPLACEMENTS. simpl negb. cbv iota.
    cbn [fold_left fst snd].
    unfold LATEX_SPECIALS in Hc. simpl in Hc.
    rewrite !replace_char_other by (intros <-; tauto). reflexivity.
  - repeat split; vm_compute; reflexivity.
Qed.

Section AbstractProofs.
Import Abstract.
Context {char : Type} (space dot : char).

Lemma place_words_assignments (index : list (list char * list Z)) : forall acc,
  fold_left (fun acc (entry : list char * list Z) =>
               fold_left (fun acc pos =>
                            match acc with
                            | Some words => setitem words pos (fst entry)
                            | None => None
                            end)
                 (snd entry) acc)
    index acc
  = fold_left assign (assignments index) acc.
Proof.
  induction index as [|[word positions] index IH]; intros acc; [reflexivity|].
  cbn [fold_left assignments flat_map fst snd].
  rewrite fold_left_app. fold (assignments index). rewrite <- IH. f_equal.
  clear IH. revert acc. induction positions as [|p ps IHp]; intros acc; [reflexivity|].
  cbn [fold_left map]. rewrite <- IHp. reflexivity.
Qed.

Lemma fold_max_spec (ps : list Z) : forall p,
  p <= fold_left Z.max ps p /\
  (forall q, In q ps -> q <= fold_left Z.max ps p) /\
  (fold_left Z.max ps p = p \/ In (fold_left Z.max ps p) ps).
Proof.
  induction ps as [|q ps IH]; intros p; simpl.
  - split; [lia|]. split; [intros q []|]. left. reflexivity.
  - destruct (IH (Z.max p q)) as (H1 & H2 & H3). split; [lia|]. split.
    + intros r [<-|Hr]; [lia|]. apply H2. exact Hr.
    + destruct H3 as [H3|H3]; [|right; right; exact H3].
      rewrite H3. destruct (Z.max_spec p q) as [[_ ->]|[_ ->]]; auto.
Qed.

Lemma max_position_spec (index : list (list char * list Z)) : forall m0,
  let m := fold_left (fun max_pos (entry : list char * list Z) =>
                        match snd entry with
                        | [] => max_pos
                        | p :: ps => Z.max max_pos (fold_left Z.max ps p)
                        end) index m0 in
  m0 <= m /\
  (forall a, In a (assignments index) -> fst a <= m) /\
  (m = m0 \/ exists a, In a (assignments index) /\ fst a = m).
Proof.
  induction index as [|[word positions] index IH]; intros m0; cbn zeta.
  - simpl. split; [lia|]. split; [intros a []|]. left. reflexivity.
  - cbn [fold_left snd assignments flat_map fst]. fold (assignments index).
    destruct positions as [|p ps].
    + simpl map. simpl app. apply IH.
    + specialize (IH (Z.max m0 (fold_left Z.max ps p))). cbn zeta in IH.
      destruct IH as (H1 & H2 & H3).
      destruct (fold_max_spec ps p) as (F1 & F2 & F3).
      split; [lia|]. split.
      * intros a Ha. apply in_app_or in Ha. destruct Ha as [Ha|Ha]; [|apply H2, Ha].
        apply in_map_iff in Ha. destruct Ha as (q & <- & Hq). simpl.
        destruct Hq as [<-|Hq]; [lia|]. specialize (F2 q Hq). lia.
      * destruct H3 as [H3|(a & Ha & Hm)].
        2:{ right. exists a. split; [apply in_or_app; right; exact Ha|exact Hm]. }
        rewrite H3.
        destruct (Z.max_spec m0 (fold_left Z.max ps p)) as [[_ Hx]|[_ Hx]];
          rewrite Hx; [|left; reflexivity].
        right. exists (fold_left Z.max ps p, word). split; [|reflexivity].
        apply in_or_app. left. apply in_map_iff.
        exists (fold_left Z.max ps p). split; [reflexivity|].
        destruct F3 as [->|F3]; [left; reflexivity|right; exact F3].
Qed.

(** Assignments at positions in range that agree with a list [ws], made
    one after the other. *)
Lemma fold_assign (ws : list (list char)) (L : list (Z * list char)) : forall init,
  (forall a, In a L -> 0 <= fst a < Z.of_nat (length init)) ->
  (forall a, In a L -> ws !! Z.to_nat (fst a) = Some (snd a)) ->
  exists cur, fold_left assign L (Some init) = Some cur /\
    length cur = length init /\
    forall i : nat,
      (In (Z.of_nat i) (map fst L) -> cur !! i = ws !! i) /\
      (~ In (Z.of_nat i) (map fst L) -> cur !! i = init !! i).
Proof.
  induction L as [|[p w] L IH]; intros init Hr Hw.
  - exists init. simpl. split; [reflexivity|]. split; [reflexivity|].
    intros i. split; [intros []|reflexivity].
  - cbn [fold_left assign fst snd]. unfold setitem.
    pose proof (Hr (p, w) (or_introl eq_refl)) as Hp. simpl in Hp.
    pose proof (Hw (p, w) (or_introl eq_refl)) as Hpw. simpl in Hpw.
    destruct (Z.leb_spec 0 p); [|lia].
    destruct (Z.ltb_spec p (Z.of_nat (length init))); [|lia]. simpl andb. cbv iota.
    destruct (IH (<[Z.to_nat p := w]> init)) as (cur & Hf & Hl & Hc).
    { intros a Ha. rewrite length_insert. apply Hr. right. exact Ha. }
    { intros a Ha. apply Hw. right. exact Ha. }
    exists cur. split; [exact Hf|]. rewrite length_insert in Hl. split; [exact Hl|].
    intros i. destruct (Hc i) as [Hin Hout]. simpl map.
    destruct (In_dec Z.eq_dec (Z.of_nat i) (map fst L)) as [Hi|Hi].
    + split; [intros _; apply Hin, Hi|]. intros Hn. exfalso. apply Hn. right. exact Hi.
    + rewrite (Hout Hi). split.
      * intros [He|He]; [|contradiction]. simpl in He. subst p.
        rewrite Nat2Z.id in *. rewrite Hpw. apply list_lookup_insert_eq. lia.
      * intros Hn. apply list_lookup_insert_ne. intros He. apply Hn. left. simpl. lia.
Qed.

Lemma fold_assign_in_range (L : list (Z * list char)) : forall init,
  (forall a, In a L -> 0 <= fst a < Z.of_nat (length init)) ->
  exists cur, fold_left assign L (Some init) = Some cur /\ length cur = length init.
Proof.
  induction L as [|[p w] L IH]; intros init Hr.
  - exists init. auto.
  - cbn [fold_left assign fst snd]. unfold setitem.
    pose proof (Hr (p, w) (or_introl eq_refl)) as Hp. simpl in Hp.
    destruct (Z.leb_spec 0 p); [|lia].
    destruct (Z.ltb_spec p (Z.of_nat (length init))); [|lia]. simpl andb. cbv iota.
    destruct (IH (<[Z.to_nat p := w]> init)) as (cur & Hf & Hl).
    { intros a Ha. rewrite length_insert. apply Hr. right. exact Ha. }
    exists cur. rewrite length_insert in Hl. auto.
Qed.

Lemma in_assignments (index : list (list char * list Z)) (pos : Z) (word : list char) :
  In (pos, word) (assignments index)
  <-> exists positions, In (word, positions) index /\ In pos positions.
Proof.
  unfold assignments. rewrite in_flat_map. split.
  - intros ([w ps] & Hin & Hm). apply in_map_iff in Hm.
    destruct Hm as (q & Hq & Hqin). simpl in Hq. injection Hq as <- <-.
    exists ps. auto.
  - intros (ps & Hin & Hp). exists (word, ps). split; [exact Hin|].
    apply in_map_iff. exists pos. auto.
Qed.

Lemma truncated_length (abstract : list char) :
  (length (if (1000 <? Z.of_nat (length abstract))%Z
           then take 997 abstract ++ [dot; dot; dot]
           else abstract) <= 1000)%nat.
Proof.
  destruct (Z.ltb_spec 1000 (Z.of_nat (length abstract))).
  - rewrite length_app, length_take. cbn [length]. lia.
  - lia.
Qed.

End AbstractProofs.

(** Property X24. When no position of the inverted index is negative,
    [_reconstruct_abstract] raises no [IndexError], and the abstract it
    returns has at most 1000 characters. *)
Theorem abstract_has_at_most_1000_characters {char : Type} (space dot : char)
    (index : list (list char * list Z)) :
  (forall word positions pos,
     In (word, positions) index -> In pos positions -> 0 <= pos) ->
  exists abstract,
    Abstract._reconstruct_abstract space dot (Some index) = Some abstract /\
    (length abstract <= 1000)%nat.
Proof.
  intros Hpos. unfold Abstract._reconstruct_abstract.
  destruct index as [|entry index]; [exists []; split; [reflexivity|simpl; lia]|].
  set (idx := entry :: index) in *. cbv zeta.
  destruct (max_position_spec idx 0) as (Hm0 & Hmax & _). cbv zeta in Hm0, Hmax.
  fold (Abstract.max_position idx) in Hm0, Hmax.
  unfold Abstract.place_words. rewrite place_words_assignments.
  destruct (fold_assign_in_range (Abstract.assignments idx)
              (repeat [] (Z.to_nat (Abstract.max_position idx + 1))))
    as (cur & Hf & _).
  { intros [p w] Ha. rewrite repeat_length. pose proof (Hmax _ Ha) as Hle.
    cbn [fst] in Hle |- *.
    apply in_assignments in Ha. destruct Ha as (ps & Hin & Hp).
    specialize (Hpos w ps p Hin Hp). lia. }
  rewrite Hf. eexists. split; [reflexivity|]. apply truncated_length.
Qed.

(** Property X25. When the positions of the inverted index are those of a
    non-empty list of words, each position of the list being listed for the
    word that stands there and no other position for any word, the abstract
    is these words in the order of the list, joined by single spaces, cut to
    its first 997 characters followed by three full stops when it has more
    than 1000 characters. *)
Theorem abstract_is_the_words_in_order {char : Type} (space dot : char)
    (index : list (list char * list Z)) (ws : list (list char)) :
  ws <> [] ->
  (forall word positions pos,
     In (word, positions) index -> In pos positions ->
     0 <= pos /\ ws !! Z.to_nat pos = Some word) ->
  (forall i, (i < length ws)%nat ->
     exists word positions, In (word, positions) index /\ In (Z.of_nat i) positions) ->
  Abstract._reconstruct_abstract space dot (Some index)
  = Some (let abstract := Abstract.join [space] ws in
          if 1000 <? Z.of_nat (length abstract)
          then take 997 abstract ++ [dot; dot; dot]
          else abstract)%list.
Proof.
  intros Hne Hagree Hcover.
  assert (Hlen : (0 < length ws)%nat) by (destruct ws; [contradiction|simpl; lia]).
  unfold Abstract._reconstruct_abstract.
  destruct index as [|entry index].
  { destruct (Hcover 0%nat Hlen) as (w & ps & [] & _). }
  set (idx := entry :: index) in *. cbv zeta.
  destruct (max_position_spec idx 0) as (Hm0 & Hmax & Hattained).
  cbv zeta in Hm0, Hmax, Hattained.
  fold (Abstract.max_position idx) in Hm0, Hmax, Hattained.
  assert (Hin : forall a, In a (Abstract.assignments idx) ->
                  0 <= fst a < Z.of_nat (length ws) /\
                  ws !! Z.to_nat (fst a) = Some (snd a)).
  { intros [p w] Ha. apply in_assignments in Ha. destruct Ha as (ps & Hi & Hp).
    destruct (Hagree w ps p Hi Hp) as [H0 Hl]. simpl. split; [|exact Hl].
    apply lookup_lt_Some in Hl. lia. }
  assert (Hm : Abstract.max_position idx = Z.of_nat (length ws) - 1).
  { destruct (Hcover (length ws - 1)%nat ltac:(lia)) as (w & ps & Hi & Hp).
    assert (Ha : In (Z.of_nat (length ws - 1), w) (Abstract.assignments idx))
      by (apply in_assignments; exists ps; auto).
    pose proof (Hmax _ Ha) as Hle. simpl in Hle.
    destruct Hattained as [H0|(a & Hain & Hfa)]; [lia|].
    destruct (Hin a Hain) as [Hr _]. lia. }
  unfold Abstract.place_words. rewrite place_words_assignments.
  destruct (fold_assign ws (Abstract.assignments idx)
              (repeat [] (Z.to_nat (Abstract.max_position idx + 1))))
    as (cur & Hf & Hl & Hc).
  { intros a Ha. rewrite repeat_length, Hm. destruct (Hin a Ha). lia. }
  { intros a Ha. apply Hin, Ha. }
  rewrite Hf. rewrite repeat_length, Hm in Hl.
  assert (Hcur : cur = ws).
  { apply list_eq. intros i. destruct (Nat.lt_ge_cases i (length ws)) as [Hi|Hi].
    - apply (Hc i). destruct (Hcover i Hi) as (w & ps & Hin' & Hp).
      apply in_map_iff. exists (Z.of_nat i, w). split; [reflexivity|].
      apply in_assignments. exists ps. auto.
    - rewrite !lookup_ge_None_2 by lia. reflexivity. }
  rewrite Hcur. reflexivity.
Qed.

Lemma abstract_has_at_most_1000_characters_witness :
  exists abstract,
    Abstract._reconstruct_abstract " "%char "."%char
      (Some [ (list_ascii_of_string "Hello", [0]);
              (list_ascii_of_string "world", [1]);
              (list_ascii_of_string "test", [2]) ])
    = Some abstract /\
    (length abstract <= 1000)%nat.
Proof.
  apply (abstract_has_at_most_1000_characters " "%char "."%char).
  intros word positions pos Hin Hp. simpl in Hin.
  destruct Hin as [H|[H|[H|[]]]]; injection H as <- <-;
    destruct Hp as [<-|[]]; lia.
Defined.

Lemma abstract_is_the_words_in_order_witness :
  Abstract._reconstruct_abstract " "%char "."%char
    (Some [ (list_ascii_of_string "the", [0; 2]);
            (list_ascii_of_string "cat", [1]) ])
  = Some (list_ascii_of_string "the cat the").
Proof.
  apply (abstract_is_the_words_in_order " "%char "."%char
           [ (list_ascii_of_string "the", [0; 2]);
             (list_ascii_of_string "cat", [1]) ]
           [ list_ascii_of_string "the"; list_ascii_of_string "cat";
             list_ascii_of_string "the" ]).
  - discriminate.
  - intros word positions pos Hin Hp. simpl in Hin.
    destruct Hin as [H|[H|[]]]; injection H as <- <-; simpl in Hp;
      repeat (destruct Hp as [<-|Hp]; [split; [lia|reflexivity]|]); contradiction.
  - intros i Hi. simpl in Hi.
    destruct i as [|[|[|i]]]; [| | |lia].
    + exists (list_ascii_of_string "the"), [0; 2]. simpl. auto.
    + exists (list_ascii_of_string "cat"), [1]. simpl. auto.
    + exists (list_ascii_of_string "the"), [0; 2]. simpl. auto.
Defined.

(** ** Sanity checks of the model *)

Example normalize_work_W : _normalize_work_id "W2741809807" = "W2741809807".
Proof. reflexivity. Qed.

Example normalize_institution_ror :
  _normalize_institution_id "https://ror.org/03vek6s52" = "ror:03vek6s52".
Proof. reflexivity. Qed.

Example build_params_select :
  _build_params default_api None (Some "test") (Some "cited_by_count:desc")
    None None (Some ["id"; "title"]) None None !! "select" = Some (VStr "id,title").
Proof. vm_compute. reflexivity. Qed.

Example str_of_int_100 : str_of_int 100 = "100" /\ str_of_int (-7) = "-7" /\ str_of_int 0 = "0".
Proof. vm_compute. auto. Qed.

Example float_round_tie_even :
  PyFloat.round (2 ^ 54 - 1) (-54) = PyFloat.Fin (2 ^ 53) (-53).
Proof. vm_compute. reflexivity. Qed.

Example float_of_int_big : PyFloat.of_int (2 ^ 1024) = None.
Proof. vm_compute. reflexivity. Qed.

Example float_to_int_three_quarters : PyFloat.to_int PyFloat.c0_75 = PyFloat.IntOk 0.
Proof. vm_compute. reflexivity. Qed.

Example py_int_samples :
  py_int "120" = Some 120 /\ py_int " 7 " = Some 7 /\ py_int "-5" = Some (-5)
  /\ py_int "1_000" = Some 1000 /\ py_int "" = None /\ py_int "1.5" = None
  /\ py_int "Wed, 21 Oct 2015 07:28:00 GMT" = None.
Proof. vm_compute. repeat split. Qed.

Example round_agrees_with_specfloat :
  forallb round_agrees
    [ (1, 0); (3, -2); (2 ^ 54 - 1, -54); (2 ^ 54 + 1, -54); (2 ^ 54 + 2, -54);
      (2 ^ 54 + 3, -54); (2 ^ 55 - 1, -10); (- (2 ^ 54 - 1), -54);
      (1, -1074); (1, -1075); (3, -1075); (3, -1076); (5, -1076);
      (2 ^ 53 + 1, -1075); (2 ^ 53 - 1, 971); (2 ^ 53, 971); (2 ^ 54 - 1, 970);
      (2 ^ 54 - 3, 970); (1, 1023); (1, 1024); (10 ^ 30, -70);
      (3 * 2 ^ 52 + 2 ^ 52 - 1, -54); (3 * 2 ^ 52 + 2 ^ 53 - 3, -54) ] = true.
Proof. vm_compute. reflexivity. Qed.

(** A [Retry-After] header in the HTTP-date form is not an integer:
    [int()] raises and the [ValueError] leaves [_request] at the first
    response. *)
Example request_with_date_retry_after :
  fst (_request default_api
         (always_429 (Some "Wed, 21 Oct 2015 07:28:00 GMT") 0) "GET" "/works" ∅ world0)
  = Raise ValueError.
Proof. vm_compute. reflexivity. Qed.

(** Of the control characters, [int()] skips the form feed but not the
    unit separator. *)
Example py_int_control_characters :
  py_int (String (ascii_of_N 12) "7") = Some 7 /\
  py_int (String (ascii_of_N 31) "7") = None.
Proof. vm_compute. split; reflexivity. Qed.

(** A [Retry-After] of 2^34 seconds: the jittered wait is more than
    [time.sleep] takes, and its [OverflowError] leaves [_request] after one
    exchange. *)
Example request_with_huge_retry_after :
  let out := _request default_api (always_429 (Some "17179869184") 0)
               "GET" "/works" ∅ world0 in
  fst out = Raise OverflowError /\ n_requests (snd out) = 1%nat /\
  List.filter is_sleep (trace (snd out)) = [].
Proof. vm_compute. repeat split. Qed.

(** When the clock cannot give the resume time, the error of
    [datetime.fromtimestamp] leaves [_request] before any sleep. *)
Example request_with_failing_clock :
  let E := {| transport := fun _ => respond 429 (Some "7") None;
              random_draw := fun _ => 0;
              resume_str := fun _ _ => inl YearOutOfRange;
              stderr_isatty := false |} in
  let out := _request default_api E "GET" "/works" ∅ world0 in
  fst out = Raise ValueError /\ n_requests (snd out) = 1%nat /\
  List.filter is_sleep (trace (snd out)) = [].
Proof. vm_compute. repeat split. Qed.

(** Three 429 responses and then a 200: the fourth exchange succeeds. *)
Example request_succeeds_on_last_attempt :
  let E := {| transport := fun n =>
                match n with
                | 3%nat => Responded {| status_code := 200;
                                        retry_after_header := None;
                                        body := Some (JObj [("results", JArr [])]) |}
                | _ => Responded {| status_code := 429;
                                    retry_after_header := Some "7";
                                    body := None |}
                end;
              random_draw := fun _ => 2 ^ 53 - 1;
              resume_str := fun _ _ => inr "12:00:00";
              stderr_isatty := true |} in
  let out := _request default_api E "GET" "/works" ∅ world0 in
  fst out = Ok (JObj [("results", JArr [])])
  /\ List.filter is_sleep (trace (snd out)) = [EvSleep 8; EvSleep 8; EvSleep 8].
Proof. vm_compute. split; reflexivity. Qed.

Example search_works_scenario :
  search_works_params {| email := Some "test@example.com"; max_retries := 3;
                         max_retry_wait := 60; status_callback := false |}
    (Some "machine learning") None (Some "2023-01-01") None (Some 100) (Some true)
    None None 1 25 None None
  !! "mailto" = Some (VStr "test@example.com").
Proof. vm_compute. reflexivity. Qed.

Example error_dict_of_connection_error :
  to_dict (APIError (JStr "Connection error: refused") None
             (Some "Check your network connection") (Some "refused"))
  = Some [ ("error", JStr "Connection error: refused");
           ("suggestion", JStr "Check your network connection");
           ("documentation", JStr "https://docs.openalex.org/") ].
Proof. reflexivity. Qed.

Example get_work_request :
  fst (get_work default_api
         (scripted 0 (respond 200 None (Some (JObj []))) (respond 200 None (Some (JObj []))) 0)
         "10.7717/peerj.4375" (Some ["id"; "title"]) world0) = Ok (JObj []) /\
  trace (snd (get_work default_api
                (scripted 0 (respond 200 None (Some (JObj []))) (respond 200 None (Some (JObj []))) 0)
                "10.7717/peerj.4375" (Some ["id"; "title"]) world0))
  = [EvRequest "GET" "/works/doi:10.7717/peerj.4375" (<["select" := VStr "id,title"]> ∅)].
Proof. split; vm_compute; reflexivity. Qed.

Example get_citations_of_a_doi :
  let E := scripted 1
             (respond 200 None
                (Some (JObj [("id", JStr "https://openalex.org/W2741809807")])))
             (respond 200 None (Some (JObj [("results", JArr [])]))) 0 in
  fst (get_citations default_api E "10.7717/peerj.4375" 1 25 (Some ["id"]) world0)
  = Returns (JObj [("results", JArr [])]) /\
  n_requests (snd (get_citations default_api E "10.7717/peerj.4375" 1 25 (Some ["id"])
                     world0)) = 2%nat.
Proof. split; vm_compute; reflexivity. Qed.

Example get_citations_without_id :
  let E := scripted 1 (respond 200 None (Some (JObj [])))
             (respond 200 None (Some (JObj []))) 0 in
  fst (get_citations default_api E "pmid:29456894" 1 25 None world0)
  = Raises (KeyError "id") /\
  fst (get_citations default_api
         (scripted 1 (respond 200 None (Some (JArr []))) (respond 200 None None) 0)
         "pmid:29456894" 1 25 None world0)
  = Raises TypeError.
Proof. split; vm_compute; reflexivity. Qed.

Example escape_latex_samples :
  _escape_latex "10% & $5" = "10\% \& \$5" /\
  _escape_latex "test_name" = "test\_name" /\
  _escape_latex "" = "" /\
  _escape_latex "a\b" = "a\textbackslash\{\}b".
Proof. repeat split; vm_compute; reflexivity. Qed.

Example reconstruct_abstract_samples :
  Abstract._reconstruct_abstract " "%char "."%char
    (Some [ (list_ascii_of_string "Hello", [0]); (list_ascii_of_string "world", [1]);
            (list_ascii_of_string "test", [2]) ])
  = Some (list_ascii_of_string "Hello world test") /\
  Abstract._reconstruct_abstract " "%char "."%char None = Some [] /\
  Abstract._reconstruct_abstract " "%char "."%char (Some []) = Some [] /\
  Abstract._reconstruct_abstract " "%char "."%char
    (Some [ (list_ascii_of_string "a", [2]) ])
  = Some (list_ascii_of_string "  a") /\
  Abstract._reconstruct_abstract " "%char "."%char
    (Some [ (list_ascii_of_string "a", [-1]) ])
  = Some (list_ascii_of_string "a") /\
  Abstract._reconstruct_abstract " "%char "."%char
    (Some [ (list_ascii_of_string "a", [-5]) ])
  = None.
Proof. repeat split; vm_compute; reflexivity. Qed.

Example reconstruct_abstract_truncates :
  option_map (@length ascii)
    (Abstract._reconstruct_abstract " "%char "."%char
       (Some [ (list_ascii_of_string "end", [600]) ]))
  = Some 603%nat /\
  option_map (@length ascii)
    (Abstract._reconstruct_abstract " "%char "."%char
       (Some [ (list_ascii_of_string "end", [1200]) ]))
  = Some 1000%nat.
Proof. split; vm_compute; reflexivity. Qed.
